(** * Two-sided hedging bots: a shallow embedding and its properties

    The development follows the three Python modules of the repository:
    - [pos_store.py]  : the JSON position cache ([read_pos], [write_pos]);
    - [cnx_trade.py]  : the derivatives-venue hedger (fill-or-kill taker);
    - [nbtx_trade.py] : the spot-venue maker with its order tracker.

    Modelling conventions.
    - A Python [float] and a [Decimal] are rationals ([Q]): arithmetic is
      exact, so the rounding of float operations, overflow, NaN and infinities
      are outside the model.  [x ** 0.5], the conversions of a string to a
      number ([float(s)], [int(s)], [Decimal(s)]) and the decimal that
      [str(x)] spells for a number are library functions taken as parameters.
    - The position files are a finite map from paths to contents; writing to
      a path is taken to succeed (the directory exists and is writable).
    - A Python exception of class [Exception] is a value of [exn]; code that can
      raise lives in the monad [M], which threads the venue state, the file
      system and the trace of calls made to the outside.
    - The functions of [nobitex_utils], [coinex_module], [ccxt], [sqlite3],
      [time] and [datetime] are not part of the sources: they are the fields of
      the record [Externals], and every theorem holds for all of them. *)

From Stdlib Require Import QArith Qround Qpower Lqa ZArith List Bool Ascii String.
From stdpp Require Import base gmap strings.
Import ListNotations.

Local Open Scope Q_scope.

(** ** Numbers *)

Definition Qltb (x y : Q) : bool := negb (Qle_bool y x).
Definition Qgtb (x y : Q) : bool := Qltb y x.
Definition Qgeb (x y : Q) : bool := Qle_bool y x.

(** Python's [max(a, b)]: the first argument unless the second is larger. *)
Definition py_max (a b : Q) : Q := if Qgtb b a then b else a.

(** Python's [abs]. *)
Definition py_abs (x : Q) : Q := if Qltb x 0 then - x else x.

(** [10.0 ** prec] for an integer precision. *)
Definition pow10 (prec : Z) : Q := Qpower 10 prec.

(** [math.floor], as a number again. *)
Definition py_floor (x : Q) : Q := inject_Z (Qfloor x).

(** [int(x)] on a float truncates towards zero. *)
Definition py_int (x : Q) : Z := if Qltb x 0 then Qceiling x else Qfloor x.

(** ** Strings *)

Definition ascii_upper (c : ascii) : ascii :=
  let n := nat_of_ascii c in
  if (Nat.leb 97 n && Nat.leb n 122)%bool then ascii_of_nat (n - 32) else c.

Definition ascii_lower (c : ascii) : ascii :=
  let n := nat_of_ascii c in
  if (Nat.leb 65 n && Nat.leb n 90)%bool then ascii_of_nat (n + 32) else c.

Fixpoint str_map (f : ascii -> ascii) (s : string) : string :=
  match s with
  | EmptyString => EmptyString
  | String c r => String (f c) (str_map f r)
  end.

(** [str.upper()] and [str.lower()] (on ASCII letters). *)
Definition upper : string -> string := str_map ascii_upper.
Definition lower : string -> string := str_map ascii_lower.

(** ** Python values met in JSON documents and venue answers *)

Inductive atom : Type :=
| ANone
| ANum (q : Q)
| AStr (s : string).

Inductive pyval : Type :=
| PAtom (a : atom)
| PDict (d : gmap string atom).

Definition PyNone : pyval := PAtom ANone.
Definition PyFloat (q : Q) : pyval := PAtom (ANum q).

(** Truth value of an atom, as [or] and [if] take it. *)
Definition truthy (a : atom) : bool :=
  match a with
  | ANone => false
  | ANum q => negb (Qeq_bool q 0)
  | AStr s => negb (String.eqb s "")
  end.

(** [a or b]. *)
Definition py_or (a b : atom) : atom := if truthy a then a else b.

(** [d.get(k)] and [d.get(k, dflt)] on a dictionary of atoms. *)
Definition dict_get (d : gmap string atom) (k : string) : atom :=
  default ANone (d !! k).
Definition dict_get_or (d : gmap string atom) (k : string) (dflt : atom) : atom :=
  default dflt (d !! k).

(** [==] on atoms and values: numbers by value, no coercion from strings. *)
Definition atom_eqb (a b : atom) : bool :=
  match a, b with
  | ANone, ANone => true
  | ANum x, ANum y => Qeq_bool x y
  | AStr s, AStr t => String.eqb s t
  | _, _ => false
  end.

Definition dict_eqb (d1 d2 : gmap string atom) : bool :=
  bool_decide (dom d1 = dom d2) &&
  forallb (fun kv => match d2 !! kv.1 with
                     | Some b => atom_eqb kv.2 b
                     | None => false
                     end) (map_to_list d1).

Definition pyval_eqb (v w : pyval) : bool :=
  match v, w with
  | PAtom a, PAtom b => atom_eqb a b
  | PDict d1, PDict d2 => dict_eqb d1 d2
  | _, _ => false
  end.

(** ** Exceptions and results *)

(** The subclasses of [Exception] that the programs can meet.  [VenueError]
    stands for whatever a collaborator raises (network, HTTP, sqlite). *)
Inductive exn : Type :=
| FileNotFoundError
| JSONDecodeError
| AttributeError
| TypeError
| ValueError
| IndexError
| KeyError
| InvalidOperation
| VenueError (msg : string).

Inductive result (A : Type) : Type :=
| Ok (a : A)
| Raise (e : exn).
Arguments Ok {A} a.
Arguments Raise {A} e.

Definition is_ok {A} (r : result A) : bool :=
  match r with Ok _ => true | Raise _ => false end.

(** ** Order books *)

(** One price level; the spot venue gives [{"price": p, ...}], the futures
    venue and Binance give [[p, amount]]. *)
Record level : Type := Level { price : Q; amount : Q }.

Record orderbook : Type := Orderbook { bids : list level; asks : list level }.

(** [levels[0]], raising [IndexError] on an empty side. *)
Definition first_level (l : list level) : result level :=
  match l with
  | [] => Raise IndexError
  | x :: _ => Ok x
  end.

(** ** Calls to the outside, as they appear in the trace *)

Inductive event : Type :=
| EvNobitexBook (market : string)
| EvFutureBook (symbol : string)
| EvBinanceBook (symbol : string)
| EvNewOrder (side : string) (qty : Q) (market : string) (px : Q)
| EvCheckOrder (order_id : atom)
| EvCancelOrder (order_id : atom)
| EvCxOpenOrder (market side order_type : string) (amt : Q) (px : option Q)
| EvCxCheckOrder (symbol : string) (order_id : Z)
| EvCxCancelOrder (symbol : string) (order_id : Z)
| EvCxPosition (symbol : string)
| EvObsQuery (db : string) (st now : Z)
| EvReadBalance (coin : string) (held : result Q)
| EvReadTrades (path : string)
| EvDumpTrades (path : string) (n : nat)
| EvSleep (secs : Q)
| EvLog (msg : string).

(** ** Files *)

(** What [json.load] makes of a file: not JSON at all, a JSON document that is
    not an object, or an object.  A path outside the map does not exist. *)
Inductive file : Type :=
| FGarbage
| FNotObject
| FObject (d : gmap string pyval).

(** ** The state threaded through a run *)

Record state (W : Type) : Type := State {
  world : W;
  fs : gmap string file;
  trace : list event
}.
Arguments State {W} world fs trace.
Arguments world {W} s.
Arguments fs {W} s.
Arguments trace {W} s.

(** ** The monad of Python code: state that survives a raise *)

Definition M (W A : Type) : Type := state W -> result A * state W.

Definition ret {W A} (a : A) : M W A := fun s => (Ok a, s).

Definition raise {W A} (e : exn) : M W A := fun s => (Raise e, s).

Definition bind {W A B} (m : M W A) (k : A -> M W B) : M W B :=
  fun s => match m s with
           | (Ok a, s') => k a s'
           | (Raise e, s') => (Raise e, s')
           end.

(** [try: m  except Exception as e: h e]. *)
Definition try_except {W A} (m : M W A) (h : exn -> M W A) : M W A :=
  fun s => match m s with
           | (Ok a, s') => (Ok a, s')
           | (Raise e, s') => h e s'
           end.

(** A pure computation that may raise. *)
Definition lift {W A} (r : result A) : M W A := fun s => (r, s).

(** A call to a collaborator: the answer comes from the world, the call is
    appended to the trace (with what it answered, when the event keeps it). *)
Definition call {W A} (ev : result A -> event) (h : W -> result A * W) : M W A :=
  fun s => match h (world s) with
           | (r, w') => (r, State w' (fs s) (trace s ++ [ev r]))
           end.

(** A collaborator that cannot fail. *)
Definition call_total {W A} (h : W -> A * W) : M W A :=
  fun s => match h (world s) with
           | (a, w') => (Ok a, State w' (fs s) (trace s))
           end.

Definition emit {W} (ev : event) : M W unit :=
  fun s => (Ok tt, State (world s) (fs s) (trace s ++ [ev])).

Definition get_fs {W} : M W (gmap string file) := fun s => (Ok (fs s), s).

Definition put_fs {W} (f : gmap string file) : M W unit :=
  fun s => (Ok tt, State (world s) f (trace s)).

Declare Scope py_scope.
Delimit Scope py_scope with py.
Notation "x <- m ;; k" := (bind m (fun x => k))
  (at level 100, m at next level, right associativity) : py_scope.
Notation "m ;; k" := (bind m (fun _ => k))
  (at level 100, right associativity) : py_scope.
Local Open Scope py_scope.

(** [log(msg)] of [nobitex_utils]: an effect on the trace only. *)
Definition log {W} (msg : string) : M W unit := emit (EvLog msg).

(** ** The collaborators *)

(** One executed spot trade, as kept in the [buys] and [sells] lists. *)
Record trade : Type := Trade {
  t_id : atom; t_p : Q; t_q : Q; t_t : string; t_side : string
}.

(** What [cx._signed_request] answers: something that is not a dictionary, or
    a dictionary with or without a list under ["positions"]. *)
Inductive cx_data : Type :=
| CxNotDict
| CxDict (positions : option (list (gmap string atom))).

Record Externals (W : Type) : Type := {
  (* nobitex_utils *)
  get_nobitex_orderbook : string -> W -> result orderbook * W;
  new_order : string -> Q -> string -> Q -> W -> result (gmap string pyval) * W;
  check_order : atom -> W -> result (gmap string pyval) * W;
  cancel_order : atom -> W -> result unit * W;
  parse_order_response : gmap string pyval -> result string;
  read_balance : string -> string -> W -> result Q * W;
  ri : Q -> result Q;
  (* coinex_module *)
  cx_future_order_book : string -> Z -> W -> result orderbook * W;
  cx_signed_request : string -> string -> string -> W -> result cx_data * W;
  cx_open_order : string -> string -> string -> Q -> option Q -> Q ->
                  W -> result (gmap string pyval) * W;
  cx_check_order : string -> Z -> W -> result (gmap string pyval) * W;
  cx_cancel_order : string -> Z -> W -> result unit * W;
  (* ccxt *)
  binance_fetch_order_book : string -> W -> result orderbook * W;
  (* sqlite3: the aggregate row (avg(diff), avg(diff*diff), count( * )) *)
  obs_query : string -> Z -> Z -> W -> result (option (option Q * option Q * Z)) * W;
  (* pandas *)
  pd_read_pickle : string -> W -> result (list trade * list trade) * W;
  pd_to_pickle : string -> list trade * list trade -> W -> result unit * W;
  (* time, datetime *)
  time_time : W -> Q * W;
  time_sleep : Q -> W -> unit * W;
  now_iso : W -> string * W;
  (* float(s), int(s) and Decimal(s) on a string; [None] when they raise *)
  parse_number : string -> option Q;
  parse_int : string -> option Z;
  parse_decimal : string -> option Q;
  (* Decimal(str(x)) on a number: the decimal that str(x) spells, which for a
     float is the shortest one that reads back as x, not the float's own
     value *)
  decimal_str : Q -> Q;
  (* x ** 0.5 *)
  pow_half : Q -> Q
}.
Arguments get_nobitex_orderbook {W} e.
Arguments new_order {W} e.
Arguments check_order {W} e.
Arguments cancel_order {W} e.
Arguments parse_order_response {W} e.
Arguments read_balance {W} e.
Arguments ri {W} e.
Arguments cx_future_order_book {W} e.
Arguments cx_signed_request {W} e.
Arguments cx_open_order {W} e.
Arguments cx_check_order {W} e.
Arguments cx_cancel_order {W} e.
Arguments binance_fetch_order_book {W} e.
Arguments obs_query {W} e.
Arguments pd_read_pickle {W} e.
Arguments pd_to_pickle {W} e.
Arguments time_time {W} e.
Arguments time_sleep {W} e.
Arguments now_iso {W} e.
Arguments parse_number {W} e.
Arguments parse_int {W} e.
Arguments parse_decimal {W} e.
Arguments decimal_str {W} e.
Arguments pow_half {W} e.

(** [time.sleep(secs)]. *)
Definition sleep {W} (X : Externals W) (secs : Q) : M W unit :=
  emit (EvSleep secs) ;; call_total (time_sleep X secs).

(** [float(a)] and [Decimal(str(a))] of an atom.  A [Decimal] made from a
    float is the decimal that [str] spells for it, and it is that decimal
    which Python then compares, exactly, with other numbers. *)
Definition to_float {W} (X : Externals W) (a : atom) : result Q :=
  match a with
  | ANone => Raise TypeError
  | ANum q => Ok q
  | AStr s => match parse_number X s with
              | Some q => Ok q
              | None => Raise ValueError
              end
  end.

Definition to_decimal {W} (X : Externals W) (a : atom) : result Q :=
  match a with
  | ANone => Raise InvalidOperation
  | ANum q => Ok (decimal_str X q)
  | AStr s => match parse_decimal X s with
              | Some q => Ok q
              | None => Raise InvalidOperation
              end
  end.

(** * pos_store.py *)

Module PosStore.
Section PosStore.
Context {W : Type} (X : Externals W).

(** [with open(path) as f: data = json.load(f)]. *)
Definition json_load (path : string) : M W file :=
  f <- get_fs ;;
  match f !! path with
  | None => raise FileNotFoundError
  | Some FGarbage => raise JSONDecodeError
  | Some doc => ret doc
  end.

(** [data.get(key)] on a loaded document. *)
Definition doc_get (data : file) (key : string) : M W pyval :=
  match data with
  | FObject d => ret (default PyNone (d !! key))
  | _ => raise AttributeError
  end.

Definition read_pos (path symbol : string) : M W pyval :=
  try_except
    (data <- json_load path ;;
     doc_get data (upper symbol))
    (fun e => match e with
              | FileNotFoundError => ret PyNone
              | _ => ret PyNone
              end).

(** The side tag written next to the quantity. *)
Definition side_of_qty (qty : Q) : string :=
  if Qgtb qty 0 then "buy" else if Qltb qty 0 then "sell" else "flat".

(** The record stored per symbol. *)
Definition pos_record (qty : Q) (side time : string) : gmap string atom :=
  <["q" := ANum qty]> (<["side" := AStr side]> (<["time" := AStr time]> ∅)).

(** [data[sym] = rec]: only a dictionary takes the assignment. *)
Definition doc_set (data : file) (key : string) (v : pyval) : M W file :=
  match data with
  | FObject d => ret (FObject (<[key := v]> d))
  | _ => raise TypeError
  end.

Definition write_pos (path symbol : string) (qty : Q) : M W unit :=
  let sym := upper symbol in
  let side := side_of_qty qty in
  f <- get_fs ;;
  data <- (if bool_decide (is_Some (f !! path))
           then try_except (json_load path) (fun _ => ret (FObject ∅))
           else ret (FObject ∅)) ;;
  time <- call_total (now_iso X) ;;
  data <- doc_set data sym (PDict (pos_record qty side time)) ;;
  let tmp := (path ++ ".tmp")%string in
  f <- get_fs ;;
  put_fs (<[tmp := data]> f) ;;
  f <- get_fs ;;
  match f !! tmp with
  | Some c => put_fs (<[path := c]> (delete tmp f))
  | None => raise FileNotFoundError
  end.

End PosStore.
End PosStore.

(** ** Values of mixed dictionaries (venue answers) *)

Definition pv_get (d : gmap string pyval) (k : string) : pyval :=
  default PyNone (d !! k).

Definition pv_truthy (v : pyval) : bool :=
  match v with
  | PAtom a => truthy a
  | PDict d => negb (bool_decide (d = ∅))
  end.

Definition pv_or (a b : pyval) : pyval := if pv_truthy a then a else b.

(** [float(v)] and [int(v)]: [int] truncates a number and reads a string as
    an integer literal, so that [int("11.0")] raises. *)
Definition pv_float {W} (X : Externals W) (v : pyval) : result Q :=
  match v with
  | PAtom a => to_float X a
  | PDict _ => Raise TypeError
  end.

Definition pv_int {W} (X : Externals W) (v : pyval) : result Z :=
  match v with
  | PAtom ANone => Raise TypeError
  | PAtom (ANum q) => Ok (py_int q)
  | PAtom (AStr s) => match parse_int X s with
                      | Some z => Ok z
                      | None => Raise ValueError
                      end
  | PDict _ => Raise TypeError
  end.

(** A value used where arithmetic or an ordering needs a number:
    [TypeError] for [None] and for a dictionary. *)
Definition as_number (v : pyval) : result Q :=
  match v with
  | PAtom (ANum q) => Ok q
  | _ => Raise TypeError
  end.

(** * cnx_trade.py *)

Module Cnx.

(** The entries of [CFG] that the loop reads. *)
Record config : Type := Config {
  coinex_symbol : string;
  pos_store_path : string;
  qty_precision : Z;
  price_precision : Z;
  l_units : Q;
  u_units : Q;
  t_units : Q;
  k : Q;
  window_min : Z;
  interval_sec : Q;
  leverage : Q;
  obs_db_path : string;
  cfg_coin : option string;
  balance_pickle : string;
  min_qty : Q
}.

(** What the loop keeps from one cycle to the next. *)
Record loop_state : Type := LoopState {
  last_stats_ts : Q;
  mean : Q;
  std : Q
}.

Definition round_qty (q : Q) (prec : Z) : Q :=
  if (prec <=? 0)%Z then py_floor q
  else let f := pow10 prec in py_floor (q * f) / f.

Definition round_price (p : Q) (prec : Z) : Q :=
  let f := pow10 prec in py_floor (p * f) / f.

Definition center_from_b (b_units l_units u_units : Q) : Q :=
  let m := (1 # 2) * (l_units + u_units) in
  m - b_units.

(** [statistics.fmean], [statistics.pstdev] and [statistics.stdev], the square
    root being the library's. *)
Definition qsum (l : list Q) : Q := fold_right Qplus 0 l.

Definition fmean (vals : list Q) : Q := qsum vals / inject_Z (Z.of_nat (length vals)).

Definition sq_dev (vals : list Q) : Q :=
  let m := fmean vals in qsum (map (fun x => (x - m) * (x - m)) vals).

Section Cnx.
Context {W : Type} (X : Externals W).

Definition pstdev (vals : list Q) : Q :=
  pow_half X (sq_dev vals / inject_Z (Z.of_nat (length vals))).

Definition stdev (vals : list Q) : Q :=
  pow_half X (sq_dev vals / inject_Z (Z.of_nat (length vals) - 1)).

Definition coinex_best (symbol : string) : M W (Q * Q) :=
  ob <- call (fun _ => EvFutureBook symbol) (cx_future_order_book X symbol 5) ;;
  b <- lift (first_level (bids ob)) ;;
  a <- lift (first_level (asks ob)) ;;
  ret (price b, price a).

(** The loop of [get_coinex_pos] over the reported positions. *)
Fixpoint sum_positions (symbol : string) (ps : list (gmap string atom)) (pos : Q)
  : M W Q :=
  match ps with
  | [] => ret pos
  | p :: rest =>
      if atom_eqb (dict_get p "market") (AStr symbol) then
        size <- lift (to_float X (dict_get_or p "size" (ANum 0))) ;;
        side <- match py_or (dict_get p "side") (AStr "") with
                | AStr s => ret (lower s)
                | _ => raise AttributeError
                end ;;
        sum_positions symbol rest
          (pos + (if String.eqb side "long" then size else - size))
      else sum_positions symbol rest pos
  end.

Definition get_coinex_pos (symbol store_path : string) : M W pyval :=
  live <- try_except
            (data <- call (fun _ => EvCxPosition symbol)
                       (cx_signed_request X "GET" "/futures/position" symbol) ;;
             match data with
             | CxDict (Some (p :: ps)) =>
                 pos <- sum_positions symbol (p :: ps) 0 ;;
                 ret (Some (PyFloat pos))
             | _ => ret None
             end)
            (fun _ => ret None) ;;
  match live with
  | Some v => ret v
  | None => PosStore.read_pos store_path symbol
  end.

Definition live_diff (coin : string) : M W (Q * Q * Q) :=
  usdt <- call (fun _ => EvNobitexBook "USDTIRT") (get_nobitex_orderbook X "USDTIRT") ;;
  ub <- lift (first_level (bids usdt)) ;;
  ua <- lift (first_level (asks usdt)) ;;
  let usdt_mid := (price ub + price ua) / 2 in
  let market := (coin ++ "IRT")%string in
  ob <- call (fun _ => EvNobitexBook market) (get_nobitex_orderbook X market) ;;
  cb <- lift (first_level (bids ob)) ;;
  ca <- lift (first_level (asks ob)) ;;
  let coin_irt_mid := (price cb + price ca) / 2 in
  best <- coinex_best (coin ++ "USDT")%string ;;
  let coin_usdt_mid := (fst best + snd best) / 2 in
  let x := coin_usdt_mid * usdt_mid in
  let y := coin_irt_mid in
  ret (x, y, x - y).

(** The statistics of the aggregate row, when it has at least two samples. *)
Definition row_stats (row : option Q * option Q * Z) : option (Q * Q * Z) :=
  match row with
  | (Some mean, Some mean_sq, n) =>
      if (2 <=? n)%Z then
        let var := py_max 0 (mean_sq - mean * mean) in
        let std := if (1 <? n)%Z
                   then pow_half X (var * inject_Z n / inject_Z (n - 1))
                   else 0 in
        Some (mean, std, n)
      else None
  | _ => None
  end.

(** [for _ in range(n): ... vals.append(z); time.sleep(0.2)]. *)
Fixpoint burst (cfg : config) (n : nat) (vals : list Q) : M W (list Q) :=
  match n with
  | O => ret vals
  | S n' =>
      coin <- match cfg_coin cfg with
              | Some c => ret c
              | None => raise KeyError
              end ;;
      xyz <- live_diff coin ;;
      sleep X (2 # 10) ;;
      burst cfg n' (vals ++ [snd xyz])
  end.

Definition window_stats (cfg : config) (obs_db_path : string) (window_min : Z)
  : M W (Q * Q * Z) :=
  stored <- try_except
              (t <- call_total (time_time X) ;;
               let now := py_int t in
               let st := (now - window_min * 60)%Z in
               row <- call (fun _ => EvObsQuery obs_db_path st now)
                        (obs_query X obs_db_path st now) ;;
               ret (row_stats (default (None, None, 0%Z) row)))
              (fun _ => ret None) ;;
  match stored with
  | Some r => ret r
  | None =>
      vals <- burst cfg 10 [] ;;
      if (2 <=? length vals)%nat then
        let mean := fmean vals in
        let std := if (length vals <? 3)%nat then pstdev vals else stdev vals in
        ret (mean, std, Z.of_nat (length vals))
      else ret (0, 0, 0%Z)
  end.

(** [int(resp.get("order_id") or resp.get("order", {}).get("id") or 0)]. *)
Definition parse_order_id (resp : gmap string pyval) : result Z :=
  let a := pv_get resp "order_id" in
  if pv_truthy a then pv_int X a
  else match default (PDict ∅) (resp !! "order") with
       | PDict d => pv_int X (pv_or (PAtom (dict_get d "id")) (PyFloat 0))
       | PAtom _ => Raise AttributeError
       end.

(** [od = st.get("order") or st]. *)
Definition order_fields (st : gmap string pyval) : result (gmap string pyval) :=
  let o := pv_get st "order" in
  if pv_truthy o then
    match o with
    | PDict d => Ok (PAtom <$> d)
    | PAtom _ => Raise AttributeError
    end
  else Ok st.

Definition rev_side (side : string) : string :=
  if String.eqb side "buy" then "sell" else "buy".

Definition epsilon : Q := 1 # 1000000000000.

Definition fok_taker (cfg : config) (symbol side : string) (qty px : Q)
    (qty_prec price_prec : Z) : M W bool :=
  let q := py_max 0 (round_qty qty qty_prec) in
  let p := round_price px price_prec in
  if Qle_bool q 0 then ret true
  else
    placed <- try_except
                (resp <- call (fun _ => EvCxOpenOrder symbol side "limit" q (Some p))
                           (cx_open_order X symbol side "limit" q (Some p) (leverage cfg)) ;;
                 order_id <- lift (parse_order_id resp) ;;
                 ret (Some order_id))
                (fun e => log "[CX] order error" ;; ret None) ;;
    match placed with
    | None => ret false
    | Some order_id =>
        sleep X (4 # 10) ;;
        try_except
          (st <- call (fun _ => EvCxCheckOrder symbol order_id)
                   (cx_check_order X symbol order_id) ;;
           od <- lift (order_fields st) ;;
           matched <- lift (pv_float X
                              (pv_or (pv_or (pv_get od "amount_filled")
                                            (pv_get od "matched_amount"))
                                     (PyFloat 0))) ;;
           requested <- lift (pv_float X (pv_or (pv_get od "amount") (PyFloat q))) ;;
           if Qgeb matched (requested - epsilon) then ret true
           else
             call (fun _ => EvCxCancelOrder symbol order_id)
               (cx_cancel_order X symbol order_id) ;;
             (if Qgtb matched 0 then
                try_except
                  (call (fun _ => EvCxOpenOrder symbol (rev_side side) "market" matched None)
                     (cx_open_order X symbol (rev_side side) "market" matched None
                        (leverage cfg)) ;;
                   ret tt)
                  (fun e2 => log "[CX] revert market failed")
              else ret tt) ;;
             ret false)
          (fun e => log "[CX] check/cancel error" ;; ret false)
    end.

(** Lines 243-254 of [main]: the position written back after an attempt. *)
Definition store_after_attempt (cfg : config) (sym : string) (cur need : Q)
    (side : string) (ok : bool) : M W unit :=
  let pos_store := pos_store_path cfg in
  if ok then
    new_pos <- get_coinex_pos sym pos_store ;;
    cached <- PosStore.read_pos pos_store sym ;;
    let new_pos :=
      if pyval_eqb new_pos cached
      then PyFloat (cur + (if String.eqb side "buy" then need else - need))
      else new_pos in
    qty <- lift (as_number new_pos) ;;
    PosStore.write_pos X pos_store sym qty ;;
    log "[CX] FOK filled."
  else
    PosStore.write_pos X pos_store sym cur ;;
    log "[CX] FOK not filled. pos unchanged.".

(** One turn of the [while True] of [main]; a [continue] is an early [ret]. *)
Definition cycle (cfg : config) (coin : string) (ls : loop_state) : M W loop_state :=
  let sym := coinex_symbol cfg in
  let pos_store := pos_store_path cfg in
  sleep X (interval_sec cfg) ;;
  now <- call_total (time_time X) ;;
  refreshed <-
    (if Qgtb (now - last_stats_ts ls) (inject_Z (window_min cfg * 60))
     then
       r <- window_stats cfg (obs_db_path cfg) (window_min cfg) ;;
       log "[CX] mean std n" ;;
       ret (LoopState now (fst (fst r)) (snd (fst r)), Qle_bool (snd (fst r)) 0)
     else ret (ls, false)) ;;
  let ls := fst refreshed in
  if snd refreshed then ret ls
  else
    xyz <- live_diff coin ;;
    let z := snd xyz in
    let lower := mean ls - k cfg * std ls in
    let upper := mean ls + k cfg * std ls in
    if negb (Qgtb z upper || Qltb z lower) then ret ls
    else
      b_units <- call (EvReadBalance coin) (read_balance X coin (balance_pickle cfg)) ;;
      let target := center_from_b b_units (l_units cfg) (u_units cfg) in
      cur_v <- get_coinex_pos sym pos_store ;;
      cur <- lift (as_number cur_v) ;;
      let delta := target - cur in
      let side := if Qgtb delta 0 then "buy"%string else "sell"%string in
      let need := py_abs delta in
      if Qle_bool need (min_qty cfg) then ret ls
      else
        best <- coinex_best sym ;;
        let px := if String.eqb side "buy" then snd best else fst best in
        log "[CX] z target cur delta" ;;
        ok <- fok_taker cfg sym side need px (qty_precision cfg) (price_precision cfg) ;;
        store_after_attempt cfg sym cur need side ok ;;
        ret ls.

End Cnx.
End Cnx.

(** * nbtx_trade.py *)

Module Nbtx.

(** The entries of the configuration read at the top of [main]. *)
Record config : Type := Config {
  window_min : Z;
  k : Q;
  w_buy : Q;
  w_sell : Q;
  timeout_sec : Z;
  interval_sec : Q;
  obs_db_path : string;
  balance_path : string;
  pos_store : string;
  order_qty : Q;
  l_units : Q;
  u_units : Q;
  t_units : Q;
  trades_path : string
}.

(** The variables of [main] that live across cycles. *)
Record loop_state : Type := LoopState {
  last_stats : Q;
  mean : Q;
  std : Q;
  buys : list trade;
  sells : list trade
}.

Definition weighted_limit_price (side : string) (best_bid best_ask weight : Q) : Q :=
  weight * (if String.eqb side "buy" then best_bid else best_ask)
  + (1 - weight) * (if String.eqb side "buy" then best_ask else best_bid).

(** The band test of [within_tobit_window], on a numeric position. *)
Definition within_band (position center tolerance : Q) : bool :=
  Qltb (center - tolerance) position && Qltb position (center + tolerance).

(** The inventory guards of lines 196 and 214: [true] when the action is skipped. *)
Definition buy_blocked (b_units order_qty u_units : Q) : bool :=
  Qgtb (b_units + order_qty) u_units.

Definition sell_blocked (b_units order_qty l_units : Q) : bool :=
  Qltb (b_units - order_qty) l_units.

(** [status in {"finished", "filled", "done", "complete"}]. *)
Definition status_done (status : string) : bool :=
  String.eqb status "finished" || String.eqb status "filled"
  || String.eqb status "done" || String.eqb status "complete".

(** [x in (0, "0")]. *)
Definition is_zero_amount (x : atom) : bool :=
  atom_eqb x (ANum 0) || atom_eqb x (AStr "0").

Section Nbtx.
Context {W : Type} (X : Externals W).

Definition window_stats (obs_db_path : string) (window_min : Z) : M W (Q * Q * Z) :=
  t <- call_total (time_time X) ;;
  let now := py_int t in
  let st := (now - window_min * 60)%Z in
  row <- call (fun _ => EvObsQuery obs_db_path st now) (obs_query X obs_db_path st now) ;;
  match default (None, None, 0%Z) row with
  | (Some mean, Some mean_sq, n) =>
      if (2 <=? n)%Z then
        let var := py_max 0 (mean_sq - mean * mean) in
        let std := if (1 <? n)%Z
                   then pow_half X (var * inject_Z n / inject_Z (n - 1))
                   else 0 in
        ret (mean, std, n)
      else ret (0, 0, 0%Z)
  | _ => ret (0, 0, 0%Z)
  end.

Definition live_diff (coin : string) : M W (Q * Q * Q) :=
  usdt <- call (fun _ => EvNobitexBook "USDTIRT") (get_nobitex_orderbook X "USDTIRT") ;;
  ub <- lift (first_level (bids usdt)) ;;
  ua <- lift (first_level (asks usdt)) ;;
  let usdt_mid := (price ub + price ua) / 2 in
  let market := (coin ++ "IRT")%string in
  ob <- call (fun _ => EvNobitexBook market) (get_nobitex_orderbook X market) ;;
  cb <- lift (first_level (bids ob)) ;;
  ca <- lift (first_level (asks ob)) ;;
  let coin_irt_mid := (price cb + price ca) / 2 in
  coin_usdt_mid <-
    try_except
      (let fut := (coin ++ "USDT")%string in
       ob_f <- call (fun _ => EvFutureBook fut) (cx_future_order_book X fut 5) ;;
       bb <- lift (first_level (bids ob_f)) ;;
       ba <- lift (first_level (asks ob_f)) ;;
       ret ((price bb + price ba) / 2))
      (fun _ =>
       let pair := (coin ++ "/USDT")%string in
       ob2 <- call (fun _ => EvBinanceBook pair) (binance_fetch_order_book X pair) ;;
       bb <- lift (first_level (bids ob2)) ;;
       ba <- lift (first_level (asks ob2)) ;;
       ret ((price bb + price ba) / 2)) ;;
  let x := coin_usdt_mid * usdt_mid in
  let y := coin_irt_mid in
  ret (x, y, x - y).

(** What one poll of the tracker decides. *)
Inductive tick : Type :=
| Return (outcome : string) (matched notional : Q)
| Again.

(** [log(msg); cancel_order(order_id); return outcome, matched, notional],
    the common end of the three cancelling branches. *)
Definition cancel_and_return (order_id : atom) (msg outcome : string)
    (matched notional : Q) : M W tick :=
  log msg ;;
  call (fun _ => EvCancelOrder order_id) (cancel_order X order_id) ;;
  ret (Return outcome matched notional).

(** The body of the [while True] of [track_and_cancel], up to the sleep. *)
Definition track_tick (order_id : atom) (market side : string) (timeout : Z)
    (mean std k : Q) (coin : string) (start : Q) : M W tick :=
  ob <- call (fun _ => EvNobitexBook market) (get_nobitex_orderbook X market) ;;
  bb <- lift (first_level (bids ob)) ;;
  let best_bid := price bb in
  ba <- lift (first_level (asks ob)) ;;
  let best_ask := price ba in
  resp <- call (fun _ => EvCheckOrder order_id) (check_order X order_id) ;;
  info <- match default (PDict ∅) (resp !! "order") with
          | PDict d => ret d
          | PAtom _ => raise AttributeError
          end ;;
  status <- match py_or (dict_get info "status") (AStr "") with
            | AStr s => ret (lower s)
            | _ => raise AttributeError
            end ;;
  matched <- lift (to_decimal X (dict_get_or info "matchedAmount" (ANum 0))) ;;
  order_price <- lift (to_decimal X
                   (dict_get_or info "Price"
                      (ANum (if String.eqb side "buy" then best_ask else best_bid)))) ;;
  if status_done status && is_zero_amount (dict_get_or info "unmatchedAmount" (ANum 0))
  then log "filled" ;; ret (Return "FILLED" matched (matched * order_price))
  else if String.eqb side "buy" && Qltb order_price best_bid
  then cancel_and_return order_id "no longer best bid -> cancel"
         "NOT_BEST" matched (matched * order_price)
  else if String.eqb side "sell" && Qgtb order_price best_ask
  then cancel_and_return order_id "no longer best ask -> cancel"
         "NOT_BEST" matched (matched * order_price)
  else
    xyz <- live_diff coin ;;
    let z := snd xyz in
    if Qltb (mean - k * std) z && Qltb z (mean + k * std)
    then cancel_and_return order_id "signal vanished -> cancel"
           "NO_SIGNAL" matched (matched * order_price)
    else
      now <- call_total (time_time X) ;;
      if Qgtb (now - start) (inject_Z timeout)
      then cancel_and_return order_id "timeout -> cancel"
             "TIMEOUT" matched (matched * order_price)
      else ret Again.

(** The loop itself; [None] when [fuel] polls were not enough to leave it. *)
Fixpoint track_loop (fuel : nat) (order_id : atom) (market side : string)
    (timeout : Z) (mean std k : Q) (coin : string) (poll start : Q)
  : M W (option (string * Q * Q)) :=
  match fuel with
  | O => ret None
  | S fuel' =>
      t <- track_tick order_id market side timeout mean std k coin start ;;
      match t with
      | Return outcome matched notional => ret (Some (outcome, matched, notional))
      | Again =>
          sleep X poll ;;
          track_loop fuel' order_id market side timeout mean std k coin poll start
      end
  end.

Definition track_and_cancel (fuel : nat) (order_id : atom) (market side : string)
    (timeout : Z) (mean std k : Q) (coin : string) (poll : Q)
  : M W (option (string * Q * Q)) :=
  start <- call_total (time_time X) ;;
  track_loop fuel order_id market side timeout mean std k coin poll start.

(** The closure of [main]: the hedge-venue position against the band around
    the centre; the comparison needs a number on its right. *)
Definition within_tobit_window (cfg : config) (coin : string) (b_units : Q)
  : M W (bool * pyval * Q * Q * Q) :=
  let m := (1 # 2) * (l_units cfg + u_units cfg) in
  let center := m - b_units in
  pos <- PosStore.read_pos (pos_store cfg) (coin ++ "USDT")%string ;;
  p <- lift (as_number pos) ;;
  ret (within_band p center (t_units cfg), pos, center,
       center - t_units cfg, center + t_units cfg).

(** [resp["order"]["id"]]. *)
Definition response_order_id (resp : gmap string pyval) : result atom :=
  match resp !! "order" with
  | None => Raise KeyError
  | Some (PAtom _) => Raise TypeError
  | Some (PDict d) => match d !! "id" with
                      | None => Raise KeyError
                      | Some a => Ok a
                      end
  end.

(** Lines 199-209 and 217-227 of [main]: price, place, track, record.  The
    result is [None] when the tracker did not return within [fuel] polls. *)
Definition attempt (fuel : nat) (cfg : config) (coin : string) (ls : loop_state)
    (side : string) (weight best_bid best_ask : Q) : M W (option loop_state) :=
  let market := (coin ++ "IRT")%string in
  let price_tmn := weighted_limit_price side best_bid best_ask weight in
  price_ri <- lift (ri X price_tmn) ;;
  log (if String.eqb side "buy" then "[NB] BUY" else "[NB] SELL") ;;
  resp <- call (fun _ => EvNewOrder side (order_qty cfg) market price_ri)
            (new_order X side (order_qty cfg) market price_ri) ;;
  verdict <- lift (parse_order_response X resp) ;;
  if String.eqb verdict "success" then
    oid <- lift (response_order_id resp) ;;
    r <- track_and_cancel fuel oid market side (timeout_sec cfg)
           (mean ls) (std ls) (k cfg) coin 2 ;;
    match r with
    | None => ret None
    | Some (_, matched, _) =>
        if Qgtb matched 0 then
          t <- call_total (now_iso X) ;;
          let tr := Trade oid price_tmn matched t side in
          ret (Some (if String.eqb side "buy"
                     then LoopState (last_stats ls) (mean ls) (std ls)
                            (buys ls ++ [tr]) (sells ls)
                     else LoopState (last_stats ls) (mean ls) (std ls)
                            (buys ls) (sells ls ++ [tr])))
        else ret (Some ls)
    end
  else log "[NB] order rejected" ;; ret (Some ls).

(** Lines 191-227: the action taken on the signal.  The flag is [true] when
    the branch ends in [continue]. *)
Definition signal_block (fuel : nat) (cfg : config) (coin : string) (ls : loop_state)
    (z lower upper b_units best_bid best_ask : Q) : M W (option (loop_state * bool)) :=
  if Qgtb z upper then
    if buy_blocked b_units (order_qty cfg) (u_units cfg)
    then log "[NB] skip BUY: would exceed u_units" ;; ret (Some (ls, true))
    else r <- attempt fuel cfg coin ls "buy" (w_buy cfg) best_bid best_ask ;;
         ret (option_map (fun l => (l, false)) r)
  else if Qltb z lower then
    if sell_blocked b_units (order_qty cfg) (l_units cfg)
    then log "[NB] skip SELL: would fall below l_units" ;; ret (Some (ls, true))
    else r <- attempt fuel cfg coin ls "sell" (w_sell cfg) best_bid best_ask ;;
         ret (option_map (fun l => (l, false)) r)
  else ret (Some (ls, false)).

(** Lines 229-237: the periodic dump of the recorded trades. *)
Definition periodic_dump (cfg : config) (ls : loop_state) : M W loop_state :=
  if (5 <=? length (buys ls) + length (sells ls))%nat then
    d <- try_except
           (call (fun _ => EvReadTrades (trades_path cfg))
              (pd_read_pickle X (trades_path cfg)))
           (fun e => match e with
                     | FileNotFoundError => ret ([], [])
                     | _ => raise e
                     end) ;;
    let d' := (fst d ++ buys ls, snd d ++ sells ls) in
    call (fun _ => EvDumpTrades (trades_path cfg) (length (fst d') + length (snd d')))
      (pd_to_pickle X (trades_path cfg) d') ;;
    ret (LoopState (last_stats ls) (mean ls) (std ls) [] [])
  else ret ls.

(** [except Exception as e: log(...); traceback.print_exc(); time.sleep(3)],
    the loop going on with the variables as they were when [e] was raised. *)
Definition guarded {A} (ls : A) (m : M W (option A)) : M W (option A) :=
  try_except m (fun e => log "[NB] error" ;; sleep X 3 ;; ret (Some ls)).

(** Lines 175-237: from the live difference to the periodic dump, with the
    statistics [ls1] of this cycle. *)
Definition trade_phase (fuel : nat) (cfg : config) (coin : string) (ls1 : loop_state)
  : M W (option loop_state) :=
  xyz <- live_diff coin ;;
  let z := snd xyz in
  let lower := mean ls1 - k cfg * std ls1 in
  let upper := mean ls1 + k cfg * std ls1 in
  b_units <- call (EvReadBalance coin) (read_balance X coin (balance_path cfg)) ;;
  w <- within_tobit_window cfg coin b_units ;;
  if negb (fst (fst (fst (fst w)))) then
    log "[NB] skip: CoinEx pos outside" ;; ret (Some ls1)
  else
    ob <- call (fun _ => EvNobitexBook (coin ++ "IRT")%string)
            (get_nobitex_orderbook X (coin ++ "IRT")%string) ;;
    bb <- lift (first_level (bids ob)) ;;
    ba <- lift (first_level (asks ob)) ;;
    r <- signal_block fuel cfg coin ls1 z lower upper b_units (price bb) (price ba) ;;
    match r with
    | None => ret None
    | Some (ls2, true) => ret (Some ls2)
    | Some (ls2, false) =>
        guarded ls2 (ls3 <- periodic_dump cfg ls2 ;; ret (Some ls3))
    end.

(** One turn of the [while True] of [main].  Assignments made before a raise
    are kept: the statements after an assignment run under the handler with
    the updated variables. *)
Definition cycle (fuel : nat) (cfg : config) (coin : string) (ls : loop_state)
  : M W (option loop_state) :=
  guarded ls
    (sleep X (interval_sec cfg) ;;
     now <- call_total (time_time X) ;;
     refreshed <-
       (if Qgtb (now - last_stats ls) (inject_Z (window_min cfg * 60))
        then
          r <- window_stats (obs_db_path cfg) (window_min cfg) ;;
          log "[NB] mean std n" ;;
          ret (LoopState now (fst (fst r)) (snd (fst r)) (buys ls) (sells ls),
               Qle_bool (snd (fst r)) 0)
        else ret (ls, false)) ;;
     let ls1 := fst refreshed in
     if snd refreshed then ret (Some ls1)
     else guarded ls1 (trade_phase fuel cfg coin ls1)).

End Nbtx.
End Nbtx.

(** * Observations used in the statements *)

(** What [read_pos] answers, by the shape of the file. *)
Definition lookup_doc (f : gmap string file) (path key : string) : pyval :=
  match f !! path with
  | Some (FObject d) => default PyNone (d !! key)
  | _ => PyNone
  end.

(** The document [write_pos] starts from. *)
Definition base_doc (f : gmap string file) (path : string) : option (gmap string pyval) :=
  match f !! path with
  | Some (FObject d) => Some d
  | Some FNotObject => None
  | _ => Some ∅
  end.

(** The field [key] of the record stored for [symbol], if any. *)
Definition stored_field (f : gmap string file) (path symbol key : string) : option atom :=
  match lookup_doc f path (upper symbol) with
  | PDict r => r !! key
  | PAtom _ => None
  end.


(** Every event that a run of [m] appends to the trace satisfies [P]. *)
Definition adds_only {W A} (P : event -> Prop) (m : M W A) : Prop :=
  forall s, exists evs, trace (snd (m s)) = trace s ++ evs /\ Forall P evs.

(** Events that place no order on either venue. *)
Definition passive (ev : event) : Prop :=
  match ev with
  | EvNewOrder _ _ _ _ => False
  | EvCxOpenOrder _ _ _ _ _ => False
  | _ => True
  end.

(** Events of the tracker of order [oid]: no placement, and no cancellation
    but that of [oid]. *)
Definition tracker_event (oid : atom) (ev : event) : Prop :=
  match ev with
  | EvNewOrder _ _ _ _ => False
  | EvCxOpenOrder _ _ _ _ _ => False
  | EvCxCancelOrder _ _ => False
  | EvCancelOrder o => o = oid
  | _ => True
  end.

(** Events that only read an order book. *)
Definition market_data (ev : event) : Prop :=
  match ev with
  | EvNobitexBook _ | EvFutureBook _ | EvBinanceBook _ => True
  | _ => False
  end.

(** ** One poll of the tracker, as the venue answered it *)

(** The answers to the two calls that open a poll, and what the tracker
    parses out of them. *)
Record reading (W : Type) : Type := Reading {
  r_book : orderbook;
  r_bid : level;
  r_ask : level;
  r_world1 : W;
  r_resp : gmap string pyval;
  r_world2 : W;
  r_info : gmap string atom;
  r_status : string;
  r_matched : Q;
  r_price : Q
}.
Arguments r_book {W} r.
Arguments r_bid {W} r.
Arguments r_ask {W} r.
Arguments r_world1 {W} r.
Arguments r_resp {W} r.
Arguments r_world2 {W} r.
Arguments r_info {W} r.
Arguments r_status {W} r.
Arguments r_matched {W} r.
Arguments r_price {W} r.

Definition reads {W} (X : Externals W) (market side : string) (oid : atom)
    (s : state W) (r : reading W) : Prop :=
  get_nobitex_orderbook X market (world s) = (Ok (r_book r), r_world1 r)
  /\ first_level (bids (r_book r)) = Ok (r_bid r)
  /\ first_level (asks (r_book r)) = Ok (r_ask r)
  /\ check_order X oid (r_world1 r) = (Ok (r_resp r), r_world2 r)
  /\ default (PDict ∅) (r_resp r !! "order") = PDict (r_info r)
  /\ py_or (dict_get (r_info r) "status") (AStr "") = AStr (r_status r)
  /\ to_decimal X (dict_get_or (r_info r) "matchedAmount" (ANum 0)) = Ok (r_matched r)
  /\ to_decimal X (dict_get_or (r_info r) "Price"
                     (ANum (if String.eqb side "buy"
                            then price (r_ask r) else price (r_bid r))))
     = Ok (r_price r).

(** The state once the book and the order have been read. *)
Definition after_reading {W} (market : string) (oid : atom) (s : state W)
    (r : reading W) : state W :=
  State (r_world2 r) (fs s) ((trace s ++ [EvNobitexBook market]) ++ [EvCheckOrder oid]).

(** The four terminating conditions of a poll. *)
Definition filled {W} (r : reading W) : bool :=
  Nbtx.status_done (lower (r_status r))
  && Nbtx.is_zero_amount (dict_get_or (r_info r) "unmatchedAmount" (ANum 0)).

Definition not_best {W} (side : string) (r : reading W) : bool :=
  (String.eqb side "buy" && Qltb (r_price r) (price (r_bid r)))
  || (String.eqb side "sell" && Qgtb (r_price r) (price (r_ask r))).

Definition in_band (mean std k z : Q) : bool :=
  Qltb (mean - k * std) z && Qltb z (mean + k * std).

Definition timed_out (timeout : Z) (start now : Q) : bool :=
  Qgtb (now - start) (inject_Z timeout).

Definition terminal_outcomes : list string :=
  ["FILLED"; "NOT_BEST"; "NO_SIGNAL"; "TIMEOUT"]%string.

(** ** The spot-side inventory guard *)

(** An event is within the inventory bounds for holdings [b_units]: an order
    on the spot venue is for the configured quantity and keeps the holdings
    under [u_units] when it buys, above [l_units] when it sells. *)
Definition within_inventory (cfg : Nbtx.config) (b_units : Q) (ev : event) : Prop :=
  match ev with
  | EvNewOrder side qty _ _ =>
      qty = Nbtx.order_qty cfg
      /\ ((side = "buy"%string /\ b_units + qty <= Nbtx.u_units cfg)
          \/ (side = "sell"%string /\ Nbtx.l_units cfg <= b_units - qty))
  | EvCxOpenOrder _ _ _ _ _ => False
  | _ => True
  end.

(** The events of a cycle respect the inventory bounds: each one places no
    order, or is a spot order within the bounds for holdings that were read
    from the balance of [coin] in the same cycle. *)
Definition orders_within (cfg : Nbtx.config) (coin : string) (evs : list event) : Prop :=
  forall ev, In ev evs ->
    passive ev
    \/ exists b, In (EvReadBalance coin (Ok b)) evs /\ within_inventory cfg b ev.

(** ** Order books with a quote on each side *)

Definition quoted (ob : orderbook) : Prop := bids ob <> [] /\ asks ob <> [].

(** The mid price of the top of a book, when it has one. *)
Definition top_mid (ob : orderbook) : option Q :=
  match bids ob, asks ob with
  | b :: _, a :: _ => Some ((price b + price a) / 2)
  | _, _ => None
  end.

(** The orders placed on the derivatives venue, in order. *)
Definition cx_orders (tr : list event) : list event :=
  List.filter (fun ev => match ev with EvCxOpenOrder _ _ _ _ _ => true | _ => false end) tr.

(** ** What a run touches: files and venue calls together *)

(** A run of [m] relates the files before and after by [F] and appends only
    [P]-events to the trace. *)
Definition touches {W A} (F : relation (gmap string file)) (P : event -> Prop)
    (m : M W A) : Prop :=
  forall s, F (fs s) (fs (snd (m s)))
            /\ exists evs, trace (snd (m s)) = trace s ++ evs /\ Forall P evs.

(** The files agree everywhere but at [path] and its temporary file. *)
Definition same_outside (path : string) : relation (gmap string file) :=
  fun f f' => forall p, p <> path -> p <> (path ++ ".tmp")%string -> f' !! p = f !! p.

(** Events of the maker: nothing on the derivatives venue's private API. *)
Definition maker_event (ev : event) : Prop :=
  match ev with
  | EvCxOpenOrder _ _ _ _ _ | EvCxCheckOrder _ _ | EvCxCancelOrder _ _
  | EvCxPosition _ => False
  | _ => True
  end.

(** Events of the hedger: no order, status read or cancellation on the spot
    venue and nothing on the trade history. *)
Definition hedger_event (ev : event) : Prop :=
  match ev with
  | EvNewOrder _ _ _ _ | EvCheckOrder _ | EvCancelOrder _
  | EvReadTrades _ | EvDumpTrades _ _ => False
  | _ => True
  end.

(** ** Cancellations in a trace *)

Definition no_cancel (ev : event) : Prop :=
  match ev with
  | EvCancelOrder _ => False
  | _ => True
  end.

(** The events end with the cancellation of [oid], the only one among them. *)
Definition cancelled_last (oid : atom) (evs : list event) : Prop :=
  exists pre, evs = pre ++ [EvCancelOrder oid] /\ Forall no_cancel pre.

(** What the tracker's events look like for each way it can end; an
    exception after a cancellation is the one the cancellation raised. *)
Definition cancel_discipline {W} (X : Externals W) (oid : atom)
    (r : result (option (string * Q * Q))) (evs : list event) : Prop :=
  match r with
  | Ok (Some (outcome, _, _)) =>
      if String.eqb outcome "FILLED" then Forall no_cancel evs
      else cancelled_last oid evs
  | Ok None => Forall no_cancel evs
  | Raise e =>
      Forall no_cancel evs
      \/ (cancelled_last oid evs /\ exists w, fst (cancel_order X oid w) = Raise e)
  end.

(** Events that place no order and do not read the balance. *)
Definition observing (ev : event) : Prop :=
  match ev with
  | EvNewOrder _ _ _ _ => False
  | EvCxOpenOrder _ _ _ _ _ => False
  | EvReadBalance _ _ => False
  | _ => True
  end.

(** ** The taker's calls to the venue *)

(** The sequences of calls of one taker attempt for the rounded quantity [q]
    at the rounded price [p], with the answer [b] that goes with each:
    nothing at all; the limit order, refused; the limit order, the wait and
    the status read, followed by nothing more, by an error, or by the
    cancellation and then, when a positive quantity [m] had matched, one
    market order for [m] on the opposite side. *)
Definition taker_sequence (symbol side : string) (q p : Q) (b : bool)
    (evs : list event) : Prop :=
  let limit := EvCxOpenOrder symbol side "limit" q (Some p) in
  (q <= 0 /\ b = true /\ evs = [])
  \/ (0 < q /\ b = false /\ evs = [limit; EvLog "[CX] order error"])
  \/ (0 < q /\ exists oid,
       let polled := [limit; EvSleep (4 # 10); EvCxCheckOrder symbol oid] in
       let cancel := EvCxCancelOrder symbol oid in
       (b = true /\ evs = polled)
       \/ (b = false /\ evs = polled ++ [EvLog "[CX] check/cancel error"])
       \/ (b = false /\ evs = polled ++ [cancel; EvLog "[CX] check/cancel error"])
       \/ (b = false /\ evs = polled ++ [cancel])
       \/ (b = false /\ exists m,
             0 < m
             /\ let revert := EvCxOpenOrder symbol (Cnx.rev_side side) "market" m None in
                evs = polled ++ [cancel; revert]
                \/ evs = polled ++ [cancel; revert; EvLog "[CX] revert market failed"])).

(** * A simulated venue

    A deterministic instance of the collaborators, used to run the programs
    on concrete inputs.  The world is a clock counting the sleeps. *)

Module Sim.

Record scenario : Type := Scenario {
  sc_nb_book : string -> nat -> result orderbook;
  sc_future : nat -> result orderbook;
  sc_binance : nat -> result orderbook;
  sc_new_order : result (gmap string pyval);
  sc_verdict : string;
  sc_check : nat -> result (gmap string pyval);
  sc_cancel : result unit;
  sc_balance : result Q;
  sc_position : nat -> result cx_data;
  sc_cx_open : string -> result (gmap string pyval);
  sc_cx_check : result (gmap string pyval);
  sc_cx_cancel : result unit;
  sc_obs : result (option (option Q * option Q * Z))
}.

(** Decimal digits only; anything else is not a number. *)
Fixpoint parse_digits (s : string) (acc : Z) : option Z :=
  match s with
  | EmptyString => Some acc
  | String c r =>
      let n := nat_of_ascii c in
      if (Nat.leb 48 n && Nat.leb n 57)%bool
      then parse_digits r (acc * 10 + Z.of_nat (n - 48))%Z
      else None
  end.

Definition parse_nat_string (s : string) : option Q :=
  match s with
  | EmptyString => None
  | _ => option_map inject_Z (parse_digits s 0%Z)
  end.

Definition parse_int_string (s : string) : option Z :=
  match s with
  | EmptyString => None
  | _ => parse_digits s 0%Z
  end.

(** What [str] spells for the numbers of the runs below: the float nearest
    to one tenth is spelled 0.1, every other number met is spelled exactly. *)
Definition float_tenth : Q := 3602879701896397 # 36028797018963968.

Definition spelled (x : Q) : Q := if Qeq_bool x float_tenth then 1 # 10 else x.

(** The integer square root of the integer part. *)
Definition int_sqrt (x : Q) : Q := inject_Z (Z.sqrt (Qfloor x)).

Definition externals (sc : scenario) : Externals nat := {|
  get_nobitex_orderbook := fun m w => (sc_nb_book sc m w, w);
  new_order := fun _ _ _ _ w => (sc_new_order sc, w);
  check_order := fun _ w => (sc_check sc w, w);
  cancel_order := fun _ w => (sc_cancel sc, w);
  parse_order_response := fun _ => Ok (sc_verdict sc);
  read_balance := fun _ _ w => (sc_balance sc, w);
  ri := fun p => Ok (py_floor p);
  cx_future_order_book := fun _ _ w => (sc_future sc w, w);
  cx_signed_request := fun _ _ _ w => (sc_position sc w, w);
  cx_open_order := fun _ _ ty _ _ _ w => (sc_cx_open sc ty, w);
  cx_check_order := fun _ _ w => (sc_cx_check sc, w);
  cx_cancel_order := fun _ _ w => (sc_cx_cancel sc, w);
  binance_fetch_order_book := fun _ w => (sc_binance sc w, w);
  obs_query := fun _ _ _ w => (sc_obs sc, w);
  pd_read_pickle := fun _ w => (Raise FileNotFoundError, w);
  pd_to_pickle := fun _ _ w => (Ok tt, w);
  time_time := fun w => (inject_Z (Z.of_nat w), w);
  time_sleep := fun _ w => (tt, S w);
  now_iso := fun w => ("2024-01-01T00:00:00"%string, w);
  parse_number := parse_nat_string;
  parse_int := parse_int_string;
  parse_decimal := parse_nat_string;
  decimal_str := spelled;
  pow_half := int_sqrt
|}.

Definition book (bid ask : Q) : orderbook :=
  Orderbook [Level bid 1] [Level ask 1].

Definition empty_book : orderbook := Orderbook [] [].

(** All three books quoted, an order resting unmatched, no live position
    endpoint, an empty observation store. *)
Definition calm : scenario := {|
  sc_nb_book := fun m _ => Ok (if String.eqb m "USDTIRT" then book 50 52 else book 100 104);
  sc_future := fun _ => Ok (book 2 2);
  sc_binance := fun _ => Ok (book 2 2);
  sc_new_order := Ok {[ "order" := PDict {[ "id" := ANum 7 ]} ]};
  sc_verdict := "success";
  sc_check := fun _ => Ok {[ "order" := PDict {[ "status" := AStr "Active";
                                                "matchedAmount" := ANum 0;
                                                "Price" := ANum 100;
                                                "unmatchedAmount" := ANum 1 ]} ]};
  sc_cancel := Ok tt;
  sc_balance := Ok 0;
  sc_position := fun _ => Raise (VenueError "404");
  sc_cx_open := fun _ => Ok {[ "order_id" := PyFloat 11 ]};
  sc_cx_check := Ok {[ "amount" := PyFloat 10; "amount_filled" := PyFloat 10 ]};
  sc_cx_cancel := Ok tt;
  sc_obs := Ok (Some (None, None, 0%Z))
|}.

Definition start : state nat := State 0%nat ∅ [].

(** A position file holding a bare number for BTCUSDT. *)
Definition numeric_store (p : Q) : state nat :=
  State 0%nat {[ "coinex_pos.json"%string := FObject {[ "BTCUSDT"%string := PyFloat p ]} ]} [].

(** Variations of a scenario. *)
Definition with_nb_book (sc : scenario) (f : string -> nat -> result orderbook)
  : scenario :=
  Scenario f (sc_future sc) (sc_binance sc) (sc_new_order sc) (sc_verdict sc)
    (sc_check sc) (sc_cancel sc) (sc_balance sc) (sc_position sc) (sc_cx_open sc)
    (sc_cx_check sc) (sc_cx_cancel sc) (sc_obs sc).

Definition with_future (sc : scenario) (f : nat -> result orderbook) : scenario :=
  Scenario (sc_nb_book sc) f (sc_binance sc) (sc_new_order sc) (sc_verdict sc)
    (sc_check sc) (sc_cancel sc) (sc_balance sc) (sc_position sc) (sc_cx_open sc)
    (sc_cx_check sc) (sc_cx_cancel sc) (sc_obs sc).

Definition with_check (sc : scenario) (f : nat -> result (gmap string pyval))
  : scenario :=
  Scenario (sc_nb_book sc) (sc_future sc) (sc_binance sc) (sc_new_order sc)
    (sc_verdict sc) f (sc_cancel sc) (sc_balance sc) (sc_position sc) (sc_cx_open sc)
    (sc_cx_check sc) (sc_cx_cancel sc) (sc_obs sc).

Definition with_cx (sc : scenario) (chk : result (gmap string pyval))
    (cancel : result unit) : scenario :=
  Scenario (sc_nb_book sc) (sc_future sc) (sc_binance sc) (sc_new_order sc)
    (sc_verdict sc) (sc_check sc) (sc_cancel sc) (sc_balance sc) (sc_position sc)
    (sc_cx_open sc) chk cancel (sc_obs sc).

Definition with_obs (sc : scenario) (row : result (option (option Q * option Q * Z)))
  : scenario :=
  Scenario (sc_nb_book sc) (sc_future sc) (sc_binance sc) (sc_new_order sc)
    (sc_verdict sc) (sc_check sc) (sc_cancel sc) (sc_balance sc) (sc_position sc)
    (sc_cx_open sc) (sc_cx_check sc) (sc_cx_cancel sc) row.

Definition with_balance (sc : scenario) (b : result Q) : scenario :=
  Scenario (sc_nb_book sc) (sc_future sc) (sc_binance sc) (sc_new_order sc)
    (sc_verdict sc) (sc_check sc) (sc_cancel sc) b (sc_position sc)
    (sc_cx_open sc) (sc_cx_check sc) (sc_cx_cancel sc) (sc_obs sc).

(** The tracked order as [check_order] reports it. *)
Definition order_info (status : string) (matched px : Q) (unmatched : atom)
  : gmap string atom :=
  {[ "status" := AStr status; "matchedAmount" := ANum matched;
     "Price" := ANum px; "unmatchedAmount" := unmatched ]}.

(** A resting order, three units matched so far. *)
Definition partial : scenario :=
  with_check calm (fun _ => Ok {[ "order" := PDict (order_info "Active" 3 100 (ANum 7)) ]}).

(** A finished order that is also off the best bid. *)
Definition finished : scenario :=
  with_check calm (fun _ => Ok {[ "order" := PDict (order_info "Done" 10 90 (AStr "0")) ]}).

(** The futures book is empty; Binance still quotes. *)
Definition no_futures : scenario := with_future calm (fun _ => Ok empty_book).

(** The USDT/fiat book is empty. *)
Definition no_usdt : scenario :=
  with_nb_book calm
    (fun m _ => Ok (if String.eqb m "USDTIRT" then empty_book else book 100 104)).

(** Four of ten units matched on the derivatives venue. *)
Definition report_4_of_10 : gmap string pyval :=
  {[ "amount" := PyFloat 10; "amount_filled" := PyFloat 4 ]}.

Definition partial_fill : scenario := with_cx calm (Ok report_4_of_10) (Ok tt).

(** The same, the cancellation being refused. *)
Definition cancel_fails : scenario :=
  with_cx calm (Ok report_4_of_10) (Raise (VenueError "cancel")).

(** Five stored observations with mean 10 and mean square 104. *)
Definition five_obs : scenario := with_obs calm (Ok (Some (Some 10, Some 104, 5%Z))).

(** Holdings of nine units on the spot venue. *)
Definition holding_9 : scenario := with_balance calm (Ok 9).

Definition cx_cfg : Cnx.config := {|
  Cnx.coinex_symbol := "BTCUSDT";
  Cnx.pos_store_path := "coinex_pos.json";
  Cnx.qty_precision := 0;
  Cnx.price_precision := 0;
  Cnx.l_units := -10;
  Cnx.u_units := 10;
  Cnx.t_units := 2;
  Cnx.k := 2;
  Cnx.window_min := 5;
  Cnx.interval_sec := 1;
  Cnx.leverage := 1;
  Cnx.obs_db_path := "obs.db";
  Cnx.cfg_coin := Some "BTC"%string;
  Cnx.balance_pickle := "blnc_data.pickle";
  Cnx.min_qty := 1 # 1000000
|}.

Definition nb_cfg : Nbtx.config := {|
  Nbtx.window_min := 5;
  Nbtx.k := 2;
  Nbtx.w_buy := 1 # 2;
  Nbtx.w_sell := 1 # 2;
  Nbtx.timeout_sec := 3;
  Nbtx.interval_sec := 2;
  Nbtx.obs_db_path := "obs.db";
  Nbtx.balance_path := "blnc_data.pickle";
  Nbtx.pos_store := "coinex_pos.json";
  Nbtx.order_qty := 2;
  Nbtx.l_units := -10;
  Nbtx.u_units := 10;
  Nbtx.t_units := 2;
  Nbtx.trades_path := "btc_trades.pkl"
|}.

(** The statistics held by the loops in the runs below: taken at time 0,
    mean 1000 and deviation 200. *)
Definition cx_loop : Cnx.loop_state := Cnx.LoopState 0 1000 200.
Definition nb_loop : Nbtx.loop_state := Nbtx.LoopState 0 1000 200 [] [].


(** Variations on the derivatives venue. *)
Definition with_cx_open (sc : scenario) (f : string -> result (gmap string pyval))
  : scenario :=
  Scenario (sc_nb_book sc) (sc_future sc) (sc_binance sc) (sc_new_order sc)
    (sc_verdict sc) (sc_check sc) (sc_cancel sc) (sc_balance sc) (sc_position sc)
    f (sc_cx_check sc) (sc_cx_cancel sc) (sc_obs sc).

Definition with_position (sc : scenario) (f : nat -> result cx_data) : scenario :=
  Scenario (sc_nb_book sc) (sc_future sc) (sc_binance sc) (sc_new_order sc)
    (sc_verdict sc) (sc_check sc) (sc_cancel sc) (sc_balance sc) f
    (sc_cx_open sc) (sc_cx_check sc) (sc_cx_cancel sc) (sc_obs sc).

(** The limit order is refused. *)
Definition open_refused : scenario :=
  with_cx_open calm (fun _ => Raise (VenueError "refused")).

(** A long position of three units, reported by the live endpoint. *)
Definition long_position : gmap string atom :=
  {[ "market" := AStr "BTCUSDT"; "size" := ANum 3; "side" := AStr "LONG" ]}.

Definition long_3 : scenario :=
  with_position calm (fun _ => Ok (CxDict (Some [long_position]))).

(** The position file after the hedger has stored a position of three. *)
Definition recorded_store : state nat :=
  snd (PosStore.write_pos (externals calm) "coinex_pos.json" "BTCUSDT" 3 start).

(** The same after a second store, for another symbol. *)
Definition recorded_twice : state nat :=
  snd (PosStore.write_pos (externals calm) "coinex_pos.json" "ETHUSDT" 4 recorded_store).

(** The trade that the maker records for the order of the [finished]
    scenario. *)
Definition finished_trade : trade :=
  Trade (ANum 7) (Nbtx.weighted_limit_price "buy" 100 104 (1 # 2)) 10
    "2024-01-01T00:00:00" "buy".

(** The USDT/fiat book is quoted until the first sleep and empty after. *)
Definition usdt_fades : scenario :=
  with_nb_book calm
    (fun m w => Ok (if String.eqb m "USDTIRT"
                    then match w with O => book 50 52 | S _ => empty_book end
                    else book 100 104)).


(** An order resting at the best bid, both prices being the float nearest to
    one tenth. *)
Definition at_best_tenth : scenario :=
  with_check
    (with_nb_book calm (fun _ _ => Ok (book float_tenth 1)))
    (fun _ => Ok {[ "order" := PDict (order_info "Active" 0 float_tenth (ANum 1)) ]}).

End Sim.

(** * Properties *)

(** ** Comparisons on rationals *)

Lemma Qltb_lt (x y : Q) : Qltb x y = true <-> x < y.
Proof.
  unfold Qltb. rewrite negb_true_iff. split.
  - intros H. apply Qnot_le_lt. intros Hle.
    apply Qle_bool_iff in Hle. congruence.
  - intros H. destruct (Qle_bool y x) eqn:E; [|reflexivity].
    apply Qle_bool_iff in E. exfalso. exact (Qlt_not_le _ _ H E).
Qed.

Lemma Qltb_ge (x y : Q) : Qltb x y = false <-> y <= x.
Proof.
  unfold Qltb. rewrite negb_false_iff. apply Qle_bool_iff.
Qed.

Lemma Qgtb_gt (x y : Q) : Qgtb x y = true <-> y < x.
Proof. apply Qltb_lt. Qed.

Lemma Qgtb_le (x y : Q) : Qgtb x y = false <-> x <= y.
Proof. apply Qltb_ge. Qed.

Lemma Qgeb_ge (x y : Q) : Qgeb x y = true <-> y <= x.
Proof. apply Qle_bool_iff. Qed.


(** Unfolding the monad's operations in a run. *)
Ltac run_monad :=
  cbv beta iota zeta delta
    [bind ret raise try_except lift call call_total emit get_fs put_fs log sleep].

Section PosStoreFacts.
Context {W : Type} (X : Externals W).

Lemma read_pos_run (path symbol : string) (s : state W) :
  PosStore.read_pos path symbol s = (Ok (lookup_doc (fs s) path (upper symbol)), s).
Proof.
  unfold PosStore.read_pos, PosStore.json_load, PosStore.doc_get, lookup_doc.
  run_monad. destruct (fs s !! path) as [[| |d]|]; reflexivity.
Qed.

Lemma write_pos_run (path symbol : string) (qty : Q) (s : state W) :
  PosStore.write_pos X path symbol qty s =
  let tw := now_iso X (world s) in
  match base_doc (fs s) path with
  | None => (Raise TypeError, State (snd tw) (fs s) (trace s))
  | Some d =>
      let doc := FObject (<[upper symbol :=
                   PDict (PosStore.pos_record qty (PosStore.side_of_qty qty) (fst tw))]> d) in
      (Ok tt, State (snd tw)
                (<[path := doc]> (delete (path ++ ".tmp")%string
                                    (<[(path ++ ".tmp")%string := doc]> (fs s))))
                (trace s))
  end.
Proof.
  unfold PosStore.write_pos, PosStore.json_load, PosStore.doc_set, base_doc.
  run_monad.
  destruct (now_iso X (world s)) as [t w'] eqn:T.
  destruct (fs s !! path) as [[| |d]|] eqn:E.
  all: try (rewrite bool_decide_eq_true_2 by eauto).
  all: try (rewrite bool_decide_eq_false_2 by (intros [? ?]; discriminate)).
  all: repeat (progress (cbn [world fs trace fst snd]; rewrite ?E, ?T)).
  all: rewrite ?lookup_insert_eq; reflexivity.
Qed.

Lemma pos_record_q (qty : Q) (side time : string) :
  PosStore.pos_record qty side time !! "q" = Some (ANum qty).
Proof. unfold PosStore.pos_record. apply lookup_insert_eq. Qed.

Lemma pos_record_field (qty : Q) (side t1 t2 key : string) :
  key <> "time"%string ->
  PosStore.pos_record qty side t1 !! key = PosStore.pos_record qty side t2 !! key.
Proof.
  intros Hk. unfold PosStore.pos_record.
  rewrite !lookup_insert. repeat case_decide; try reflexivity. congruence.
Qed.

Lemma pos_record_dom (qty : Q) (side time : string) :
  dom (PosStore.pos_record qty side time) = ({["q"; "side"; "time"]} : gset string)%string.
Proof.
  unfold PosStore.pos_record. rewrite !dom_insert_L, dom_empty_L. set_solver.
Qed.

(** The file system after the temporary file has replaced [path]. *)
Lemma lookup_after_replace (f : gmap string file) (path : string) (doc : file) :
  <[path := doc]> (delete (path ++ ".tmp")%string
                     (<[(path ++ ".tmp")%string := doc]> f)) !! path = Some doc.
Proof. apply lookup_insert_eq. Qed.

Lemma base_doc_after_replace (f : gmap string file) (path : string)
    (d : gmap string pyval) :
  base_doc (<[path := FObject d]> (delete (path ++ ".tmp")%string
              (<[(path ++ ".tmp")%string := FObject d]> f))) path = Some d.
Proof. unfold base_doc. rewrite lookup_insert_eq. reflexivity. Qed.

(** C10: [read_pos] always returns, without raising and without touching
    the state; it answers [None] for a missing file, an undecodable file, a
    document that is not an object and an object without the upper-cased
    symbol; otherwise it answers the stored entry, which after a [write_pos]
    is the record with the keys q, side and time, not a number. *)
Theorem read_pos_total (path symbol : string) (s : state W) :
  (exists v, PosStore.read_pos path symbol s = (Ok v, s))
  /\ (fs s !! path = None \/ fs s !! path = Some FGarbage
      \/ fs s !! path = Some FNotObject
      \/ (exists d, fs s !! path = Some (FObject d) /\ d !! upper symbol = None) ->
      PosStore.read_pos path symbol s = (Ok PyNone, s))
  /\ (forall d v, fs s !! path = Some (FObject d) -> d !! upper symbol = Some v ->
      PosStore.read_pos path symbol s = (Ok v, s))
  /\ (forall qty s', PosStore.write_pos X path symbol qty s = (Ok tt, s') ->
      exists side time,
        PosStore.read_pos path symbol s'
          = (Ok (PDict (PosStore.pos_record qty side time)), s')
        /\ dom (PosStore.pos_record qty side time)
           = ({["q"; "side"; "time"]} : gset string)%string
        /\ forall q', PDict (PosStore.pos_record qty side time) <> PyFloat q').
Proof.
  rewrite !read_pos_run. unfold lookup_doc. split; [eauto|]. split; [|split].
  - intros [H|[H|[H|(d & H & Hd)]]]; rewrite H; try reflexivity.
    rewrite Hd. reflexivity.
  - intros d v H Hd. rewrite H, Hd. reflexivity.
  - intros qty s' Hw. rewrite write_pos_run in Hw. cbv zeta in Hw.
    destruct (base_doc (fs s) path) as [d|]; [|discriminate].
    injection Hw as <-.
    exists (PosStore.side_of_qty qty), (fst (now_iso X (world s))).
    rewrite read_pos_run. unfold lookup_doc. cbn [fs].
    rewrite lookup_after_replace, lookup_insert_eq.
    split; [reflexivity|]. split; [apply pos_record_dom|]. discriminate.
Qed.

(** C9: storing the unchanged position of an unfilled attempt twice gives
    the same outcome and the same stored quantity (and side) both times:
    the quantity on file is the previous position after the first store
    and after the second. *)
Theorem not_filled_store_idempotent (cfg : Cnx.config) (sym side : string)
    (cur need : Q) (s : state W) :
  let store := Cnx.store_after_attempt X cfg sym cur need side false in
  let path := Cnx.pos_store_path cfg in
  let once := store s in
  let twice := store (snd once) in
  fst twice = fst once
  /\ (forall key, key <> "time"%string ->
      stored_field (fs (snd twice)) path sym key
      = stored_field (fs (snd once)) path sym key)
  /\ (base_doc (fs s) path <> None ->
      fst once = Ok tt
      /\ stored_field (fs (snd once)) path sym "q" = Some (ANum cur)
      /\ stored_field (fs (snd twice)) path sym "q" = Some (ANum cur)).
Proof.
  cbv zeta. unfold Cnx.store_after_attempt. cbv zeta.
  set (path := Cnx.pos_store_path cfg).
  assert (Hrun : forall s0 : state W,
    (PosStore.write_pos X path sym cur ;;
     log "[CX] FOK not filled. pos unchanged.") s0
    = match PosStore.write_pos X path sym cur s0 with
      | (Ok _, s1) => (Ok tt, State (world s1) (fs s1)
                                (trace s1 ++ [EvLog "[CX] FOK not filled. pos unchanged."]))
      | (Raise e, s1) => (Raise e, s1)
      end).
  { intros s0. run_monad.
    destruct (PosStore.write_pos X path sym cur s0) as [[[]|e] s1]; reflexivity. }
  rewrite !Hrun. rewrite (write_pos_run path sym cur s). cbv zeta.
  unfold stored_field, lookup_doc.
  destruct (base_doc (fs s) path) as [d|] eqn:Hd.
  - cbn [fst snd]. rewrite write_pos_run. cbv zeta.
    cbn [fs world trace]. rewrite base_doc_after_replace. cbn [fst snd fs].
    rewrite !lookup_after_replace, !lookup_insert_eq.
    split; [reflexivity|]. split.
    + intros key Hk. cbn [from_option id]. apply pos_record_field. exact Hk.
    + intros _. cbn [from_option id]. rewrite !pos_record_q. auto.
  - cbn [fst snd]. rewrite write_pos_run. cbv zeta. cbn [fs world trace].
    rewrite Hd. cbn [fst snd fs]. split; [reflexivity|].
    split; [reflexivity|]. intros H. congruence.
Qed.

End PosStoreFacts.

Lemma read_pos_total_witness :
  exists side time,
    PosStore.read_pos "coinex_pos.json" "btcusdt"
      (snd (PosStore.write_pos (Sim.externals Sim.calm) "coinex_pos.json" "btcusdt" 2
              Sim.start))
    = (Ok (PDict (PosStore.pos_record 2 side time)),
       snd (PosStore.write_pos (Sim.externals Sim.calm) "coinex_pos.json" "btcusdt" 2
              Sim.start)).
Proof.
  destruct (read_pos_total (Sim.externals Sim.calm) "coinex_pos.json" "btcusdt" Sim.start)
    as (_ & _ & _ & H).
  destruct (H 2 (snd (PosStore.write_pos (Sim.externals Sim.calm) "coinex_pos.json"
                        "btcusdt" 2 Sim.start)))
    as (side & time & Hr & _).
  - vm_compute. reflexivity.
  - exists side, time. exact Hr.
Defined.

(** ** What a run adds to the trace *)

Section Traces.
Context {W : Type}.

Lemma adds_ret {A} (P : event -> Prop) (a : A) : adds_only P (@ret W A a).
Proof. intros s. exists []. rewrite app_nil_r. split; [reflexivity|constructor]. Qed.

Lemma adds_raise {A} (P : event -> Prop) (e : exn) : adds_only P (@raise W A e).
Proof. intros s. exists []. rewrite app_nil_r. split; [reflexivity|constructor]. Qed.

Lemma adds_lift {A} (P : event -> Prop) (r : result A) : adds_only P (@lift W A r).
Proof. intros s. exists []. rewrite app_nil_r. split; [reflexivity|constructor]. Qed.

Lemma adds_get_fs (P : event -> Prop) : adds_only P (@get_fs W).
Proof. intros s. exists []. rewrite app_nil_r. split; [reflexivity|constructor]. Qed.

Lemma adds_put_fs (P : event -> Prop) (f : gmap string file) : adds_only P (@put_fs W f).
Proof. intros s. exists []. cbn. rewrite app_nil_r. split; [reflexivity|constructor]. Qed.

Lemma adds_call_total {A} (P : event -> Prop) (h : W -> A * W) :
  adds_only P (call_total h).
Proof.
  intros s. exists []. unfold call_total. destruct (h (world s)). cbn.
  rewrite app_nil_r. split; [reflexivity|constructor].
Qed.

Lemma adds_emit (P : event -> Prop) (ev : event) : P ev -> adds_only P (@emit W ev).
Proof. intros H s. exists [ev]. cbn. split; [reflexivity|]. constructor; [exact H|constructor]. Qed.

Lemma adds_call {A} (P : event -> Prop) (ev : result A -> event) (h : W -> result A * W) :
  (forall r, P (ev r)) -> adds_only P (call ev h).
Proof.
  intros H s. unfold call. destruct (h (world s)) as [r w']. exists [ev r]. cbn.
  split; [reflexivity|]. constructor; [apply H|constructor].
Qed.

Lemma adds_bind {A B} (P : event -> Prop) (m : M W A) (k : A -> M W B) :
  adds_only P m -> (forall a, adds_only P (k a)) -> adds_only P (bind m k).
Proof.
  intros Hm Hk s. unfold bind. destruct (Hm s) as (evs1 & E1 & F1).
  destruct (m s) as [[a|e] s1]; cbn [snd] in *.
  - destruct (Hk a s1) as (evs2 & E2 & F2). exists (evs1 ++ evs2).
    rewrite E2, E1, app_assoc. split; [reflexivity|]. apply Forall_app. split; assumption.
  - exists evs1. split; assumption.
Qed.

Lemma adds_try {A} (P : event -> Prop) (m : M W A) (h : exn -> M W A) :
  adds_only P m -> (forall e, adds_only P (h e)) -> adds_only P (try_except m h).
Proof.
  intros Hm Hh s. unfold try_except. destruct (Hm s) as (evs1 & E1 & F1).
  destruct (m s) as [[a|e] s1]; cbn [snd] in *.
  - exists evs1. split; assumption.
  - destruct (Hh e s1) as (evs2 & E2 & F2). exists (evs1 ++ evs2).
    rewrite E2, E1, app_assoc. split; [reflexivity|]. apply Forall_app. split; assumption.
Qed.

Lemma adds_mono {A} (P Q : event -> Prop) (m : M W A) :
  (forall ev, P ev -> Q ev) -> adds_only P m -> adds_only Q m.
Proof.
  intros HPQ Hm s. destruct (Hm s) as (evs & E & F). exists evs. split; [exact E|].
  eapply Forall_impl; eassumption.
Qed.

End Traces.

(** One structural step of a proof that a program adds only [P]-events. *)
Ltac adds_step :=
  lazymatch goal with
  | |- adds_only _ (bind _ _) => apply adds_bind; [|intro]
  | |- adds_only _ (try_except _ _) => apply adds_try; [|intro]
  | |- adds_only _ (ret _) => apply adds_ret
  | |- adds_only _ (raise _) => apply adds_raise
  | |- adds_only _ (lift _) => apply adds_lift
  | |- adds_only _ get_fs => apply adds_get_fs
  | |- adds_only _ (put_fs _) => apply adds_put_fs
  | |- adds_only _ (call_total _) => apply adds_call_total
  | |- adds_only _ (call _ _) => apply adds_call; intro; try solve [exact I | reflexivity]
  | |- adds_only _ (emit _) => apply adds_emit; try solve [exact I | reflexivity]
  | |- adds_only _ (log _) => apply adds_emit; try solve [exact I | reflexivity]
  | |- adds_only _ (sleep _ _) => unfold sleep
  | |- adds_only _ (match ?x with _ => _ end) => destruct x
  | |- adds_only _ (if ?b then _ else _) => destruct b
  | |- adds_only _ (let _ := _ in _) => cbv zeta
  end.

Ltac adds_auto := repeat adds_step.

Section Frames.
Context {W : Type} (X : Externals W).

Lemma read_pos_adds (P : event -> Prop) (path symbol : string) :
  adds_only P (@PosStore.read_pos W path symbol).
Proof. unfold PosStore.read_pos, PosStore.json_load, PosStore.doc_get. adds_auto. Qed.

Lemma write_pos_adds (P : event -> Prop) (path symbol : string) (qty : Q) :
  adds_only P (PosStore.write_pos X path symbol qty).
Proof.
  unfold PosStore.write_pos, PosStore.json_load, PosStore.doc_set. adds_auto.
Qed.

Lemma nb_live_diff_adds (coin : string) : adds_only market_data (Nbtx.live_diff X coin).
Proof. unfold Nbtx.live_diff. adds_auto. Qed.

Lemma cx_live_diff_adds (coin : string) : adds_only market_data (Cnx.live_diff X coin).
Proof. unfold Cnx.live_diff, Cnx.coinex_best. adds_auto. Qed.

Lemma market_data_tracker (oid : atom) (ev : event) : market_data ev -> tracker_event oid ev.
Proof. destruct ev; cbn; tauto. Qed.

Lemma tracker_passive (oid : atom) (ev : event) : tracker_event oid ev -> passive ev.
Proof. destruct ev; cbn; tauto. Qed.

Lemma track_tick_adds (oid : atom) (market side : string) (timeout : Z)
    (mean std k : Q) (coin : string) (start : Q) :
  adds_only (tracker_event oid)
    (Nbtx.track_tick X oid market side timeout mean std k coin start).
Proof.
  unfold Nbtx.track_tick, Nbtx.cancel_and_return. adds_auto.
  all: eapply adds_mono; [apply market_data_tracker | apply nb_live_diff_adds].
Qed.

Lemma track_loop_adds (fuel : nat) (oid : atom) (market side : string) (timeout : Z)
    (mean std k : Q) (coin : string) (poll start : Q) :
  adds_only (tracker_event oid)
    (Nbtx.track_loop X fuel oid market side timeout mean std k coin poll start).
Proof.
  induction fuel as [|fuel IH]; cbn [Nbtx.track_loop].
  - apply adds_ret.
  - apply adds_bind; [apply track_tick_adds|]. intros [o m n|].
    + apply adds_ret.
    + unfold sleep. adds_auto. exact IH.
Qed.

Lemma track_and_cancel_adds (fuel : nat) (oid : atom) (market side : string)
    (timeout : Z) (mean std k : Q) (coin : string) (poll : Q) :
  adds_only (tracker_event oid)
    (Nbtx.track_and_cancel X fuel oid market side timeout mean std k coin poll).
Proof.
  unfold Nbtx.track_and_cancel. apply adds_bind; [apply adds_call_total|].
  intros start. apply track_loop_adds.
Qed.

Lemma nb_window_stats_passive (db : string) (w : Z) :
  adds_only passive (Nbtx.window_stats X db w).
Proof. unfold Nbtx.window_stats. adds_auto. Qed.

End Frames.

Section Tracker.
Context {W : Type} (X : Externals W).
Variables (oid : atom) (market side : string) (timeout : Z) (mean std k : Q)
  (coin : string) (start : Q).

(** A poll whose two readings succeed goes on with the decision cascade. *)
Lemma track_tick_reads (s : state W) (r : reading W) :
  reads X market side oid s r ->
  Nbtx.track_tick X oid market side timeout mean std k coin start s =
  (if filled r
   then log "filled" ;;
        ret (Nbtx.Return "FILLED" (r_matched r) (r_matched r * r_price r))
   else if String.eqb side "buy" && Qltb (r_price r) (price (r_bid r))
   then Nbtx.cancel_and_return X oid "no longer best bid -> cancel"
          "NOT_BEST" (r_matched r) (r_matched r * r_price r)
   else if String.eqb side "sell" && Qgtb (r_price r) (price (r_ask r))
   then Nbtx.cancel_and_return X oid "no longer best ask -> cancel"
          "NOT_BEST" (r_matched r) (r_matched r * r_price r)
   else
     xyz <- Nbtx.live_diff X coin ;;
     if in_band mean std k (snd xyz)
     then Nbtx.cancel_and_return X oid "signal vanished -> cancel"
            "NO_SIGNAL" (r_matched r) (r_matched r * r_price r)
     else
       now <- call_total (time_time X) ;;
       if timed_out timeout start now
       then Nbtx.cancel_and_return X oid "timeout -> cancel"
              "TIMEOUT" (r_matched r) (r_matched r * r_price r)
       else ret Nbtx.Again) (after_reading market oid s r).
Proof.
  intros (H1 & H2 & H3 & H4 & H5 & H6 & H7 & H8).
  unfold Nbtx.track_tick, after_reading, filled, in_band, timed_out.
  unfold bind at 1. unfold call at 1. rewrite H1. cbn [world fs trace].
  unfold bind at 1. unfold lift at 1. rewrite H2.
  unfold bind at 1. unfold lift at 1. rewrite H3.
  unfold bind at 1. unfold call at 1. cbn [world fs trace]. rewrite H4.
  unfold bind at 1. rewrite H5. unfold ret at 1.
  unfold bind at 1. rewrite H6. unfold ret at 1.
  unfold bind at 1. unfold lift at 1. rewrite H7.
  unfold bind at 1. unfold lift at 1. rewrite H8.
  reflexivity.
Qed.

(** The common end of the cancelling branches: the outcome is returned
    unless the cancellation itself raises. *)
Lemma cancel_and_return_run (msg o : string) (m n : Q) (s : state W) :
  Nbtx.cancel_and_return X oid msg o m n s =
  match cancel_order X oid (world s) with
  | (Ok _, w) => (Ok (Nbtx.Return o m n),
                  State w (fs s) ((trace s ++ [EvLog msg]) ++ [EvCancelOrder oid]))
  | (Raise e, w) => (Raise e,
                     State w (fs s) ((trace s ++ [EvLog msg]) ++ [EvCancelOrder oid]))
  end.
Proof.
  unfold Nbtx.cancel_and_return. run_monad. cbn [world fs trace].
  destruct (cancel_order X oid (world s)) as [[[]|e] w]; reflexivity.
Qed.

(** A poll that returns has read the book and the order. *)
Lemma track_tick_ok_reads (s s' : state W) (t : Nbtx.tick) :
  Nbtx.track_tick X oid market side timeout mean std k coin start s = (Ok t, s') ->
  exists r, reads X market side oid s r.
Proof.
  unfold Nbtx.track_tick.
  unfold bind at 1, call at 1.
  destruct (get_nobitex_orderbook X market (world s)) as [[ob|e] w1] eqn:H1;
    [|discriminate].
  cbn [world fs trace]. unfold bind at 1, lift at 1.
  destruct (first_level (bids ob)) as [bb|e] eqn:H2; [|discriminate].
  unfold bind at 1, lift at 1.
  destruct (first_level (asks ob)) as [ba|e] eqn:H3; [|discriminate].
  unfold bind at 1, call at 1. cbn [world fs trace].
  destruct (check_order X oid w1) as [[resp|e] w2] eqn:H4; [|discriminate].
  unfold bind at 1.
  destruct (default (PDict ∅) (resp !! "order")) as [a|info] eqn:H5; [discriminate|].
  unfold ret at 1. unfold bind at 1.
  destruct (py_or (dict_get info "status") (AStr "")) as [|q|status] eqn:H6;
    [discriminate|discriminate|].
  unfold ret at 1. unfold bind at 1, lift at 1.
  destruct (to_decimal X (dict_get_or info "matchedAmount" (ANum 0))) as [m|e] eqn:H7;
    [|discriminate].
  unfold bind at 1, lift at 1.
  destruct (to_decimal X (dict_get_or info "Price" _)) as [p|e] eqn:H8; [|discriminate].
  intros _. exists (Reading W ob bb ba w1 resp w2 info status m p).
  unfold reads.
  cbn [r_book r_bid r_ask r_world1 r_resp r_world2 r_info r_status r_matched r_price].
  repeat split; assumption.
Qed.

(** What a returning poll returns. *)
Lemma track_tick_return (s s' : state W) (r : reading W) (o : string) (m n : Q) :
  reads X market side oid s r ->
  Nbtx.track_tick X oid market side timeout mean std k coin start s
    = (Ok (Nbtx.Return o m n), s') ->
  In o terminal_outcomes /\ m = r_matched r /\ n = r_matched r * r_price r.
Proof.
  intros Hr. rewrite (track_tick_reads s r Hr). unfold terminal_outcomes.
  destruct (filled r).
  { run_monad. intros [= <- <- <- _]. cbn. auto. }
  destruct (String.eqb side "buy" && Qltb (r_price r) (price (r_bid r))).
  { rewrite cancel_and_return_run.
    destruct (cancel_order X oid _) as [[[]|e] w]; intros [= <- <- <- _]. cbn. auto. }
  destruct (String.eqb side "sell" && Qgtb (r_price r) (price (r_ask r))).
  { rewrite cancel_and_return_run.
    destruct (cancel_order X oid _) as [[[]|e] w]; intros [= <- <- <- _]. cbn. auto. }
  unfold bind at 1.
  destruct (Nbtx.live_diff X coin _) as [[xyz|e] s3]; [|discriminate].
  destruct (in_band mean std k (snd xyz)).
  { rewrite cancel_and_return_run.
    destruct (cancel_order X oid _) as [[[]|e] w]; intros [= <- <- <- _]. cbn. tauto. }
  unfold bind at 1, call_total at 1.
  destruct (time_time X (world s3)) as [now w4].
  destruct (timed_out timeout start now).
  { rewrite cancel_and_return_run.
    destruct (cancel_order X oid _) as [[[]|e] w]; intros [= <- <- <- _]. cbn. tauto. }
  discriminate.
Qed.

(** The loop returns what its last poll returned, in the state that poll
    left. *)
Lemma track_loop_last (fuel : nat) (poll : Q) (s s' : state W) (o : string) (m n : Q) :
  Nbtx.track_loop X fuel oid market side timeout mean std k coin poll start s
    = (Ok (Some (o, m, n)), s') ->
  exists s_last,
    Nbtx.track_tick X oid market side timeout mean std k coin start s_last
    = (Ok (Nbtx.Return o m n), s').
Proof.
  revert s. induction fuel as [|fuel IH]; intros s; cbn [Nbtx.track_loop].
  - discriminate.
  - unfold bind at 1.
    destruct (Nbtx.track_tick X oid market side timeout mean std k coin start s)
      as [[[o' m' n'|]|e] s1] eqn:Ht; [| |discriminate].
    + intros [= <- <- <- <-]. exists s. exact Ht.
    + unfold sleep. run_monad. cbn [world fs trace].
      destruct (time_sleep X poll (world s1)) as [[] w]. apply IH.
Qed.


End Tracker.

Section TrackerClaims.
Context {W : Type} (X : Externals W).





(** C4: the tracker places no order on either venue and cancels nothing but
    the tracked order, whatever happens; and when it returns, the matched
    quantity is the one the venue reported on the last poll, unchanged (as
    [Decimal(str(.))] reads it), with the notional equal to that quantity
    times the order price (the price the venue reported for the order). *)
Theorem tracker_keeps_fill (oid : atom) (market side : string) (timeout : Z)
    (mean std k : Q) (coin : string) (fuel : nat) (poll : Q) :
  adds_only (tracker_event oid)
    (Nbtx.track_and_cancel X fuel oid market side timeout mean std k coin poll)
  /\ (forall (s s' : state W) o m n,
        Nbtx.track_and_cancel X fuel oid market side timeout mean std k coin poll s
          = (Ok (Some (o, m, n)), s') ->
        exists start s_last r,
          Nbtx.track_tick X oid market side timeout mean std k coin start s_last
            = (Ok (Nbtx.Return o m n), s')
          /\ reads X market side oid s_last r
          /\ m = r_matched r
          /\ n = m * r_price r
          /\ (forall q, r_info r !! "matchedAmount" = Some (ANum q) -> m = decimal_str X q)
          /\ (forall p, r_info r !! "Price" = Some (ANum p) -> n = m * decimal_str X p)).
Proof.
  split; [apply track_and_cancel_adds|].
  intros s s' o m n. unfold Nbtx.track_and_cancel.
  unfold bind at 1, call_total at 1.
  destruct (time_time X (world s)) as [start w0]. intros Hl.
  destruct (track_loop_last X _ _ _ _ _ _ _ _ _ _ _ _ _ _ _ _ Hl) as (s_last & Ht).
  destruct (track_tick_ok_reads X _ _ _ _ _ _ _ _ _ _ _ _ Ht) as (r & Hr).
  destruct (track_tick_return X _ _ _ _ _ _ _ _ _ _ _ _ _ _ _ Hr Ht) as (_ & Hm & Hn).
  exists start, s_last, r. split; [exact Ht|]. split; [exact Hr|].
  split; [exact Hm|]. split; [rewrite Hm; exact Hn|].
  destruct Hr as (_ & _ & _ & _ & _ & _ & H7 & H8). split.
  - intros q Hq. unfold dict_get_or in H7. rewrite Hq in H7. cbn in H7. congruence.
  - intros p Hp. unfold dict_get_or in H8. rewrite Hp in H8. cbn in H8.
    injection H8 as H8. rewrite Hn, Hm, <- H8. reflexivity.
Qed.

End TrackerClaims.

Section Taker.
Context {W : Type} (X : Externals W).

(** C1 (amended): a taker attempt with a positive rounded quantity whose
    placement, status query and cancellation all succeed.  If the venue
    reports the matched quantity within epsilon of the requested one, the
    call returns true having placed the limit order only.  Otherwise it
    cancels the order and returns false, placing one market order on the
    opposite side for exactly the matched quantity when that quantity is
    positive, and no order when it is not. *)
Theorem fok_taker_settles (cfg : Cnx.config) (symbol side : string) (qty px : Q)
    (qty_prec price_prec : Z) (s : state W)
    (resp st od : gmap string pyval) (oid : Z) (matched requested : Q) (w1 w3 : W) :
  let q := py_max 0 (Cnx.round_qty qty qty_prec) in
  let p := Cnx.round_price px price_prec in
  let w2 := snd (time_sleep X (4 # 10) w1) in
  let polled := [EvCxOpenOrder symbol side "limit" q (Some p); EvSleep (4 # 10);
                 EvCxCheckOrder symbol oid] in
  let cancel := EvCxCancelOrder symbol oid in
  let revert := EvCxOpenOrder symbol (Cnx.rev_side side) "market" matched None in
  let run := Cnx.fok_taker X cfg symbol side qty px qty_prec price_prec s in
  0 < q ->
  cx_open_order X symbol side "limit" q (Some p) (Cnx.leverage cfg) (world s)
    = (Ok resp, w1) ->
  Cnx.parse_order_id X resp = Ok oid ->
  cx_check_order X symbol oid w2 = (Ok st, w3) ->
  Cnx.order_fields st = Ok od ->
  pv_float X (pv_or (pv_or (pv_get od "amount_filled") (pv_get od "matched_amount"))
                (PyFloat 0)) = Ok matched ->
  pv_float X (pv_or (pv_get od "amount") (PyFloat q)) = Ok requested ->
  (requested - Cnx.epsilon <= matched ->
   run = (Ok true, State w3 (fs s) (trace s ++ polled)))
  /\ (matched < requested - Cnx.epsilon ->
      forall w4, cx_cancel_order X symbol oid w3 = (Ok tt, w4) ->
        (matched <= 0 ->
         run = (Ok false, State w4 (fs s) (trace s ++ polled ++ [cancel])))
        /\ (0 < matched ->
            match cx_open_order X symbol (Cnx.rev_side side) "market" matched None
                    (Cnx.leverage cfg) w4 with
            | (Ok _, w5) =>
                run = (Ok false, State w5 (fs s) (trace s ++ polled ++ [cancel; revert]))
            | (Raise _, w5) =>
                run = (Ok false,
                       State w5 (fs s)
                         (trace s ++ polled
                          ++ [cancel; revert; EvLog "[CX] revert market failed"]))
            end))
  /\ Cnx.rev_side "buy" = "sell"%string
  /\ Cnx.rev_side "sell" = "buy"%string.
Proof.
  cbv zeta. intros Hq Hopen Hid Hcheck Hod Hm Hr.
  split; [|split; [|split; reflexivity]].
  all: unfold Cnx.fok_taker; cbv zeta.
  all: replace (Qle_bool (py_max 0 (Cnx.round_qty qty qty_prec)) 0) with false
         by (symmetry; apply Qltb_lt in Hq; unfold Qltb in Hq;
             apply negb_true_iff in Hq; exact Hq).
  all: run_monad; cbn [world fs trace]; rewrite Hopen; cbn [world fs trace];
    rewrite Hid; cbn [world fs trace].
  all: destruct (time_sleep X (4 # 10) w1) as [[] w2]; cbn [snd fst] in *;
    cbn [world fs trace]; rewrite Hcheck; cbn [world fs trace]; rewrite Hod, Hm, Hr.
  - intros Hge. apply Qgeb_ge in Hge. rewrite Hge. rewrite <- !app_assoc. reflexivity.
  - intros Hlt w4 Hc.
    assert (Hge : Qgeb matched (requested - Cnx.epsilon) = false).
    { unfold Qgeb. apply Qltb_lt in Hlt. unfold Qltb in Hlt.
      apply negb_true_iff in Hlt. exact Hlt. }
    rewrite Hge. cbn [world fs trace]. rewrite Hc. cbn [world fs trace]. split.
    + intros Hle. apply Qgtb_le in Hle. rewrite Hle. rewrite <- !app_assoc. reflexivity.
    + intros Hpos. apply Qgtb_gt in Hpos. rewrite Hpos. cbn [world fs trace].
      destruct (cx_open_order X symbol (Cnx.rev_side side) "market" matched None
                  (Cnx.leverage cfg) w4) as [[r|e] w5];
        cbn [world fs trace]; rewrite <- !app_assoc; reflexivity.
Qed.

End Taker.

(** ** Rolling statistics *)






Section Stats.
Context {W : Type} (X : Externals W).
Hypothesis pow_half_nonneg : forall x, 0 <= x -> 0 <= pow_half X x.



(** The burst keeps every sample it obtains. *)
Lemma burst_length (cfg : Cnx.config) (n : nat) (vals l : list Q) (s s' : state W) :
  Cnx.burst X cfg n vals s = (Ok l, s') -> length l = (length vals + n)%nat.
Proof.
  revert vals s. induction n as [|n IH]; intros vals s; cbn [Cnx.burst].
  - run_monad. intros [= <- _]. lia.
  - destruct (Cnx.cfg_coin cfg) as [coin|]; [|discriminate].
    unfold bind at 1. unfold ret at 1. unfold bind at 1.
    destruct (Cnx.live_diff X coin s) as [[xyz|e] s1]; [|discriminate].
    unfold bind at 1, sleep. run_monad. cbn [world fs trace].
    destruct (time_sleep X (2 # 10) (world s1)) as [[] w]. intros H.
    apply IH in H. rewrite H, length_app. cbn. lia.
Qed.





End Stats.

Section SpotGuard.
Context {W : Type} (X : Externals W).

Lemma passive_within_inventory (cfg : Nbtx.config) (b : Q) (ev : event) :
  passive ev -> within_inventory cfg b ev.
Proof. destruct ev; cbn; tauto. Qed.

(** An attempt adds its one order and otherwise passive events only. *)
Lemma attempt_adds (P : event -> Prop) (fuel : nat) (cfg : Nbtx.config) (coin : string)
    (ls : Nbtx.loop_state) (side : string) (weight bb ba : Q) :
  (forall ev, passive ev -> P ev) ->
  (forall px, P (EvNewOrder side (Nbtx.order_qty cfg) (coin ++ "IRT")%string px)) ->
  adds_only P (Nbtx.attempt X fuel cfg coin ls side weight bb ba).
Proof.
  intros HP Hord. unfold Nbtx.attempt. adds_auto.
  all: try (apply HP; exact I).
  all: try apply Hord.
  all: eapply adds_mono; [|apply track_and_cancel_adds].
  all: intros ev Hev; apply HP; eapply tracker_passive; exact Hev.
Qed.

(** The action on the signal adds its order, within the bounds, and
    otherwise passive events only. *)
Lemma signal_block_adds (fuel : nat) (cfg : Nbtx.config) (coin : string)
    (ls : Nbtx.loop_state) (z lower upper b_units bb ba : Q) :
  adds_only (within_inventory cfg b_units)
    (Nbtx.signal_block X fuel cfg coin ls z lower upper b_units bb ba).
Proof.
  unfold Nbtx.signal_block.
  destruct (Qgtb z upper); [|destruct (Qltb z lower)].
  - destruct (Nbtx.buy_blocked _ _ _) eqn:E.
    + adds_auto.
    + apply Qgtb_le in E. adds_auto.
      apply attempt_adds; [apply passive_within_inventory|].
      intros px. cbn. auto.
  - destruct (Nbtx.sell_blocked _ _ _) eqn:E.
    + adds_auto.
    + apply Qltb_ge in E. adds_auto.
      apply attempt_adds; [apply passive_within_inventory|].
      intros px. cbn. auto.
  - adds_auto.
Qed.

Lemma periodic_dump_adds (P : event -> Prop) (cfg : Nbtx.config) (ls : Nbtx.loop_state) :
  (forall ev, passive ev -> P ev) -> adds_only P (Nbtx.periodic_dump X cfg ls).
Proof.
  intros HP. unfold Nbtx.periodic_dump. adds_auto. all: apply HP; exact I.
Qed.

Lemma guarded_adds {A} (P : event -> Prop) (ls : A) (m : M W (option A)) :
  (forall ev, passive ev -> P ev) -> adds_only P m -> adds_only P (Nbtx.guarded X ls m).
Proof.
  intros HP Hm. unfold Nbtx.guarded. apply adds_try; [exact Hm|]. intros e.
  adds_auto. all: apply HP; exact I.
Qed.

Lemma orders_within_passive (cfg : Nbtx.config) (coin : string) (evs : list event) :
  Forall passive evs -> orders_within cfg coin evs.
Proof. intros H ev Hin. left. rewrite List.Forall_forall in H. apply H. exact Hin. Qed.

Lemma orders_within_frame (cfg : Nbtx.config) (coin : string) (pre evs post : list event) :
  Forall passive pre -> Forall passive post -> orders_within cfg coin evs ->
  orders_within cfg coin (pre ++ evs ++ post).
Proof.
  intros Hpre Hpost H ev Hin. rewrite List.Forall_forall in Hpre, Hpost.
  rewrite !in_app_iff in Hin. destruct Hin as [Hin|[Hin|Hin]].
  - left. apply Hpre. exact Hin.
  - destruct (H ev Hin) as [Hp|(b & Hb & Hw)]; [left; exact Hp|].
    right. exists b. split; [|exact Hw]. rewrite !in_app_iff. auto.
  - left. apply Hpost. exact Hin.
Qed.

(** From the live difference on, a cycle respects the inventory bounds. *)
Lemma trade_phase_orders_within (fuel : nat) (cfg : Nbtx.config) (coin : string)
    (ls1 : Nbtx.loop_state) (s : state W) :
  exists evs,
    trace (snd (Nbtx.trade_phase X fuel cfg coin ls1 s)) = trace s ++ evs
    /\ orders_within cfg coin evs.
Proof.
  unfold Nbtx.trade_phase.
  destruct (nb_live_diff_adds X coin s) as (evs1 & E1 & F1).
  assert (P1 : Forall passive evs1).
  { eapply List.Forall_impl; [|exact F1]. intros ev; destruct ev; cbn; tauto. }
  unfold bind at 1. destruct (Nbtx.live_diff X coin s) as [[xyz|e] s1]; cbn [snd] in E1.
  2: { exists evs1. split; [exact E1|]. apply orders_within_passive. exact P1. }
  lazymatch goal with
  | |- context [bind (call (EvReadBalance coin) ?h) ?k] =>
      assert (Hrest : forall b, adds_only (within_inventory cfg b) (k b))
  end.
  { intros b. cbv beta. adds_auto.
    - unfold Nbtx.within_tobit_window. adds_auto. apply read_pos_adds.
    - apply signal_block_adds.
    - apply guarded_adds; [apply passive_within_inventory|].
      adds_auto. apply periodic_dump_adds. apply passive_within_inventory. }
  unfold bind at 1, call at 1.
  destruct (read_balance X coin (Nbtx.balance_path cfg) (world s1)) as [[b|e] w2].
  - match goal with
    | |- context [snd (?k ?st)] => destruct (Hrest b st) as (evs3 & E3 & F3)
    end.
    cbn [trace] in E3. exists (evs1 ++ [EvReadBalance coin (Ok b)] ++ evs3).
    split.
    + rewrite E3, E1, <- !app_assoc. reflexivity.
    + intros ev Hin. rewrite !in_app_iff in Hin. destruct Hin as [Hin|[Hin|Hin]].
      * left. rewrite List.Forall_forall in P1. apply P1. exact Hin.
      * destruct Hin as [<-|[]]. left. exact I.
      * right. exists b. split.
        -- rewrite !in_app_iff. right. left. left. reflexivity.
        -- rewrite List.Forall_forall in F3. apply F3. exact Hin.
  - cbn [snd trace]. exists (evs1 ++ [EvReadBalance coin (Raise e)]).
    split; [rewrite E1, <- app_assoc; reflexivity|].
    apply orders_within_passive. apply Forall_app. split; [exact P1|].
    constructor; [exact I|constructor].
Qed.

(** The handler of the loop adds a log line and a sleep. *)
Lemma guarded_run {A} (ls : A) (m : M W (option A)) (s : state W) :
  exists post,
    trace (snd (Nbtx.guarded X ls m s)) = trace (snd (m s)) ++ post
    /\ Forall passive post.
Proof.
  unfold Nbtx.guarded, try_except. destruct (m s) as [[a|e] s1]; cbn [snd].
  - exists []. rewrite app_nil_r. split; [reflexivity|constructor].
  - unfold sleep. run_monad. cbn [world fs trace].
    destruct (time_sleep X 3 (world s1)) as [[] w]. cbn [snd trace].
    exists [EvLog "[NB] error"; EvSleep 3]. split.
    + rewrite <- app_assoc. reflexivity.
    + repeat constructor.
Qed.

(** A whole cycle respects the inventory bounds. *)
Lemma cycle_orders_within (fuel : nat) (cfg : Nbtx.config) (coin : string)
    (ls : Nbtx.loop_state) (s : state W) :
  exists evs,
    trace (snd (Nbtx.cycle X fuel cfg coin ls s)) = trace s ++ evs
    /\ orders_within cfg coin evs.
Proof.
  unfold Nbtx.cycle.
  match goal with
  | |- context [Nbtx.guarded X ls ?m s] =>
      destruct (guarded_run ls m s) as (post & Ep & Fp);
      assert (Hm : exists evs, trace (snd (m s)) = trace s ++ evs
                               /\ orders_within cfg coin evs)
  end.
  - unfold sleep. unfold bind at 1. unfold bind at 1. unfold emit at 1.
    cbv beta iota. unfold call_total at 1. cbn [world fs trace].
    destruct (time_sleep X (Nbtx.interval_sec cfg) (world s)) as [[] w0].
    unfold bind at 1. unfold call_total at 1. cbn [world fs trace].
    destruct (time_time X w0) as [now w1].
    match goal with
    | |- context [bind ?r ?k] =>
        assert (Hr : adds_only passive r);
        [|unfold bind at 1; destruct (Hr (State w1 (fs s) (trace s ++ [EvSleep (Nbtx.interval_sec cfg)])))
            as (evs1 & E1 & F1);
          destruct (r (State w1 (fs s) (trace s ++ [EvSleep (Nbtx.interval_sec cfg)])))
            as [[[ls1 skip]|e] s1]; cbn [snd trace fst] in *]
    end.
    + adds_auto. apply nb_window_stats_passive.
    + destruct skip.
      * unfold ret. cbn [snd]. exists ([EvSleep (Nbtx.interval_sec cfg)] ++ evs1).
        split; [rewrite E1, <- app_assoc; reflexivity|].
        apply orders_within_passive. apply Forall_app. split; [|exact F1].
        repeat constructor.
      * destruct (guarded_run ls1 (Nbtx.trade_phase X fuel cfg coin ls1) s1)
          as (post2 & Ep2 & Fp2).
        destruct (trade_phase_orders_within fuel cfg coin ls1 s1) as (evs2 & E2 & F2).
        exists (([EvSleep (Nbtx.interval_sec cfg)] ++ evs1) ++ evs2 ++ post2). split.
        -- rewrite Ep2, E2, E1, <- !app_assoc. reflexivity.
        -- apply orders_within_frame; [|exact Fp2|exact F2].
           apply Forall_app. split; [repeat constructor|exact F1].
    + exists ([EvSleep (Nbtx.interval_sec cfg)] ++ evs1).
      split; [rewrite E1, <- app_assoc; reflexivity|].
      apply orders_within_passive. apply Forall_app. split; [|exact F1].
      repeat constructor.
  - destruct Hm as (evs & E & F). exists ([] ++ evs ++ post). split.
    + rewrite Ep, E, <- app_assoc. reflexivity.
    + apply orders_within_frame; [constructor|exact Fp|exact F].
Qed.

(** C5: in every cycle of the spot-side loop, an order is placed only for
    the configured quantity and only within the bounds for the holdings
    read in that cycle (a buy when holdings plus quantity stay at or under
    u_units, a sell when holdings minus quantity stay at or above l_units);
    when a bound would be crossed the branch ends normally with a log line
    and no order; hence a permitted trade, filled in part or in full, leaves
    holdings that were inside [l_units, u_units] inside. *)
Theorem spot_inventory_guard (fuel : nat) (cfg : Nbtx.config) (coin : string)
    (ls : Nbtx.loop_state) (z lower upper b_units bb ba : Q) :
  let q := Nbtx.order_qty cfg in
  let l := Nbtx.l_units cfg in
  let u := Nbtx.u_units cfg in
  let block := Nbtx.signal_block X fuel cfg coin ls z lower upper b_units bb ba in
  (forall s : state W, exists evs,
     trace (snd (Nbtx.cycle X fuel cfg coin ls s)) = trace s ++ evs
     /\ orders_within cfg coin evs)
  /\ adds_only (within_inventory cfg b_units) block
  /\ (forall s : state W, upper < z -> u < b_units + q ->
      block s = (Ok (Some (ls, true)),
                 State (world s) (fs s)
                   (trace s ++ [EvLog "[NB] skip BUY: would exceed u_units"])))
  /\ (forall s : state W, z <= upper -> z < lower -> b_units - q < l ->
      block s = (Ok (Some (ls, true)),
                 State (world s) (fs s)
                   (trace s ++ [EvLog "[NB] skip SELL: would fall below l_units"])))
  /\ (forall m, l <= b_units -> b_units <= u -> 0 <= m -> m <= q ->
      (b_units + q <= u -> l <= b_units + m /\ b_units + m <= u)
      /\ (l <= b_units - q -> l <= b_units - m /\ b_units - m <= u)).
Proof.
  cbv zeta. split; [|split; [|split; [|split]]].
  - intros s. apply cycle_orders_within.
  - apply signal_block_adds.
  - intros s Hz Hb. unfold Nbtx.signal_block.
    apply Qgtb_gt in Hz. rewrite Hz. unfold Nbtx.buy_blocked.
    apply Qgtb_gt in Hb. rewrite Hb. reflexivity.
  - intros s Hz Hl Hb. unfold Nbtx.signal_block.
    apply Qgtb_le in Hz. rewrite Hz. apply Qltb_lt in Hl. rewrite Hl.
    unfold Nbtx.sell_blocked. apply Qltb_lt in Hb. rewrite Hb. reflexivity.
  - intros m Hl Hu H0 Hm. split; intros H; split; lra.
Qed.

End SpotGuard.

(** ** The live difference *)

Lemma first_level_ok (l : list level) (x : level) : first_level l = Ok x -> l <> [].
Proof. destruct l; [discriminate|]. intros _. discriminate. Qed.

Lemma first_level_empty (l : list level) : l = [] -> first_level l = Raise IndexError.
Proof. intros ->. reflexivity. Qed.

Lemma quoted_first_levels (ob : orderbook) :
  quoted ob ->
  exists b a, first_level (bids ob) = Ok b /\ first_level (asks ob) = Ok a.
Proof.
  intros [Hb Ha]. destruct (bids ob) as [|b bs]; [congruence|].
  destruct (asks ob) as [|a l]; [congruence|]. exists b, a. split; reflexivity.
Qed.

Lemma not_quoted_first_levels (ob : orderbook) :
  ~ quoted ob ->
  first_level (bids ob) = Raise IndexError
  \/ ((exists b, first_level (bids ob) = Ok b)
      /\ first_level (asks ob) = Raise IndexError).
Proof.
  intros Hq. unfold quoted in Hq. destruct (bids ob) as [|b bs], (asks ob) as [|a l]; cbn.
  - left. reflexivity.
  - left. reflexivity.
  - right. split; [eauto|reflexivity].
  - exfalso. apply Hq. split; discriminate.
Qed.

Section LiveDiff.
Context {W : Type} (X : Externals W).

(** C8 (amended): the live difference returns only when the two spot-venue
    books were answered with a quote on each side and so was the futures
    book or, on the spot-side bot, the Binance book it falls back to when the
    futures book is unavailable or empty; a required book answered with an
    empty side makes the call fail with [IndexError].  In the spot-side loop
    a failure of the call that opens the trade phase, having added only
    order-book reads to the trace, is logged and followed by the sleep, the
    loop going on with its variables unchanged; the same holds of whatever
    else the trade phase raises.  A failure of the call made while tracking
    an order is one of them: it leaves the tracker at once, the order having
    been placed and nothing having been cancelled. *)
Theorem live_diff_needs_quotes (coin : string) :
  (forall (s s' : state W) v,
     Cnx.live_diff X coin s = (Ok v, s') ->
     exists ob1 ob2 ob3 w1 w2,
       get_nobitex_orderbook X "USDTIRT" (world s) = (Ok ob1, w1)
       /\ get_nobitex_orderbook X (coin ++ "IRT")%string w1 = (Ok ob2, w2)
       /\ cx_future_order_book X (coin ++ "USDT")%string 5 w2 = (Ok ob3, world s')
       /\ quoted ob1 /\ quoted ob2 /\ quoted ob3)
  /\ (forall (s s' : state W) v,
        Nbtx.live_diff X coin s = (Ok v, s') ->
        exists ob1 ob2 ob3 w1 w2,
          get_nobitex_orderbook X "USDTIRT" (world s) = (Ok ob1, w1)
          /\ get_nobitex_orderbook X (coin ++ "IRT")%string w1 = (Ok ob2, w2)
          /\ quoted ob1 /\ quoted ob2 /\ quoted ob3
          /\ (cx_future_order_book X (coin ++ "USDT")%string 5 w2 = (Ok ob3, world s')
              \/ binance_fetch_order_book X (coin ++ "/USDT")%string
                   (snd (cx_future_order_book X (coin ++ "USDT")%string 5 w2))
                 = (Ok ob3, world s')))
  /\ (forall (s : state W) ob w,
        get_nobitex_orderbook X "USDTIRT" (world s) = (Ok ob, w) ->
        ~ quoted ob ->
        fst (Cnx.live_diff X coin s) = Raise IndexError
        /\ fst (Nbtx.live_diff X coin s) = Raise IndexError)
  /\ (forall (s : state W) ob1 w1 ob2 w2,
        get_nobitex_orderbook X "USDTIRT" (world s) = (Ok ob1, w1) ->
        quoted ob1 ->
        get_nobitex_orderbook X (coin ++ "IRT")%string w1 = (Ok ob2, w2) ->
        (~ quoted ob2 ->
         fst (Cnx.live_diff X coin s) = Raise IndexError
         /\ fst (Nbtx.live_diff X coin s) = Raise IndexError)
        /\ (quoted ob2 ->
            (forall ob3 w3,
               cx_future_order_book X (coin ++ "USDT")%string 5 w2 = (Ok ob3, w3) ->
               ~ quoted ob3 ->
               fst (Cnx.live_diff X coin s) = Raise IndexError)
            /\ (forall r3 w3 ob4 w4,
                  cx_future_order_book X (coin ++ "USDT")%string 5 w2 = (r3, w3) ->
                  (forall ob3, r3 = Ok ob3 -> ~ quoted ob3) ->
                  binance_fetch_order_book X (coin ++ "/USDT")%string w3 = (Ok ob4, w4) ->
                  ~ quoted ob4 ->
                  fst (Nbtx.live_diff X coin s) = Raise IndexError)))
  /\ (forall fuel cfg ls1 (s s' : state W) e,
        Nbtx.live_diff X coin s = (Raise e, s') ->
        Nbtx.guarded X ls1 (Nbtx.trade_phase X fuel cfg coin ls1) s
        = (Ok (Some ls1),
           State (snd (time_sleep X 3 (world s'))) (fs s')
             ((trace s' ++ [EvLog "[NB] error"]) ++ [EvSleep 3])))
  /\ (forall fuel cfg ls1 (s s' : state W) e,
        Nbtx.trade_phase X fuel cfg coin ls1 s = (Raise e, s') ->
        Nbtx.guarded X ls1 (Nbtx.trade_phase X fuel cfg coin ls1) s
        = (Ok (Some ls1),
           State (snd (time_sleep X 3 (world s'))) (fs s')
             ((trace s' ++ [EvLog "[NB] error"]) ++ [EvSleep 3])))
  /\ (forall oid market side timeout mean std k fuel poll start (s s3 : state W) r e,
        reads X market side oid s r ->
        filled r = false -> not_best side r = false ->
        Nbtx.live_diff X coin (after_reading market oid s r) = (Raise e, s3) ->
        Nbtx.track_loop X (S fuel) oid market side timeout mean std k coin poll start s
        = (Raise e, s3)
        /\ exists evs,
             trace s3 = trace s ++ [EvNobitexBook market; EvCheckOrder oid] ++ evs
             /\ Forall market_data evs)
  /\ (forall fuel cfg ls side weight bb ba (s s2 : state W) pri resp w1 oid e,
        let market := (coin ++ "IRT")%string in
        let placed :=
          State w1 (fs s)
            (trace s ++ [EvLog (if String.eqb side "buy" then "[NB] BUY" else "[NB] SELL");
                         EvNewOrder side (Nbtx.order_qty cfg) market pri]) in
        ri X (Nbtx.weighted_limit_price side bb ba weight) = Ok pri ->
        new_order X side (Nbtx.order_qty cfg) market pri (world s) = (Ok resp, w1) ->
        parse_order_response X resp = Ok "success"%string ->
        Nbtx.response_order_id resp = Ok oid ->
        Nbtx.track_and_cancel X fuel oid market side (Nbtx.timeout_sec cfg)
          (Nbtx.mean ls) (Nbtx.std ls) (Nbtx.k cfg) coin 2 placed = (Raise e, s2) ->
        Nbtx.attempt X fuel cfg coin ls side weight bb ba s = (Raise e, s2))
  /\ adds_only market_data (Nbtx.live_diff X coin).
Proof.
  split; [|split; [|split; [|split; [|split; [|split; [|split; [|split]]]]]]].
  - intros s s' v. unfold Cnx.live_diff, Cnx.coinex_best. run_monad.
    cbn [world fs trace].
    destruct (get_nobitex_orderbook X "USDTIRT" (world s)) as [[ob1|e] w1] eqn:G1;
      [|discriminate].
    destruct (first_level (bids ob1)) as [ub|e] eqn:B1; [|discriminate].
    destruct (first_level (asks ob1)) as [ua|e] eqn:A1; [|discriminate].
    cbn [world fs trace].
    destruct (get_nobitex_orderbook X _ w1) as [[ob2|e] w2] eqn:G2; [|discriminate].
    destruct (first_level (bids ob2)) as [cb|e] eqn:B2; [|discriminate].
    destruct (first_level (asks ob2)) as [ca|e] eqn:A2; [|discriminate].
    cbn [world fs trace].
    destruct (cx_future_order_book X _ 5 w2) as [[ob3|e] w3] eqn:F; [|discriminate].
    destruct (first_level (bids ob3)) as [fb|e] eqn:B3; [|discriminate].
    destruct (first_level (asks ob3)) as [fa|e] eqn:A3; [|discriminate].
    intros [= _ <-]. cbn [world]. exists ob1, ob2, ob3, w1, w2.
    unfold quoted. repeat split; eauto using first_level_ok.
  - intros s s' v. unfold Nbtx.live_diff. run_monad. cbn [world fs trace].
    destruct (get_nobitex_orderbook X "USDTIRT" (world s)) as [[ob1|e] w1] eqn:G1;
      [|discriminate].
    destruct (first_level (bids ob1)) as [ub|e] eqn:B1; [|discriminate].
    destruct (first_level (asks ob1)) as [ua|e] eqn:A1; [|discriminate].
    cbn [world fs trace].
    destruct (get_nobitex_orderbook X _ w1) as [[ob2|e] w2] eqn:G2; [|discriminate].
    destruct (first_level (bids ob2)) as [cb|e] eqn:B2; [|discriminate].
    destruct (first_level (asks ob2)) as [ca|e] eqn:A2; [|discriminate].
    cbn [world fs trace].
    destruct (cx_future_order_book X _ 5 w2) as [[ob3|e] w3] eqn:F; cbn [snd].
    + destruct (first_level (bids ob3)) as [fb|e] eqn:B3;
        [destruct (first_level (asks ob3)) as [fa|e] eqn:A3|].
      * intros [= _ <-]. cbn [world]. exists ob1, ob2, ob3, w1, w2.
        unfold quoted. repeat split; eauto using first_level_ok.
      * cbn [world fs trace].
        destruct (binance_fetch_order_book X _ w3) as [[ob4|e'] w4] eqn:Bn; [|discriminate].
        destruct (first_level (bids ob4)) as [gb|e'] eqn:B4; [|discriminate].
        destruct (first_level (asks ob4)) as [ga|e'] eqn:A4; [|discriminate].
        intros [= _ <-]. cbn [world]. exists ob1, ob2, ob4, w1, w2.
        unfold quoted. repeat split; eauto using first_level_ok.
        right. rewrite F. exact Bn.
      * cbn [world fs trace].
        destruct (binance_fetch_order_book X _ w3) as [[ob4|e'] w4] eqn:Bn; [|discriminate].
        destruct (first_level (bids ob4)) as [gb|e'] eqn:B4; [|discriminate].
        destruct (first_level (asks ob4)) as [ga|e'] eqn:A4; [|discriminate].
        intros [= _ <-]. cbn [world]. exists ob1, ob2, ob4, w1, w2.
        unfold quoted. repeat split; eauto using first_level_ok.
        right. rewrite F. exact Bn.
    + cbn [world fs trace].
      destruct (binance_fetch_order_book X _ w3) as [[ob4|e'] w4] eqn:Bn; [|discriminate].
      destruct (first_level (bids ob4)) as [gb|e'] eqn:B4; [|discriminate].
      destruct (first_level (asks ob4)) as [ga|e'] eqn:A4; [|discriminate].
      intros [= _ <-]. cbn [world]. exists ob1, ob2, ob4, w1, w2.
      unfold quoted. repeat split; eauto using first_level_ok.
      right. rewrite F. exact Bn.
  - intros s ob w Hb Hq.
    unfold Cnx.live_diff, Nbtx.live_diff. run_monad. rewrite Hb.
    destruct (not_quoted_first_levels ob Hq) as [H|[[b H] H']];
      rewrite H; [|rewrite H']; split; reflexivity.
  - intros s ob1 w1 ob2 w2 H1 Hq1 H2.
    destruct (quoted_first_levels ob1 Hq1) as (b1 & a1 & Hb1 & Ha1).
    unfold Cnx.live_diff, Nbtx.live_diff, Cnx.coinex_best. run_monad.
    rewrite H1, Hb1, Ha1. cbn [world fs trace]. rewrite H2. split.
    + intros Hq2.
      destruct (not_quoted_first_levels ob2 Hq2) as [H|[[b H] H']];
        rewrite H; [|rewrite H']; split; reflexivity.
    + intros Hq2.
      destruct (quoted_first_levels ob2 Hq2) as (b2 & a2 & Hb2 & Ha2).
      rewrite Hb2, Ha2. cbn [world fs trace]. split.
      * intros ob3 w3 H3 Hq3. rewrite H3.
        destruct (not_quoted_first_levels ob3 Hq3) as [H|[[b H] H']];
          rewrite H; [|rewrite H']; reflexivity.
      * intros r3 w3 ob4 w4 H3 Hq3 H4 Hq4. rewrite H3.
        destruct r3 as [ob3|e3].
        -- destruct (not_quoted_first_levels ob3 (Hq3 ob3 eq_refl)) as [H|[[b H] H']];
             rewrite H; [|rewrite H']; cbn [world fs trace]; rewrite H4;
             destruct (not_quoted_first_levels ob4 Hq4) as [G|[[b' G] G']];
             rewrite G; try rewrite G'; reflexivity.
        -- cbn [world fs trace]. rewrite H4.
           destruct (not_quoted_first_levels ob4 Hq4) as [G|[[b' G] G']];
             rewrite G; try rewrite G'; reflexivity.
  - intros fuel cfg ls1 s s' e Hd. unfold Nbtx.guarded, Nbtx.trade_phase.
    unfold try_except at 1. unfold bind at 1. rewrite Hd.
    unfold sleep. run_monad. cbn [world fs trace].
    destruct (time_sleep X 3 (world s')) as [[] w]. reflexivity.
  - intros fuel cfg ls1 s s' e Hd. unfold Nbtx.guarded.
    unfold try_except at 1. rewrite Hd.
    unfold sleep. run_monad. cbn [world fs trace].
    destruct (time_sleep X 3 (world s')) as [[] w]. reflexivity.
  - intros oid market side timeout mean std k fuel poll start s s3 r e Hr Hf Hnb Hd.
    assert (Ht : Nbtx.track_tick X oid market side timeout mean std k coin start s
                 = (Raise e, s3)).
    { rewrite (track_tick_reads X _ _ _ _ _ _ _ _ _ s r Hr). rewrite Hf.
      unfold not_best in Hnb. apply orb_false_iff in Hnb as [-> ->]. cbv beta iota.
      unfold bind at 1. rewrite Hd. reflexivity. }
    split.
    + cbn [Nbtx.track_loop]. unfold bind at 1. rewrite Ht. reflexivity.
    + destruct (nb_live_diff_adds X coin (after_reading market oid s r))
        as (evs & E & F). rewrite Hd in E. cbn [snd] in E. exists evs.
      split; [|exact F]. rewrite E. unfold after_reading. cbn [trace].
      rewrite <- !app_assoc. reflexivity.
  - intros fuel cfg ls side weight bb ba s s2 pri resp w1 oid e. cbv zeta.
    intros Hri Hn Hv Hid Ht. unfold Nbtx.attempt. cbv zeta.
    unfold bind at 1, lift at 1. rewrite Hri.
    unfold bind at 1, log at 1, emit at 1.
    unfold bind at 1, call at 1. cbn [world fs trace]. rewrite Hn.
    unfold bind at 1, lift at 1. rewrite Hv. cbn [String.eqb Ascii.eqb Bool.eqb].
    unfold bind at 1, lift at 1. rewrite Hid.
    unfold bind at 1. rewrite <- app_assoc. cbn [app]. rewrite Ht. reflexivity.
  - apply nb_live_diff_adds.
Qed.

End LiveDiff.

(** ** The resolved position *)

Section Position.
Context {W : Type} (X : Externals W).

(** [get_coinex_pos] always returns: whatever the live query raises is
    caught, and [read_pos] does not raise. *)
Lemma get_coinex_pos_returns (symbol path : string) (s : state W) :
  exists v s', Cnx.get_coinex_pos X symbol path s = (Ok v, s').
Proof.
  unfold Cnx.get_coinex_pos. unfold bind at 1. unfold try_except at 1.
  match goal with
  | |- context [match ?m s with _ => _ end] => destruct (m s) as [[[v|]|e] s1]
  end.
  - unfold ret. eauto.
  - rewrite read_pos_run. eauto.
  - unfold ret at 1. cbv beta iota. rewrite read_pos_run. eauto.
Qed.

(** When the live query raises, the answer is whatever the cache holds
    under the symbol: the stored record, or [None]. *)
Lemma get_coinex_pos_fallback (symbol path : string) (s : state W) (e : exn) (w : W) :
  cx_signed_request X "GET" "/futures/position" symbol (world s) = (Raise e, w) ->
  Cnx.get_coinex_pos X symbol path s
  = (Ok (lookup_doc (fs s) path (upper symbol)),
     State w (fs s) (trace s ++ [EvCxPosition symbol])).
Proof.
  intros H. unfold Cnx.get_coinex_pos. unfold bind at 1. unfold try_except at 1.
  unfold bind at 1. unfold call at 1. rewrite H. unfold ret at 1. cbv beta iota.
  rewrite read_pos_run. reflexivity.
Qed.

(** The band guard of the spot-side loop on a numeric cached position. *)
Lemma within_tobit_window_number (cfg : Nbtx.config) (coin : string) (b_units p : Q)
    (s : state W) :
  lookup_doc (fs s) (Nbtx.pos_store cfg) (upper (coin ++ "USDT")) = PyFloat p ->
  let center := (1 # 2) * (Nbtx.l_units cfg + Nbtx.u_units cfg) - b_units in
  Nbtx.within_tobit_window cfg coin b_units s
  = (Ok (Nbtx.within_band p center (Nbtx.t_units cfg), PyFloat p, center,
         center - Nbtx.t_units cfg, center + Nbtx.t_units cfg), s).
Proof.
  intros H. cbv zeta. unfold Nbtx.within_tobit_window. cbv zeta.
  unfold bind at 1. rewrite read_pos_run, H. reflexivity.
Qed.

(** On [None] and on a stored record the comparison raises. *)
Lemma within_tobit_window_not_number (cfg : Nbtx.config) (coin : string) (b_units : Q)
    (s : state W) :
  (forall p, lookup_doc (fs s) (Nbtx.pos_store cfg) (upper (coin ++ "USDT")) <> PyFloat p) ->
  Nbtx.within_tobit_window cfg coin b_units s = (Raise TypeError, s).
Proof.
  intros H. unfold Nbtx.within_tobit_window. cbv zeta.
  unfold bind at 1. rewrite read_pos_run.
  destruct (lookup_doc _ _ _) as [[|p|t]|d]; try reflexivity.
  exfalso. apply (H p). reflexivity.
Qed.

End Position.

(** C7: the band test is true exactly when the position lies strictly
    between [center - tolerance] and [center + tolerance]; it holds at
    (5, 5, 2) and fails on the boundary (7, 5, 2); and it is what the guard
    of the spot-side loop answers for a numeric cached position, with the
    centre taken from the bounds and the holdings. *)
Theorem within_band_strict (position center tolerance : Q) :
  (Nbtx.within_band position center tolerance = true <->
   center - tolerance < position /\ position < center + tolerance)
  /\ Nbtx.within_band 5 5 2 = true
  /\ Nbtx.within_band 7 5 2 = false
  /\ (forall W (cfg : Nbtx.config) (coin : string) (b_units : Q) (s : state W),
        lookup_doc (fs s) (Nbtx.pos_store cfg) (upper (coin ++ "USDT")) = PyFloat position ->
        center = (1 # 2) * (Nbtx.l_units cfg + Nbtx.u_units cfg) - b_units ->
        tolerance = Nbtx.t_units cfg ->
        Nbtx.within_tobit_window cfg coin b_units s
        = (Ok (Nbtx.within_band position center tolerance, PyFloat position, center,
               center - tolerance, center + tolerance), s)).
Proof.
  split; [|split; [reflexivity|split; [reflexivity|]]].
  - unfold Nbtx.within_band. rewrite andb_true_iff, !Qltb_lt. tauto.
  - intros W cfg coin b_units s Hpos -> ->.
    apply (within_tobit_window_number cfg coin b_units position s Hpos).
Qed.

(** C2 (the failing input): with the live position query raising and no
    position file, [get_coinex_pos] returns [None], which is not 0; with a
    record on file it returns the record, not its quantity; and the cycle
    of the hedger that reads it raises [TypeError] at [target - cur]. *)
Theorem get_coinex_pos_no_default :
  let X := Sim.externals Sim.calm in
  let path := "coinex_pos.json"%string in
  let stored := snd (PosStore.write_pos X path "BTCUSDT" 2 Sim.start) in
  fst (cx_signed_request X "GET" "/futures/position" "BTCUSDT" (world Sim.start))
    = Raise (VenueError "404")
  /\ fs Sim.start !! path = None
  /\ fst (Cnx.get_coinex_pos X "BTCUSDT" path Sim.start) = Ok PyNone
  /\ pyval_eqb PyNone (PyFloat 0) = false
  /\ fst (Cnx.get_coinex_pos X "BTCUSDT" path stored)
     = Ok (PDict (PosStore.pos_record 2 "buy" "2024-01-01T00:00:00"))
  /\ fst (Cnx.cycle X Sim.cx_cfg "BTC" Sim.cx_loop Sim.start) = Raise TypeError.
Proof. vm_compute. repeat split; reflexivity. Qed.

(** * Runs on the simulated venue *)


(** A cached position of 5 against the centre 5 with tolerance 2. *)
Lemma within_band_strict_witness :
  Nbtx.within_tobit_window Sim.nb_cfg "BTC" (-5) (Sim.numeric_store 5)
  = (Ok (true, PyFloat 5, (1 # 2) * (-10 + 10) - -5,
         (1 # 2) * (-10 + 10) - -5 - 2, (1 # 2) * (-10 + 10) - -5 + 2),
     Sim.numeric_store 5).
Proof.
  destruct (within_band_strict 5 ((1 # 2) * (-10 + 10) - -5) 2) as (_ & _ & _ & H).
  apply (H nat Sim.nb_cfg "BTC"%string (-5) (Sim.numeric_store 5)).
  - vm_compute. reflexivity.
  - reflexivity.
  - reflexivity.
Defined.

(** Four of ten units matched and the cancellation accepted: the taker
    sells the four back at market and reports failure. *)
Lemma fok_taker_settles_witness :
  Cnx.fok_taker (Sim.externals Sim.partial_fill) Sim.cx_cfg "BTCUSDT" "buy" 10 100 0 0
    Sim.start
  = (Ok false,
     State 1%nat ∅
       [EvCxOpenOrder "BTCUSDT" "buy" "limit" 10 (Some 100); EvSleep (4 # 10);
        EvCxCheckOrder "BTCUSDT" 11; EvCxCancelOrder "BTCUSDT" 11;
        EvCxOpenOrder "BTCUSDT" "sell" "market" 4 None]).
Proof.
  destruct (fok_taker_settles (Sim.externals Sim.partial_fill) Sim.cx_cfg
              "BTCUSDT" "buy" 10 100 0 0 Sim.start
              {[ "order_id" := PyFloat 11 ]} Sim.report_4_of_10 Sim.report_4_of_10
              11%Z 4 10 0%nat 1%nat)
    as (_ & H & _).
  - reflexivity.
  - reflexivity.
  - vm_compute. reflexivity.
  - reflexivity.
  - vm_compute. reflexivity.
  - vm_compute. reflexivity.
  - vm_compute. reflexivity.
  - destruct (H ltac:(reflexivity) 1%nat ltac:(reflexivity)) as (_ & Hpos).
    exact (Hpos ltac:(reflexivity)).
Defined.

(** C1 as stated fails when the cancellation is refused: the rounded
    quantity is positive, the order was placed, the venue reports four of ten
    matched, and the call returns false having placed no market order. *)
Lemma fok_taker_cancel_refused :
  let X := Sim.externals Sim.cancel_fails in
  let run := Cnx.fok_taker X Sim.cx_cfg "BTCUSDT" "buy" 10 100 0 0 Sim.start in
  0 < py_max 0 (Cnx.round_qty 10 0)
  /\ fst (cx_open_order X "BTCUSDT" "buy" "limit" 10 (Some 100) 1 0%nat)
     = Ok {[ "order_id" := PyFloat 11 ]}
  /\ fst (cx_check_order X "BTCUSDT" 11 1%nat) = Ok Sim.report_4_of_10
  /\ 0 < 4 /\ 4 < 10 - Cnx.epsilon
  /\ fst run = Ok false
  /\ trace (snd run)
     = [EvCxOpenOrder "BTCUSDT" "buy" "limit" 10 (Some 100); EvSleep (4 # 10);
        EvCxCheckOrder "BTCUSDT" 11; EvCxCancelOrder "BTCUSDT" 11;
        EvLog "[CX] check/cancel error"]
  /\ cx_orders (trace (snd run))
     = [EvCxOpenOrder "BTCUSDT" "buy" "limit" 10 (Some 100)].
Proof. vm_compute. repeat split; reflexivity. Qed.


(** An order resting at the best bid, the venue giving 0.1 for both prices:
    read through [Decimal(str(.))] the order's price is one tenth, which is
    below the float of the book, and the poll cancels as NOT_BEST. *)
Example tick_at_decimal_best_bid :
  Nbtx.track_tick (Sim.externals Sim.at_best_tenth) (ANum 7) "BTCIRT" "buy" 3 1000 200 2
    "BTC" 0 Sim.start
  = (Ok (Nbtx.Return "NOT_BEST" 0 (0 * (1 # 10))),
     State 0%nat ∅
       [EvNobitexBook "BTCIRT"; EvCheckOrder (ANum 7);
        EvLog "no longer best bid -> cancel"; EvCancelOrder (ANum 7)]).
Proof. vm_compute. reflexivity. Qed.

(** A resting order with three units matched runs into the timeout: the
    three units and their notional are reported, nothing is placed. *)
Lemma tracker_keeps_fill_witness :
  exists start s_last r,
    Nbtx.track_tick (Sim.externals Sim.partial) (ANum 7) "BTCIRT" "buy" 3 1000 200 2
      "BTC" start s_last
    = (Ok (Nbtx.Return "TIMEOUT" 3 300),
       snd (Nbtx.track_and_cancel (Sim.externals Sim.partial) 10 (ANum 7) "BTCIRT" "buy"
              3 1000 200 2 "BTC" 2 Sim.start))
    /\ reads (Sim.externals Sim.partial) "BTCIRT" "buy" (ANum 7) s_last r
    /\ 3 = r_matched r
    /\ 300 = 3 * r_price r.
Proof.
  destruct (tracker_keeps_fill (Sim.externals Sim.partial) (ANum 7) "BTCIRT" "buy"
              3 1000 200 2 "BTC" 10 2) as (_ & H).
  destruct (H Sim.start
              (snd (Nbtx.track_and_cancel (Sim.externals Sim.partial) 10 (ANum 7)
                      "BTCIRT" "buy" 3 1000 200 2 "BTC" 2 Sim.start))
              "TIMEOUT"%string 3 300)
    as (start & s_last & r & Ht & Hr & Hm & Hn & _).
  - vm_compute. reflexivity.
  - exists start, s_last, r. auto.
Defined.

(** Holdings of nine and an order of two against an upper bound of ten:
    the buy is skipped with a log line. *)
Lemma spot_inventory_guard_witness :
  Nbtx.signal_block (Sim.externals Sim.partial) 10 Sim.nb_cfg "BTC" Sim.nb_loop
    1500 600 1400 9 100 104 Sim.start
  = (Ok (Some (Sim.nb_loop, true)),
     State 0%nat ∅ [EvLog "[NB] skip BUY: would exceed u_units"]).
Proof.
  destruct (spot_inventory_guard (Sim.externals Sim.partial) 10 Sim.nb_cfg "BTC"
              Sim.nb_loop 1500 600 1400 9 100 104) as (_ & _ & H & _).
  apply (H Sim.start); reflexivity.
Defined.



(** C8 as stated fails on the spot side: with an empty futures book the
    live difference is still computed, from the Binance book. *)
Lemma live_diff_without_futures :
  let X := Sim.externals Sim.no_futures in
  fst (cx_future_order_book X "BTCUSDT" 5 0%nat) = Ok Sim.empty_book
  /\ bids Sim.empty_book = [] /\ asks Sim.empty_book = []
  /\ exists x y z, fst (Nbtx.live_diff X "BTC" Sim.start) = Ok (x, y, z).
Proof.
  cbv zeta. split; [reflexivity|]. split; [reflexivity|]. split; [reflexivity|].
  eexists _, _, _. vm_compute. reflexivity.
Qed.

(** An empty USDT/fiat book: both versions fail, and the spot-side loop
    goes on to its next cycle.  A USDT/fiat book that empties while an order
    is tracked: the order was placed, nothing is cancelled, the loop logs
    and goes on. *)
Lemma live_diff_needs_quotes_witness :
  fst (Cnx.live_diff (Sim.externals Sim.no_usdt) "BTC" Sim.start) = Raise IndexError
  /\ fst (Nbtx.live_diff (Sim.externals Sim.no_usdt) "BTC" Sim.start) = Raise IndexError
  /\ Nbtx.guarded (Sim.externals Sim.no_usdt) Sim.nb_loop
       (Nbtx.trade_phase (Sim.externals Sim.no_usdt) 10 Sim.nb_cfg "BTC" Sim.nb_loop)
       Sim.start
     = (Ok (Some Sim.nb_loop),
        State 1%nat ∅ [EvNobitexBook "USDTIRT"; EvLog "[NB] error"; EvSleep 3])
  /\ (let X := Sim.externals Sim.usdt_fades in
      let run := Nbtx.guarded X Sim.nb_loop
                   (Nbtx.trade_phase X 3 Sim.nb_cfg "BTC" Sim.nb_loop)
                   (Sim.numeric_store 0) in
      fst (Nbtx.trade_phase X 3 Sim.nb_cfg "BTC" Sim.nb_loop (Sim.numeric_store 0))
        = Raise IndexError
      /\ fst run = Ok (Some Sim.nb_loop)
      /\ In (EvNewOrder "sell" 2 "BTCIRT" 102) (trace (snd run))
      /\ Forall no_cancel (trace (snd run))
      /\ exists pre, trace (snd run) = pre ++ [EvLog "[NB] error"; EvSleep 3]).
Proof.
  destruct (live_diff_needs_quotes (Sim.externals Sim.no_usdt) "BTC")
    as (_ & _ & H3 & _ & H4 & _).
  destruct (H3 Sim.start Sim.empty_book 0%nat) as (Hc & Hn).
  - reflexivity.
  - intros [Hb _]. apply Hb. reflexivity.
  - split; [exact Hc|]. split; [exact Hn|]. split.
    + apply (H4 10%nat Sim.nb_cfg Sim.nb_loop Sim.start
               (State 0%nat ∅ [EvNobitexBook "USDTIRT"]) IndexError).
      vm_compute. reflexivity.
    + cbv zeta.
      destruct (live_diff_needs_quotes (Sim.externals Sim.usdt_fades) "BTC")
        as (_ & _ & _ & _ & _ & H6 & _).
      split; [vm_compute; reflexivity|].
      rewrite (H6 3%nat Sim.nb_cfg Sim.nb_loop (Sim.numeric_store 0)
                 (snd (Nbtx.trade_phase (Sim.externals Sim.usdt_fades) 3 Sim.nb_cfg "BTC"
                         Sim.nb_loop (Sim.numeric_store 0)))
                 IndexError ltac:(vm_compute; reflexivity)).
      cbn [fst snd trace]. split; [reflexivity|]. split.
      * vm_compute. auto 20.
      * split.
        -- vm_compute. repeat constructor.
        -- eexists. rewrite <- app_assoc. reflexivity.
Defined.

(** Two stores of an unfilled attempt at position 2. *)
Lemma not_filled_store_idempotent_witness :
  let store := Cnx.store_after_attempt (Sim.externals Sim.calm) Sim.cx_cfg "BTCUSDT"
                 2 1 "buy" false in
  stored_field (fs (snd (store Sim.start))) "coinex_pos.json" "BTCUSDT" "q"
    = Some (ANum 2)
  /\ stored_field (fs (snd (store (snd (store Sim.start))))) "coinex_pos.json"
       "BTCUSDT" "q" = Some (ANum 2).
Proof.
  destruct (not_filled_store_idempotent (Sim.externals Sim.calm) Sim.cx_cfg "BTCUSDT"
              "buy" 2 1 Sim.start) as (_ & _ & H).
  destruct H as (_ & H1 & H2).
  - vm_compute. discriminate.
  - split; [exact H1|exact H2].
Defined.

(** * Further properties of the three modules *)

(** ** Powers of ten *)

Lemma pow10_pos (prec : Z) : 0 < pow10 prec.
Proof. unfold pow10. apply Qpower_0_lt. reflexivity. Qed.

(** ** The maker's limit price *)

(** X3: with a weight between 0 and 1 and an uncrossed book, the maker's
    limit price lies between the best bid and the best ask; weight 1 quotes
    the own side's best (the bid for a buy, the ask for a sell), weight 0
    the opposite side's; and the buy and sell prices of one weight are
    mirror images in the spread. *)
Theorem weighted_limit_price_between (side : string) (best_bid best_ask w : Q) :
  (0 <= w -> w <= 1 -> best_bid <= best_ask ->
   best_bid <= Nbtx.weighted_limit_price side best_bid best_ask w
   /\ Nbtx.weighted_limit_price side best_bid best_ask w <= best_ask)
  /\ Nbtx.weighted_limit_price "buy" best_bid best_ask 1 == best_bid
  /\ Nbtx.weighted_limit_price "sell" best_bid best_ask 1 == best_ask
  /\ Nbtx.weighted_limit_price "buy" best_bid best_ask 0 == best_ask
  /\ Nbtx.weighted_limit_price "sell" best_bid best_ask 0 == best_bid
  /\ Nbtx.weighted_limit_price "buy" best_bid best_ask w
     + Nbtx.weighted_limit_price "sell" best_bid best_ask w == best_bid + best_ask.
Proof.
  unfold Nbtx.weighted_limit_price. cbn [String.eqb Ascii.eqb Bool.eqb].
  split; [|repeat split; ring].
  intros H0 H1 Hb.
  assert (Hd : 0 <= best_ask - best_bid) by lra.
  assert (Hw : 0 <= 1 - w) by lra.
  assert (P1 : 0 <= w * (best_ask - best_bid)) by (apply Qmult_le_0_compat; assumption).
  assert (P2 : 0 <= (1 - w) * (best_ask - best_bid))
    by (apply Qmult_le_0_compat; assumption).
  destruct (String.eqb side "buy"); split.
  - assert (E : w * best_bid + (1 - w) * best_ask
               == best_bid + (1 - w) * (best_ask - best_bid)) by ring.
    rewrite E. lra.
  - assert (E : w * best_bid + (1 - w) * best_ask
               == best_ask - w * (best_ask - best_bid)) by ring.
    rewrite E. lra.
  - assert (E : w * best_ask + (1 - w) * best_bid
               == best_bid + w * (best_ask - best_bid)) by ring.
    rewrite E. lra.
  - assert (E : w * best_ask + (1 - w) * best_bid
               == best_ask - (1 - w) * (best_ask - best_bid)) by ring.
    rewrite E. lra.
Qed.

(** ** The taker's calls to the venue *)

Lemma Qfloor_below_one (x : Q) : x < 1 -> (Qfloor x <= 0)%Z.
Proof.
  intros H. assert (L : (Qfloor x < 1)%Z).
  { rewrite Zlt_Qlt. eapply Qle_lt_trans; [apply Qfloor_le|exact H]. }
  lia.
Qed.

Section TakerCalls.
Context {W : Type} (X : Externals W).

(** X4: a quantity below one step of the quantity precision (below 1 when
    the precision is zero or negative) rounds to nothing: [fok_taker]
    answers true at once, without any call to the venue and without a
    trace. *)
Theorem fok_taker_below_step (cfg : Cnx.config) (symbol side : string) (qty px : Q)
    (qty_prec price_prec : Z) (s : state W) :
  qty < (if (qty_prec <=? 0)%Z then 1 else 1 / pow10 qty_prec) ->
  Cnx.fok_taker X cfg symbol side qty px qty_prec price_prec s = (Ok true, s).
Proof.
  intros Hq. unfold Cnx.fok_taker. cbv zeta.
  assert (Hr : Cnx.round_qty qty qty_prec <= 0).
  { unfold Cnx.round_qty. cbv zeta. destruct (qty_prec <=? 0)%Z.
    - unfold py_floor. change 0 with (inject_Z 0). rewrite <- Zle_Qle.
      apply Qfloor_below_one. exact Hq.
    - assert (Hf := pow10_pos qty_prec).
      apply Qle_shift_div_r; [exact Hf|]. rewrite Qmult_0_l.
      unfold py_floor. change 0 with (inject_Z 0). rewrite <- Zle_Qle.
      apply Qfloor_below_one.
      assert (E : 1 == 1 / pow10 qty_prec * pow10 qty_prec)
        by (field; intros C; rewrite C in Hf; discriminate).
      rewrite E. apply Qmult_lt_compat_r; assumption. }
  replace (Qle_bool (py_max 0 (Cnx.round_qty qty qty_prec)) 0) with true; [reflexivity|].
  symmetry. apply Qle_bool_iff. unfold py_max.
  destruct (Qgtb (Cnx.round_qty qty qty_prec) 0) eqn:E; [|apply Qle_refl].
  exact Hr.
Qed.

(** Closing a goal made of alternatives and existentials. *)
Ltac pick_case :=
  first
    [ solve [repeat split; first [reflexivity | assumption]]
    | left; pick_case
    | right; pick_case
    | eexists; pick_case ].

(** A run of the taker on rounded quantity and price: the answer, the
    files and the calls. *)
Lemma fok_taker_shapes (cfg : Cnx.config) (symbol side : string) (qty px : Q)
    (qty_prec price_prec : Z) (s : state W) :
  let q := py_max 0 (Cnx.round_qty qty qty_prec) in
  let p := Cnx.round_price px price_prec in
  let limit := EvCxOpenOrder symbol side "limit" q (Some p) in
  let run := Cnx.fok_taker X cfg symbol side qty px qty_prec price_prec s in
  exists (b : bool) (evs : list event),
    fst run = Ok b
    /\ fs (snd run) = fs s
    /\ trace (snd run) = trace s ++ evs
    /\ ((q <= 0 /\ b = true /\ evs = [])
        \/ (0 < q /\ b = false /\ evs = [limit; EvLog "[CX] order error"])
        \/ (0 < q /\ exists oid,
             let polled := [limit; EvSleep (4 # 10); EvCxCheckOrder symbol oid] in
             let cancel := EvCxCancelOrder symbol oid in
             (b = true /\ evs = polled)
             \/ (b = false /\ evs = polled ++ [EvLog "[CX] check/cancel error"])
             \/ (b = false /\ evs = polled ++ [cancel; EvLog "[CX] check/cancel error"])
             \/ (b = false /\ evs = polled ++ [cancel])
             \/ (b = false /\ exists m,
                   0 < m
                   /\ let revert := EvCxOpenOrder symbol (Cnx.rev_side side) "market" m None in
                      evs = polled ++ [cancel; revert]
                      \/ evs = polled ++ [cancel; revert;
                                          EvLog "[CX] revert market failed"]))).
Proof.
  cbv zeta. unfold Cnx.fok_taker. cbv zeta.
  destruct (Qle_bool (py_max 0 (Cnx.round_qty qty qty_prec)) 0) eqn:Hq.
  { apply Qle_bool_iff in Hq. exists true, []. unfold ret. cbn [fst snd fs trace].
    rewrite app_nil_r. split; [reflexivity|]. split; [reflexivity|].
    split; [reflexivity|]. left. split; [exact Hq|]. split; reflexivity. }
  assert (Hpos : 0 < py_max 0 (Cnx.round_qty qty qty_prec)).
  { apply Qltb_lt. unfold Qltb. rewrite Hq. reflexivity. }
  run_monad. cbn [world fs trace].
  destruct (cx_open_order X symbol side "limit" _ _ _ (world s)) as [[resp|e] w1].
  2: { cbn [fst snd fs trace]. eexists _, _. split; [reflexivity|].
       split; [reflexivity|]. split; [rewrite <- !app_assoc; reflexivity|]. pick_case. }
  destruct (Cnx.parse_order_id X resp) as [oid|e].
  2: { cbn [fst snd fs trace]. eexists _, _. split; [reflexivity|].
       split; [reflexivity|]. split; [rewrite <- !app_assoc; reflexivity|]. pick_case. }
  cbn [world fs trace]. destruct (time_sleep X (4 # 10) w1) as [[] w2].
  cbn [world fs trace].
  destruct (cx_check_order X symbol oid w2) as [[st|e] w3].
  2: { cbn [fst snd fs trace]. eexists _, _. split; [reflexivity|].
       split; [reflexivity|]. split; [rewrite <- !app_assoc; reflexivity|].
       right. right. split; [exact Hpos|]. exists oid. cbv zeta. pick_case. }
  destruct (Cnx.order_fields st) as [od|e].
  2: { cbn [fst snd fs trace]. eexists _, _. split; [reflexivity|].
       split; [reflexivity|]. split; [rewrite <- !app_assoc; reflexivity|].
       right. right. split; [exact Hpos|]. exists oid. cbv zeta. pick_case. }
  destruct (pv_float X (pv_or (pv_or _ _) _)) as [matched|e].
  2: { cbn [fst snd fs trace]. eexists _, _. split; [reflexivity|].
       split; [reflexivity|]. split; [rewrite <- !app_assoc; reflexivity|].
       right. right. split; [exact Hpos|]. exists oid. cbv zeta. pick_case. }
  destruct (pv_float X (pv_or (pv_get od "amount") _)) as [requested|e].
  2: { cbn [fst snd fs trace]. eexists _, _. split; [reflexivity|].
       split; [reflexivity|]. split; [rewrite <- !app_assoc; reflexivity|].
       right. right. split; [exact Hpos|]. exists oid. cbv zeta. pick_case. }
  destruct (Qgeb matched (requested - Cnx.epsilon)).
  { cbn [fst snd fs trace]. eexists _, _. split; [reflexivity|].
    split; [reflexivity|]. split; [rewrite <- !app_assoc; reflexivity|].
    right. right. split; [exact Hpos|]. exists oid. cbv zeta. pick_case. }
  cbn [world fs trace].
  destruct (cx_cancel_order X symbol oid w3) as [[[]|e] w4].
  2: { cbn [fst snd fs trace]. eexists _, _. split; [reflexivity|].
       split; [reflexivity|]. split; [rewrite <- !app_assoc; reflexivity|].
       right. right. split; [exact Hpos|]. exists oid. cbv zeta. pick_case. }
  destruct (Qgtb matched 0) eqn:Hm.
  2: { cbn [fst snd fs trace]. eexists _, _. split; [reflexivity|].
       split; [reflexivity|]. split; [rewrite <- !app_assoc; reflexivity|].
       right. right. split; [exact Hpos|]. exists oid. cbv zeta. pick_case. }
  apply Qgtb_gt in Hm. cbn [world fs trace].
  destruct (cx_open_order X symbol (Cnx.rev_side side) "market" matched None _ w4)
    as [[r|e] w5].
  all: cbn [fst snd fs trace]; eexists _, _; split; [reflexivity|];
    split; [reflexivity|]; split; [rewrite <- !app_assoc; reflexivity|];
    right; right; split; [exact Hpos|]; exists oid; cbv zeta;
    do 4 right; split; [reflexivity|]; exists matched; split; [exact Hm|].
  - left. reflexivity.
  - right. reflexivity.
Qed.

(** X5: whenever [fok_taker] returns, it has left the position files alone
    and has talked to the venue in one of these sequences only: nothing at
    all (quantity rounded to zero, answer true); the limit order, refused
    (false); the limit order, the wait and the status read, then either
    nothing more (true: filled; or false with an error logged), or the
    cancellation, itself possibly failing, followed when a positive quantity
    had matched by one market order for that quantity on the opposite side.
    So at most one limit and one market order are placed, the market order
    only after the cancellation, and true is answered only without any
    cancellation. *)
Theorem fok_taker_calls (cfg : Cnx.config) (symbol side : string) (qty px : Q)
    (qty_prec price_prec : Z) (s s' : state W) (b : bool) :
  Cnx.fok_taker X cfg symbol side qty px qty_prec price_prec s = (Ok b, s') ->
  fs s' = fs s
  /\ exists evs,
       trace s' = trace s ++ evs
       /\ taker_sequence symbol side (py_max 0 (Cnx.round_qty qty qty_prec))
            (Cnx.round_price px price_prec) b evs.
Proof.
  intros H.
  destruct (fok_taker_shapes cfg symbol side qty px qty_prec price_prec s)
    as (b0 & evs & Hb & Hfs & Ht & Hsh).
  rewrite H in Hb, Hfs, Ht. cbn [fst snd] in Hb, Hfs, Ht. injection Hb as <-.
  split; [exact Hfs|]. exists evs. split; [exact Ht|]. exact Hsh.
Qed.

(** X6: the failures of a taker attempt with a positive rounded quantity.
    A refused placement, or an answer whose order id cannot be read, gives
    false after that one call; an id given as a string that [int] does not
    take as an integer literal is such an answer.  A status query that raises
    gives false without any cancellation: the limit order just placed is
    left on the venue.  An answer that carries no id at all is not a failure:
    the order is taken to be number 0. *)
Theorem fok_taker_failures (cfg : Cnx.config) (symbol side : string) (qty px : Q)
    (qty_prec price_prec : Z) (s : state W) :
  let q := py_max 0 (Cnx.round_qty qty qty_prec) in
  let p := Cnx.round_price px price_prec in
  let limit := EvCxOpenOrder symbol side "limit" q (Some p) in
  let place := cx_open_order X symbol side "limit" q (Some p) (Cnx.leverage cfg) (world s) in
  let run := Cnx.fok_taker X cfg symbol side qty px qty_prec price_prec s in
  0 < q ->
  (forall e w1, place = (Raise e, w1) ->
     run = (Ok false, State w1 (fs s) (trace s ++ [limit; EvLog "[CX] order error"])))
  /\ (forall resp e w1, place = (Ok resp, w1) -> Cnx.parse_order_id X resp = Raise e ->
      run = (Ok false, State w1 (fs s) (trace s ++ [limit; EvLog "[CX] order error"])))
  /\ (forall resp oid e w1 w3, place = (Ok resp, w1) -> Cnx.parse_order_id X resp = Ok oid ->
      cx_check_order X symbol oid (snd (time_sleep X (4 # 10) w1)) = (Raise e, w3) ->
      run = (Ok false,
             State w3 (fs s)
               (trace s ++ [limit; EvSleep (4 # 10); EvCxCheckOrder symbol oid;
                            EvLog "[CX] check/cancel error"])))
  /\ (forall resp : gmap string pyval,
        resp !! "order_id" = None -> resp !! "order" = None ->
        Cnx.parse_order_id X resp = Ok 0%Z)
  /\ (forall (resp : gmap string pyval) t,
        resp !! "order_id" = Some (PAtom (AStr t)) -> t <> ""%string ->
        parse_int X t = None ->
        Cnx.parse_order_id X resp = Raise ValueError).
Proof.
  cbv zeta. intros Hq.
  assert (Hle : Qle_bool (py_max 0 (Cnx.round_qty qty qty_prec)) 0 = false).
  { apply Qltb_lt in Hq. unfold Qltb in Hq. apply negb_true_iff in Hq. exact Hq. }
  split; [|split; [|split; [|split]]].
  - intros e w1 Hp. unfold Cnx.fok_taker. cbv zeta. rewrite Hle. run_monad.
    cbn [world fs trace]. rewrite Hp. cbn [world fs trace].
    rewrite <- !app_assoc. reflexivity.
  - intros resp e w1 Hp Hid. unfold Cnx.fok_taker. cbv zeta. rewrite Hle. run_monad.
    cbn [world fs trace]. rewrite Hp. cbn [world fs trace]. rewrite Hid.
    cbn [world fs trace]. rewrite <- !app_assoc. reflexivity.
  - intros resp oid e w1 w3 Hp Hid Hc. unfold Cnx.fok_taker. cbv zeta. rewrite Hle.
    run_monad. cbn [world fs trace]. rewrite Hp. cbn [world fs trace]. rewrite Hid.
    cbn [world fs trace]. destruct (time_sleep X (4 # 10) w1) as [[] w2].
    cbn [snd world fs trace] in *. rewrite Hc. cbn [world fs trace].
    rewrite <- !app_assoc. reflexivity.
  - intros resp H1 H2. unfold Cnx.parse_order_id, pv_get. rewrite H1, H2.
    reflexivity.
  - intros resp t0 H1 Ht Hp. unfold Cnx.parse_order_id, pv_get. rewrite H1.
    cbn [from_option id pv_truthy truthy pv_int].
    apply String.eqb_neq in Ht. rewrite Ht. cbn [negb]. rewrite Hp. reflexivity.
Qed.

End TakerCalls.

(** ** The position file *)

Lemma ascii_upper_idem (c : ascii) : ascii_upper (ascii_upper c) = ascii_upper c.
Proof. destruct c as [[] [] [] [] [] [] [] []]; reflexivity. Qed.

Lemma ascii_upper_lower (c : ascii) : ascii_upper (ascii_lower c) = ascii_upper c.
Proof. destruct c as [[] [] [] [] [] [] [] []]; reflexivity. Qed.

Lemma upper_idem (s : string) : upper (upper s) = upper s.
Proof.
  unfold upper. induction s as [|c s IH]; cbn; [reflexivity|].
  rewrite ascii_upper_idem, IH. reflexivity.
Qed.

Lemma upper_lower (s : string) : upper (lower s) = upper s.
Proof.
  unfold upper, lower. induction s as [|c s IH]; cbn; [reflexivity|].
  rewrite ascii_upper_lower, IH. reflexivity.
Qed.

Lemma string_length_app (a b : string) :
  String.length (a ++ b) = (String.length a + String.length b)%nat.
Proof. induction a as [|c a IH]; simpl; [reflexivity|]. f_equal. exact IH. Qed.

Lemma tmp_path_differs (path : string) : (path ++ ".tmp")%string <> path.
Proof.
  intros H. apply (f_equal String.length) in H. rewrite string_length_app in H.
  cbn in H. lia.
Qed.

Section PosStoreMore.
Context {W : Type} (X : Externals W).

(** X7: a successful [write_pos] changes one entry of one file.  The
    entries of the other symbols read as before, every file other than the
    position file and its temporary file is untouched, no temporary file is
    left behind, and nothing is added to the trace. *)
Theorem write_pos_frame (path symbol : string) (qty : Q) (s s' : state W) :
  PosStore.write_pos X path symbol qty s = (Ok tt, s') ->
  (forall other, upper other <> upper symbol ->
     fst (PosStore.read_pos path other s') = fst (PosStore.read_pos path other s))
  /\ (forall p, p <> path -> p <> (path ++ ".tmp")%string -> fs s' !! p = fs s !! p)
  /\ fs s' !! (path ++ ".tmp")%string = None
  /\ trace s' = trace s.
Proof.
  rewrite write_pos_run. cbv zeta. intros H.
  destruct (base_doc (fs s) path) as [d|] eqn:Hd; [|discriminate].
  injection H as <-. cbn [fs trace]. split; [|split; [|split]].
  - intros other Hne. rewrite !read_pos_run. cbn [fst fs]. unfold lookup_doc.
    rewrite lookup_after_replace. rewrite lookup_insert_ne by congruence.
    unfold base_doc in Hd. destruct (fs s !! path) as [[| |d0]|]; try congruence.
    + injection Hd as <-. rewrite lookup_empty. reflexivity.
    + injection Hd as <-. rewrite lookup_empty. reflexivity.
  - intros p Hp Ht. rewrite lookup_insert_ne by congruence.
    rewrite lookup_delete_ne by congruence. rewrite lookup_insert_ne by congruence.
    reflexivity.
  - rewrite lookup_insert_ne by (apply not_eq_sym, tmp_path_differs).
    apply lookup_delete_eq.
  - reflexivity.
Qed.

(** X8: what [write_pos] does by the state of the file.  On a JSON document
    that is not an object it raises [TypeError] before writing anything.
    Otherwise, when the write succeeds: from a missing or undecodable file it
    starts afresh, so that the file then holds the one record and nothing
    else (whatever an undecodable file held is dropped); from an object it
    adds or replaces the record of the symbol. *)
Theorem write_pos_by_file (path symbol : string) (qty : Q) (s : state W) :
  let run := PosStore.write_pos X path symbol qty s in
  let record := PDict (PosStore.pos_record qty (PosStore.side_of_qty qty)
                         (fst (now_iso X (world s)))) in
  (fs s !! path = None \/ fs s !! path = Some FGarbage ->
   fst run = Ok tt ->
   fs (snd run) !! path = Some (FObject {[ upper symbol := record ]}))
  /\ (fs s !! path = Some FNotObject ->
      fst run = Raise TypeError /\ fs (snd run) = fs s)
  /\ (forall d, fs s !! path = Some (FObject d) ->
      fst run = Ok tt ->
      fs (snd run) !! path = Some (FObject (<[upper symbol := record]> d))).
Proof.
  cbv zeta. rewrite write_pos_run. cbv zeta. unfold base_doc. split; [|split].
  - intros [H|H] _; rewrite H; cbn [fst snd fs]; rewrite lookup_after_replace;
      reflexivity.
  - intros H. rewrite H. cbn [fst snd fs]. split; reflexivity.
  - intros d H _. rewrite H. cbn [fst snd fs]. rewrite lookup_after_replace.
    reflexivity.
Qed.

(** X9: symbols are upper-cased on both sides, so the case in which a
    symbol is written does not matter: a record stored under one spelling is
    read back under any spelling with the same upper-casing, such as the
    lower-cased one. *)
Theorem pos_store_case_insensitive (path a b : string) (qty : Q) (s s' : state W) :
  (upper a = upper b ->
   PosStore.write_pos X path a qty s = (Ok tt, s') ->
   fst (PosStore.read_pos path b s')
   = Ok (PDict (PosStore.pos_record qty (PosStore.side_of_qty qty)
                  (fst (now_iso X (world s))))))
  /\ upper (lower a) = upper a
  /\ upper (upper a) = upper a.
Proof.
  split; [|split; [apply upper_lower|apply upper_idem]].
  intros Hab. rewrite write_pos_run. cbv zeta.
  destruct (base_doc (fs s) path) as [d|]; [|discriminate].
  intros [= <-]. rewrite read_pos_run. cbn [fst fs]. unfold lookup_doc.
  rewrite lookup_after_replace, <- Hab, lookup_insert_eq. reflexivity.
Qed.

(** X10: stores compose.  After two successful stores the file holds, for
    each symbol, the last quantity stored for it: a second store of the same
    symbol replaces the first, a store of another symbol leaves it. *)
Theorem write_pos_twice (path a b : string) (qa qb : Q) (s s1 s2 : state W) :
  PosStore.write_pos X path a qa s = (Ok tt, s1) ->
  PosStore.write_pos X path b qb s1 = (Ok tt, s2) ->
  stored_field (fs s2) path b "q" = Some (ANum qb)
  /\ (upper a <> upper b -> stored_field (fs s2) path a "q" = Some (ANum qa)).
Proof.
  rewrite !write_pos_run. cbv zeta.
  destruct (base_doc (fs s) path) as [d|]; [|discriminate].
  intros [= <-]. cbn [fs world]. rewrite base_doc_after_replace.
  intros [= <-]. unfold stored_field, lookup_doc. cbn [fs].
  rewrite !lookup_after_replace. split.
  - rewrite lookup_insert_eq. cbn [from_option id]. apply pos_record_q.
  - intros Hne. rewrite lookup_insert_ne by congruence. rewrite lookup_insert_eq.
    cbn [from_option id]. apply pos_record_q.
Qed.

End PosStoreMore.

(** ** The live position *)

Section LivePosition.
Context {W : Type} (X : Externals W).

(** Entries of other markets do not count. *)
Lemma sum_positions_others (symbol : string) (ps : list (gmap string atom)) (pos : Q)
    (s : state W) :
  Forall (fun p => atom_eqb (dict_get p "market") (AStr symbol) = false) ps ->
  Cnx.sum_positions X symbol ps pos s = (Ok pos, s).
Proof.
  induction 1 as [|p ps Hp _ IH]; cbn [Cnx.sum_positions]; [reflexivity|].
  rewrite Hp. exact IH.
Qed.

(** X11: a live answer that lists positions is final.  When none of the
    listed positions is for the symbol, the position is 0 and the cache is
    not consulted, whatever it holds.  A single position for the symbol
    counts with its size when its side is "long" in any letter case, and
    with the opposite of its size for any other side, a missing one
    included. *)
Theorem get_coinex_pos_live (symbol path : string) (s : state W)
    (ps : list (gmap string atom)) (w : W) :
  let after := State w (fs s) (trace s ++ [EvCxPosition symbol]) in
  cx_signed_request X "GET" "/futures/position" symbol (world s)
    = (Ok (CxDict (Some ps)), w) ->
  ps <> [] ->
  (Forall (fun p => atom_eqb (dict_get p "market") (AStr symbol) = false) ps ->
   Cnx.get_coinex_pos X symbol path s = (Ok (PyFloat 0), after))
  /\ (forall p z side,
        ps = [p] -> p !! "market" = Some (AStr symbol) -> p !! "size" = Some (ANum z) ->
        p !! "side" = Some (AStr side) ->
        Cnx.get_coinex_pos X symbol path s
        = (Ok (PyFloat (0 + (if String.eqb (lower side) "long" then z else - z))), after))
  /\ (forall p z,
        ps = [p] -> p !! "market" = Some (AStr symbol) -> p !! "size" = Some (ANum z) ->
        p !! "side" = None ->
        Cnx.get_coinex_pos X symbol path s = (Ok (PyFloat (0 + - z)), after)).
Proof.
  cbv zeta. intros Hreq Hne. destruct ps as [|p0 ps0]; [congruence|].
  assert (Hrun : Cnx.get_coinex_pos X symbol path s
                 = match Cnx.sum_positions X symbol (p0 :: ps0) 0
                           (State w (fs s) (trace s ++ [EvCxPosition symbol])) with
                   | (Ok pos, s1) => (Ok (PyFloat pos), s1)
                   | (Raise _, s1) => PosStore.read_pos path symbol s1
                   end).
  { unfold Cnx.get_coinex_pos. unfold bind at 1. unfold try_except at 1.
    unfold bind at 1. unfold call at 1. rewrite Hreq. unfold bind at 1.
    destruct (Cnx.sum_positions X symbol (p0 :: ps0) 0 _) as [[pos|e] s1]; reflexivity. }
  rewrite Hrun. split; [|split].
  - intros Hall. rewrite sum_positions_others by exact Hall. reflexivity.
  - intros p z side [= -> ->] Hm Hs Hside. cbn [Cnx.sum_positions].
    unfold dict_get, dict_get_or. rewrite Hm, Hs, Hside. cbn [from_option id atom_eqb].
    rewrite String.eqb_refl. unfold py_or. cbn [truthy to_float].
    destruct (String.eqb side "") eqn:E.
    + apply String.eqb_eq in E. subst side. reflexivity.
    + reflexivity.
  - intros p z [= -> ->] Hm Hs Hside. cbn [Cnx.sum_positions].
    unfold dict_get, dict_get_or. rewrite Hm, Hs, Hside. cbn [from_option id atom_eqb].
    rewrite String.eqb_refl. reflexivity.
Qed.

(** X12: every other outcome of the live query falls back to the cache:
    the query raising, an answer that is not a dictionary, one without
    positions or with an empty list of them, and a listed position that
    cannot be read (here: a size that is not a number).  The answer is then
    what the position file holds under the upper-cased symbol, or [None]. *)
Theorem get_coinex_pos_cache (symbol path : string) (s : state W)
    (r : result cx_data) (w : W) :
  let after := State w (fs s) (trace s ++ [EvCxPosition symbol]) in
  let cached := lookup_doc (fs s) path (upper symbol) in
  cx_signed_request X "GET" "/futures/position" symbol (world s) = (r, w) ->
  ((exists e, r = Raise e) \/ r = Ok CxNotDict \/ r = Ok (CxDict None)
   \/ r = Ok (CxDict (Some [])) ->
   Cnx.get_coinex_pos X symbol path s = (Ok cached, after))
  /\ (forall p ps t,
        r = Ok (CxDict (Some (p :: ps))) ->
        p !! "market" = Some (AStr symbol) -> p !! "size" = Some (AStr t) ->
        parse_number X t = None ->
        Cnx.get_coinex_pos X symbol path s = (Ok cached, after)).
Proof.
  cbv zeta. intros Hreq. split.
  - intros Hr. unfold Cnx.get_coinex_pos. unfold bind at 1. unfold try_except at 1.
    unfold bind at 1. unfold call at 1. rewrite Hreq.
    destruct Hr as [[e ->] | [-> | [-> | ->]]]; unfold ret; cbv beta iota;
      rewrite read_pos_run; reflexivity.
  - intros p ps t -> Hm Hs Hp. unfold Cnx.get_coinex_pos. unfold bind at 1.
    unfold try_except at 1. unfold bind at 1. unfold call at 1. rewrite Hreq.
    unfold bind at 1. cbn [Cnx.sum_positions]. unfold dict_get, dict_get_or.
    rewrite Hm, Hs. cbn [from_option id atom_eqb]. rewrite String.eqb_refl.
    cbn [to_float]. rewrite Hp. unfold bind at 1. unfold lift at 1.
    unfold ret at 1. cbv beta iota. rewrite read_pos_run. reflexivity.
Qed.

End LivePosition.

(** ** Statistics and the live difference, side by side *)

Section StatsMore.
Context {W : Type} (X : Externals W).

Lemma row_stats_count (row : option Q * option Q * Z) (mean std : Q) (n : Z) :
  Cnx.row_stats X row = Some (mean, std, n) -> (2 <= n)%Z.
Proof.
  destruct row as [[[m|] [msq|]] c]; cbn; try discriminate.
  destruct (2 <=? c)%Z eqn:E; [|discriminate].
  intros [= _ _ <-]. apply Z.leb_le. exact E.
Qed.

(** X13: the hedger's [window_stats] never reports fewer than two samples:
    its final [(0, 0, 0)] cannot be reached, because the live burst either
    raises or delivers all ten samples.  A failing query of the observation
    store is swallowed, and so is a store with fewer than two samples: what
    is returned then counts 10 samples.  Only in that case is the "coin"
    entry of the configuration read, and its absence raises [KeyError]. *)
Theorem cx_window_stats_samples (cfg : Cnx.config) (db : string) (w : Z) (s : state W) :
  let t := time_time X (world s) in
  let now := py_int (fst t) in
  let query := obs_query X db (now - w * 60)%Z now (snd t) in
  let no_estimate :=
    (exists e, fst query = Raise e)
    \/ (exists row, fst query = Ok row
                    /\ Cnx.row_stats X (default (None, None, 0%Z) row) = None) in
  (forall s' mean std n,
     Cnx.window_stats X cfg db w s = (Ok (mean, std, n), s') -> (2 <= n)%Z)
  /\ (no_estimate ->
      forall s' mean std n,
        Cnx.window_stats X cfg db w s = (Ok (mean, std, n), s') -> n = 10%Z)
  /\ (no_estimate -> Cnx.cfg_coin cfg = None ->
      fst (Cnx.window_stats X cfg db w s) = Raise KeyError)
  /\ (forall row mean std n,
        fst query = Ok row ->
        Cnx.row_stats X (default (None, None, 0%Z) row) = Some (mean, std, n) ->
        fst (Cnx.window_stats X cfg db w s) = Ok (mean, std, n)).
Proof.
  cbv zeta.
  assert (Hrun : Cnx.window_stats X cfg db w s
    = let t := time_time X (world s) in
      let now := py_int (fst t) in
      let q := obs_query X db (now - w * 60)%Z now (snd t) in
      let s1 := State (snd q) (fs s) (trace s ++ [EvObsQuery db (now - w * 60)%Z now]) in
      let fallback :=
        (vals <- Cnx.burst X cfg 10 [] ;;
         if (2 <=? length vals)%nat then
           ret (Cnx.fmean vals,
                if (length vals <? 3)%nat then Cnx.pstdev X vals else Cnx.stdev X vals,
                Z.of_nat (length vals))
         else ret (0, 0, 0%Z)) in
      match fst q with
      | Ok row => match Cnx.row_stats X (default (None, None, 0%Z) row) with
                  | Some r => (Ok r, s1)
                  | None => fallback s1
                  end
      | Raise _ => fallback s1
      end).
  { unfold Cnx.window_stats. cbv zeta. unfold bind at 1. unfold try_except at 1.
    unfold bind at 1. unfold call_total at 1.
    destruct (time_time X (world s)) as [t0 w0]. cbn [fst snd world fs trace].
    unfold bind at 1. unfold call at 1. cbn [world fs trace].
    destruct (obs_query X db _ _ w0) as [[row|e] w1]; cbn [fst snd].
    - unfold ret at 1.
      destruct (Cnx.row_stats X (default (None, None, 0%Z) row)) as [r|]; reflexivity.
    - reflexivity. }
  assert (Hfb : forall s1 s' mean std n,
    (vals <- Cnx.burst X cfg 10 [] ;;
     if (2 <=? length vals)%nat then
       ret (Cnx.fmean vals,
            if (length vals <? 3)%nat then Cnx.pstdev X vals else Cnx.stdev X vals,
            Z.of_nat (length vals))
     else ret (0, 0, 0%Z)) s1 = (Ok (mean, std, n), s') -> n = 10%Z).
  { intros s1 s' mean std n. unfold bind at 1.
    destruct (Cnx.burst X cfg 10 [] s1) as [[vals|e] s2] eqn:Hb; [|discriminate].
    apply burst_length in Hb. cbn [length Nat.add] in Hb. rewrite Hb.
    cbn. intros [= _ _ <-]. reflexivity. }
  rewrite Hrun. cbv zeta. split; [|split; [|split]].
  - intros s' mean std n.
    destruct (fst (obs_query X db _ _ _)) as [row|e].
    + destruct (Cnx.row_stats X (default (None, None, 0%Z) row)) as [r|] eqn:Hr.
      * intros [= -> _]. apply row_stats_count in Hr. exact Hr.
      * intros H. apply Hfb in H. lia.
    + intros H. apply Hfb in H. lia.
  - intros Hno s' mean std n. destruct Hno as [[e He]|(row & Hq & Hr)].
    + rewrite He. apply Hfb.
    + rewrite Hq, Hr. apply Hfb.
  - intros Hno Hc.
    assert (Hk : forall s1 : state W,
      fst ((vals <- Cnx.burst X cfg 10 [] ;;
            if (2 <=? length vals)%nat then
              ret (Cnx.fmean vals,
                   if (length vals <? 3)%nat then Cnx.pstdev X vals else Cnx.stdev X vals,
                   Z.of_nat (length vals))
            else ret (0, 0, 0%Z)) s1) = Raise KeyError).
    { intros s1. unfold bind at 1. cbn [Cnx.burst]. rewrite Hc.
      unfold bind at 1. reflexivity. }
    destruct Hno as [[e He]|(row & Hq & Hr)].
    + rewrite He. apply Hk.
    + rewrite Hq, Hr. apply Hk.
  - intros row mean std n Hq Hr. rewrite Hq, Hr. reflexivity.
Qed.

(** X14: the maker's [window_stats] has no such cover: it raises exactly
    when the query of the observation store raises, with the same
    exception. *)
Theorem nb_window_stats_raises (db : string) (w : Z) (s : state W) (e : exn) :
  let t := time_time X (world s) in
  let now := py_int (fst t) in
  fst (Nbtx.window_stats X db w s) = Raise e
  <-> fst (obs_query X db (now - w * 60)%Z now (snd t)) = Raise e.
Proof.
  cbv zeta. unfold Nbtx.window_stats. run_monad.
  destruct (time_time X (world s)) as [t0 w0]. cbn [fst snd world fs trace].
  destruct (obs_query X db _ _ w0) as [[row|e0] w1]; cbn [fst].
  - destruct (default (None, None, 0%Z) row) as [[[m|] [msq|]] c];
      try destruct (2 <=? c)%Z; cbn [fst]; split; discriminate.
  - split; intros [= ->]; reflexivity.
Qed.

(** X15: the two versions of [live_diff] agree wherever the hedger's one
    returns: the maker's version then returns the same three numbers and
    leaves the same state, its Binance fallback staying unused. *)
Theorem live_diff_agree (coin : string) (s s' : state W) (v : Q * Q * Q) :
  Cnx.live_diff X coin s = (Ok v, s') -> Nbtx.live_diff X coin s = (Ok v, s').
Proof.
  unfold Cnx.live_diff, Nbtx.live_diff, Cnx.coinex_best. run_monad.
  cbn [world fs trace].
  destruct (get_nobitex_orderbook X "USDTIRT" (world s)) as [[ob1|e] w1]; [|discriminate].
  destruct (first_level (bids ob1)) as [ub|e]; [|discriminate].
  destruct (first_level (asks ob1)) as [ua|e]; [|discriminate].
  cbn [world fs trace].
  destruct (get_nobitex_orderbook X _ w1) as [[ob2|e] w2]; [|discriminate].
  destruct (first_level (bids ob2)) as [cb|e]; [|discriminate].
  destruct (first_level (asks ob2)) as [ca|e]; [|discriminate].
  cbn [world fs trace].
  destruct (cx_future_order_book X _ 5 w2) as [[ob3|e] w3]; [|discriminate].
  destruct (first_level (bids ob3)) as [fb|e]; [|discriminate].
  destruct (first_level (asks ob3)) as [fa|e]; [|discriminate].
  cbn [fst snd]. intros H. exact H.
Qed.

End StatsMore.

(** ** Files and venue calls of whole cycles *)

Section Touches.
Context {W : Type} (F : relation (gmap string file)) (P : event -> Prop).
Context (F_refl : forall f, F f f) (F_trans : forall f g h, F f g -> F g h -> F f h).

Lemma touches_ret {A} (a : A) : touches F P (@ret W A a).
Proof.
  intros s. split; [apply F_refl|]. exists []. rewrite app_nil_r.
  split; [reflexivity|constructor].
Qed.

Lemma touches_raise {A} (e : exn) : touches F P (@raise W A e).
Proof.
  intros s. split; [apply F_refl|]. exists []. rewrite app_nil_r.
  split; [reflexivity|constructor].
Qed.

Lemma touches_lift {A} (r : result A) : touches F P (@lift W A r).
Proof.
  intros s. split; [apply F_refl|]. exists []. rewrite app_nil_r.
  split; [reflexivity|constructor].
Qed.

Lemma touches_get_fs : touches F P (@get_fs W).
Proof.
  intros s. split; [apply F_refl|]. exists []. rewrite app_nil_r.
  split; [reflexivity|constructor].
Qed.

Lemma touches_call_total {A} (h : W -> A * W) : touches F P (call_total h).
Proof.
  intros s. unfold call_total. destruct (h (world s)). cbn.
  split; [apply F_refl|]. exists []. rewrite app_nil_r. split; [reflexivity|constructor].
Qed.

Lemma touches_emit (ev : event) : P ev -> touches F P (@emit W ev).
Proof.
  intros H s. cbn. split; [apply F_refl|]. exists [ev]. split; [reflexivity|].
  constructor; [exact H|constructor].
Qed.

Lemma touches_call {A} (ev : result A -> event) (h : W -> result A * W) :
  (forall r, P (ev r)) -> touches F P (call ev h).
Proof.
  intros H s. unfold call. destruct (h (world s)) as [r w']. cbn.
  split; [apply F_refl|]. exists [ev r]. split; [reflexivity|].
  constructor; [apply H|constructor].
Qed.

Lemma touches_bind {A B} (m : M W A) (k : A -> M W B) :
  touches F P m -> (forall a, touches F P (k a)) -> touches F P (bind m k).
Proof.
  intros Hm Hk s. unfold bind. destruct (Hm s) as (F1 & evs1 & E1 & P1).
  destruct (m s) as [[a|e] s1]; cbn [snd] in *.
  - destruct (Hk a s1) as (F2 & evs2 & E2 & P2). split; [eapply F_trans; eassumption|].
    exists (evs1 ++ evs2). rewrite E2, E1, app_assoc. split; [reflexivity|].
    apply Forall_app. split; assumption.
  - split; [exact F1|]. exists evs1. split; assumption.
Qed.

Lemma touches_try {A} (m : M W A) (h : exn -> M W A) :
  touches F P m -> (forall e, touches F P (h e)) -> touches F P (try_except m h).
Proof.
  intros Hm Hh s. unfold try_except. destruct (Hm s) as (F1 & evs1 & E1 & P1).
  destruct (m s) as [[a|e] s1]; cbn [snd] in *.
  - split; [exact F1|]. exists evs1. split; assumption.
  - destruct (Hh e s1) as (F2 & evs2 & E2 & P2). split; [eapply F_trans; eassumption|].
    exists (evs1 ++ evs2). rewrite E2, E1, app_assoc. split; [reflexivity|].
    apply Forall_app. split; assumption.
Qed.

End Touches.

(** One structural step of a proof about what a program touches. *)
Ltac touches_step :=
  lazymatch goal with
  | |- touches _ _ (bind _ _) => apply touches_bind; [assumption| |intro]
  | |- touches _ _ (try_except _ _) => apply touches_try; [assumption| |intro]
  | |- touches _ _ (ret _) => apply touches_ret; assumption
  | |- touches _ _ (raise _) => apply touches_raise; assumption
  | |- touches _ _ (lift _) => apply touches_lift; assumption
  | |- touches _ _ get_fs => apply touches_get_fs; assumption
  | |- touches _ _ (call_total _) => apply touches_call_total; assumption
  | |- touches _ _ (call _ _) => apply touches_call; [assumption|intro; exact I]
  | |- touches _ _ (emit _) => apply touches_emit; [assumption|exact I]
  | |- touches _ _ (log _) => apply touches_emit; [assumption|exact I]
  | |- touches _ _ (sleep _ _) => unfold sleep
  | |- touches _ _ (match ?x with _ => _ end) => destruct x
  | |- touches _ _ (if ?b then _ else _) => destruct b
  | |- touches _ _ (let _ := _ in _) => cbv zeta
  end.

Ltac touches_auto := repeat touches_step.

Section MakerTouches.
Context {W : Type} (X : Externals W).
Context (F : relation (gmap string file)).
Context (F_refl : forall f, F f f) (F_trans : forall f g h, F f g -> F g h -> F f h).

Lemma read_pos_touches (P : event -> Prop) (path symbol : string) :
  touches F P (@PosStore.read_pos W path symbol).
Proof.
  unfold PosStore.read_pos, PosStore.json_load, PosStore.doc_get. touches_auto.
Qed.

Lemma nb_live_diff_touches (coin : string) : touches F maker_event (Nbtx.live_diff X coin).
Proof. unfold Nbtx.live_diff. touches_auto. Qed.

Lemma track_loop_touches (fuel : nat) (oid : atom) (market side : string) (timeout : Z)
    (mean std k : Q) (coin : string) (poll start : Q) :
  touches F maker_event
    (Nbtx.track_loop X fuel oid market side timeout mean std k coin poll start).
Proof.
  induction fuel as [|fuel IH]; cbn [Nbtx.track_loop].
  - touches_auto.
  - apply touches_bind; [assumption| |].
    + unfold Nbtx.track_tick, Nbtx.cancel_and_return. touches_auto.
      all: apply nb_live_diff_touches.
    + intros [o m n|]; touches_auto. exact IH.
Qed.

Lemma nb_cycle_touches (fuel : nat) (cfg : Nbtx.config) (coin : string)
    (ls : Nbtx.loop_state) :
  touches F maker_event (Nbtx.cycle X fuel cfg coin ls).
Proof.
  unfold Nbtx.cycle, Nbtx.guarded, Nbtx.trade_phase, Nbtx.window_stats,
    Nbtx.within_tobit_window, Nbtx.signal_block, Nbtx.attempt, Nbtx.periodic_dump,
    Nbtx.guarded, Nbtx.track_and_cancel.
  touches_auto.
  all: first [ apply nb_live_diff_touches | apply read_pos_touches
             | apply track_loop_touches ]; assumption.
Qed.

End MakerTouches.

Lemma same_outside_refl (path : string) (f : gmap string file) : same_outside path f f.
Proof. intros p _ _. reflexivity. Qed.

Lemma same_outside_trans (path : string) (f g h : gmap string file) :
  same_outside path f g -> same_outside path g h -> same_outside path f h.
Proof. intros H1 H2 p Hp Ht. rewrite (H2 p Hp Ht). apply H1; assumption. Qed.

Section CycleFrames.
Context {W : Type} (X : Externals W).

(** X17: a cycle of the maker's loop leaves the position files as they
    are (it only reads the position store) and makes no call to the
    derivatives venue other than reading its order book: no order, status
    read, cancellation or position query there. *)
Theorem nb_cycle_reads_only (fuel : nat) (cfg : Nbtx.config) (coin : string)
    (ls : Nbtx.loop_state) (s : state W) :
  let run := Nbtx.cycle X fuel cfg coin ls s in
  fs (snd run) = fs s
  /\ exists evs, trace (snd run) = trace s ++ evs /\ Forall maker_event evs.
Proof.
  cbv zeta.
  destruct (nb_cycle_touches X eq (fun f => eq_refl)
              (fun f g h H1 H2 => eq_trans H1 H2) fuel cfg coin ls s) as (Hf & Hev).
  split; [symmetry; exact Hf|exact Hev].
Qed.

Lemma write_pos_touches (P : event -> Prop) (path symbol : string) (qty : Q) :
  touches (same_outside path) P (PosStore.write_pos X path symbol qty).
Proof.
  intros s. rewrite write_pos_run. cbv zeta.
  destruct (base_doc (fs s) path) as [d|]; cbn [snd fs trace].
  - split.
    + intros p Hp Ht. rewrite lookup_insert_ne by congruence.
      rewrite lookup_delete_ne by congruence. rewrite lookup_insert_ne by congruence.
      reflexivity.
    + exists []. rewrite app_nil_r. split; [reflexivity|constructor].
  - split; [apply same_outside_refl|].
    exists []. rewrite app_nil_r. split; [reflexivity|constructor].
Qed.

Lemma cx_burst_touches (F : relation (gmap string file))
    (F_refl : forall f, F f f) (F_trans : forall f g h, F f g -> F g h -> F f h)
    (cfg : Cnx.config) (n : nat) (vals : list Q) :
  touches F hedger_event (Cnx.burst X cfg n vals).
Proof.
  revert vals. induction n as [|n IH]; intros vals; cbn [Cnx.burst].
  - touches_auto.
  - unfold Cnx.live_diff, Cnx.coinex_best. touches_auto. apply IH.
Qed.

Lemma cx_sum_positions_touches (F : relation (gmap string file))
    (F_refl : forall f, F f f) (F_trans : forall f g h, F f g -> F g h -> F f h)
    (P : event -> Prop) (symbol : string) (ps : list (gmap string atom)) (pos : Q) :
  touches F P (Cnx.sum_positions X symbol ps pos).
Proof.
  revert pos. induction ps as [|p ps IH]; intros pos; cbn [Cnx.sum_positions].
  - touches_auto.
  - touches_auto; apply IH.
Qed.

Lemma cx_cycle_touches (cfg : Cnx.config) (coin : string) (ls : Cnx.loop_state) :
  touches (same_outside (Cnx.pos_store_path cfg)) hedger_event (Cnx.cycle X cfg coin ls).
Proof.
  assert (F_refl := same_outside_refl (Cnx.pos_store_path cfg)).
  assert (F_trans := same_outside_trans (Cnx.pos_store_path cfg)).
  unfold Cnx.cycle, Cnx.window_stats, Cnx.live_diff, Cnx.coinex_best,
    Cnx.get_coinex_pos, Cnx.fok_taker, Cnx.store_after_attempt, Cnx.get_coinex_pos.
  touches_auto.
  all: first [ apply cx_burst_touches | apply read_pos_touches
             | apply write_pos_touches | apply cx_sum_positions_touches ];
    assumption.
Qed.

(** X18: a cycle of the hedger's loop changes no position file but its
    own (and that file's temporary copy), and does nothing on the spot
    venue beyond reading books and the balance: no order, status read or
    cancellation there, and no access to the trade history. *)
Theorem cx_cycle_writes_position_only (cfg : Cnx.config) (coin : string)
    (ls : Cnx.loop_state) (s : state W) :
  let run := Cnx.cycle X cfg coin ls s in
  (forall p, p <> Cnx.pos_store_path cfg ->
             p <> (Cnx.pos_store_path cfg ++ ".tmp")%string ->
             fs (snd run) !! p = fs s !! p)
  /\ exists evs, trace (snd run) = trace s ++ evs /\ Forall hedger_event evs.
Proof. cbv zeta. apply (cx_cycle_touches cfg coin ls s). Qed.

End CycleFrames.

(** ** Cancellations by the tracker *)

Lemma market_data_no_cancel (evs : list event) :
  Forall market_data evs -> Forall no_cancel evs.
Proof.
  intros H. eapply List.Forall_impl; [|exact H]. intros ev; destruct ev; cbn; tauto.
Qed.

Lemma cancelled_last_prefix (oid : atom) (pre evs : list event) :
  Forall no_cancel pre -> cancelled_last oid evs -> cancelled_last oid (pre ++ evs).
Proof.
  intros Hp (pre' & -> & Hpre'). exists (pre ++ pre'). split.
  - rewrite app_assoc. reflexivity.
  - apply Forall_app. split; assumption.
Qed.

Section TrackerCancels.
Context {W : Type} (X : Externals W).
Variables (oid : atom) (market side : string) (timeout : Z) (mean std k : Q)
  (coin : string).

(** The end of a cancelling branch, in the trace. *)
Lemma cancel_and_return_events (msg o : string) (m n : Q) (s : state W) :
  let run := Nbtx.cancel_and_return X oid msg o m n s in
  trace (snd run) = trace s ++ [EvLog msg; EvCancelOrder oid]
  /\ (fst run = Ok (Nbtx.Return o m n)
      \/ exists e, fst run = Raise e /\ exists w, fst (cancel_order X oid w) = Raise e).
Proof.
  cbv zeta. rewrite cancel_and_return_run.
  destruct (cancel_order X oid (world s)) as [[[]|e] w] eqn:Hc; cbn [fst snd trace];
    rewrite <- app_assoc; split; auto.
  right. exists e. split; [reflexivity|]. exists (world s). rewrite Hc. reflexivity.
Qed.

(** One poll: no cancellation unless it is the last event of a poll that
    returns something else than FILLED, or raises. *)
Lemma track_tick_cancels (start : Q) (s : state W) :
  let run := Nbtx.track_tick X oid market side timeout mean std k coin start s in
  exists evs,
    trace (snd run) = trace s ++ evs
    /\ match fst run with
       | Ok Nbtx.Again => Forall no_cancel evs
       | Ok (Nbtx.Return o _ _) =>
           if String.eqb o "FILLED" then Forall no_cancel evs else cancelled_last oid evs
       | Raise e =>
           Forall no_cancel evs
           \/ (cancelled_last oid evs /\ exists w, fst (cancel_order X oid w) = Raise e)
       end.
Proof.
  cbv zeta.
  destruct (Nbtx.track_tick X oid market side timeout mean std k coin start s)
    as [r s'] eqn:Hrun.
  revert Hrun. unfold Nbtx.track_tick.
  unfold bind at 1, call at 1.
  destruct (get_nobitex_orderbook X market (world s)) as [[ob|e] w1].
  2: { intros [= <- <-]. cbn [fst snd trace]. eexists. split; [reflexivity|].
       left. repeat constructor. }
  cbn [world fs trace]. unfold bind at 1, lift at 1.
  destruct (first_level (bids ob)) as [bb|e].
  2: { intros [= <- <-]. cbn [fst snd trace]. eexists. split; [reflexivity|].
       left. repeat constructor. }
  unfold bind at 1, lift at 1.
  destruct (first_level (asks ob)) as [ba|e].
  2: { intros [= <- <-]. cbn [fst snd trace]. eexists. split; [reflexivity|].
       left. repeat constructor. }
  unfold bind at 1, call at 1. cbn [world fs trace].
  destruct (check_order X oid w1) as [[resp|e] w2].
  2: { intros [= <- <-]. cbn [fst snd trace]. eexists.
       split; [rewrite <- app_assoc; reflexivity|]. left. repeat constructor. }
  set (s2 := State w2 (fs s) ((trace s ++ [EvNobitexBook market]) ++ [EvCheckOrder oid])).
  assert (E2 : trace s2 = trace s ++ [EvNobitexBook market; EvCheckOrder oid]).
  { unfold s2. cbn [trace]. rewrite <- app_assoc. reflexivity. }
  assert (N2 : Forall no_cancel [EvNobitexBook market; EvCheckOrder oid])
    by (repeat constructor).
  unfold bind at 1.
  destruct (default (PDict ∅) (resp !! "order")) as [a|info].
  { intros [= <- <-]. cbn [fst snd]. eexists. split; [exact E2|]. left. exact N2. }
  unfold ret at 1. unfold bind at 1.
  destruct (py_or (dict_get info "status") (AStr "")) as [|q|status].
  1,2: intros [= <- <-]; cbn [fst snd]; eexists; split; [exact E2|]; left; exact N2.
  unfold ret at 1. unfold bind at 1, lift at 1.
  destruct (to_decimal X (dict_get_or info "matchedAmount" (ANum 0))) as [m|e].
  2: { intros [= <- <-]. cbn [fst snd]. eexists. split; [exact E2|]. left. exact N2. }
  unfold bind at 1, lift at 1.
  destruct (to_decimal X (dict_get_or info "Price" _)) as [p|e].
  2: { intros [= <- <-]. cbn [fst snd]. eexists. split; [exact E2|]. left. exact N2. }
  assert (Hcancel : forall msg o (s3 : state W) evs3,
            o <> "FILLED"%string -> trace s3 = trace s ++ evs3 -> Forall no_cancel evs3 ->
            Nbtx.cancel_and_return X oid msg o m (m * p) s3 = (r, s') ->
            exists evs,
              trace s' = trace s ++ evs
              /\ match r with
                 | Ok Nbtx.Again => Forall no_cancel evs
                 | Ok (Nbtx.Return o0 _ _) =>
                     if String.eqb o0 "FILLED" then Forall no_cancel evs
                     else cancelled_last oid evs
                 | Raise e =>
                     Forall no_cancel evs
                     \/ (cancelled_last oid evs
                         /\ exists w, fst (cancel_order X oid w) = Raise e)
                 end).
  { intros msg o s3 evs3 Ho E3 N3 Hc.
    destruct (cancel_and_return_events msg o m (m * p) s3) as (Et & Hr).
    rewrite Hc in Et, Hr. cbn [fst snd] in Et, Hr.
    exists (evs3 ++ [EvLog msg; EvCancelOrder oid]). split.
    - rewrite Et, E3, <- app_assoc. reflexivity.
    - assert (Hl : cancelled_last oid (evs3 ++ [EvLog msg; EvCancelOrder oid])).
      { exists (evs3 ++ [EvLog msg]). split.
        - rewrite <- app_assoc. reflexivity.
        - apply Forall_app. split; [exact N3|repeat constructor]. }
      destruct Hr as [->|(e & -> & Hw)].
      + apply String.eqb_neq in Ho. rewrite Ho. exact Hl.
      + right. split; [exact Hl|exact Hw]. }
  destruct (Nbtx.status_done _ && _).
  { run_monad. intros [= <- <-]. cbn [fst snd trace String.eqb Ascii.eqb Bool.eqb].
    eexists. split; [rewrite <- !app_assoc; reflexivity|]. repeat constructor. }
  destruct (String.eqb side "buy" && _).
  { intros Hc; refine (Hcancel _ _ _ _ _ E2 N2 Hc); discriminate. }
  destruct (String.eqb side "sell" && _).
  { intros Hc; refine (Hcancel _ _ _ _ _ E2 N2 Hc); discriminate. }
  unfold bind at 1.
  destruct (nb_live_diff_adds X coin s2) as (evs1 & E1 & F1).
  apply market_data_no_cancel in F1.
  destruct (Nbtx.live_diff X coin s2) as [[xyz|e] s3]; cbn [snd] in E1.
  2: { intros [= <- <-]. cbn [fst snd]. eexists. split.
       - rewrite E1, E2, <- app_assoc. reflexivity.
       - left. apply Forall_app. split; [exact N2|exact F1]. }
  assert (E3 : trace s3 = trace s ++ ([EvNobitexBook market; EvCheckOrder oid] ++ evs1)).
  { rewrite E1, E2, <- app_assoc. reflexivity. }
  assert (N3 : Forall no_cancel ([EvNobitexBook market; EvCheckOrder oid] ++ evs1)).
  { apply Forall_app. split; [exact N2|exact F1]. }
  destruct (Qltb (mean - k * std) (snd xyz) && _).
  { intros Hc; refine (Hcancel _ _ _ _ _ E3 N3 Hc); discriminate. }
  unfold bind at 1, call_total at 1.
  destruct (time_time X (world s3)) as [now w4].
  destruct (Qgtb (now - start) (inject_Z timeout)).
  { intros Hc; refine (Hcancel _ _ (State w4 (fs s3) (trace s3)) _ _ E3 N3 Hc); discriminate. }
  unfold ret. intros [= <- <-]. cbn [fst snd trace]. eexists. split; [exact E3|exact N3].
Qed.

(** X19: the tracker cancels with discipline.  When it returns NOT_BEST,
    NO_SIGNAL or TIMEOUT it has cancelled the tracked order exactly once, as
    its last call; when it returns FILLED it has cancelled nothing; and when
    it raises, either the exception is the one raised by that one final
    cancellation, or nothing was cancelled and the order is left resting. *)
Theorem tracker_cancels_once (fuel : nat) (poll : Q) (s : state W) :
  let run := Nbtx.track_and_cancel X fuel oid market side timeout mean std k coin poll s in
  exists evs,
    trace (snd run) = trace s ++ evs /\ cancel_discipline X oid (fst run) evs.
Proof.
  cbv zeta. unfold Nbtx.track_and_cancel. run_monad.
  destruct (time_time X (world s)) as [st w0].
  assert (Hloop : forall s1 : state W,
    exists evs,
      trace (snd (Nbtx.track_loop X fuel oid market side timeout mean std k coin poll st s1))
      = trace s1 ++ evs
      /\ cancel_discipline X oid
           (fst (Nbtx.track_loop X fuel oid market side timeout mean std k coin poll st s1))
           evs).
  { induction fuel as [|fuel' IH]; intros s1; cbn [Nbtx.track_loop].
    - exists []. cbn. rewrite app_nil_r. split; [reflexivity|constructor].
    - run_monad.
      destruct (track_tick_cancels st s1) as (evs1 & E1 & H1).
      destruct (Nbtx.track_tick X oid market side timeout mean std k coin st s1)
        as [[[o m n|]|e] s2]; cbn [fst snd] in *.
      + exists evs1. split; [exact E1|]. exact H1.
      + cbn [world fs trace].
        destruct (time_sleep X poll (world s2)) as [[] w3].
        destruct (IH (State w3 (fs s2) (trace s2 ++ [EvSleep poll]))) as (evs2 & E2 & H2).
        cbn [trace] in E2. exists (evs1 ++ [EvSleep poll] ++ evs2). split.
        * rewrite E2, E1, <- !app_assoc. reflexivity.
        * assert (Np : Forall no_cancel (evs1 ++ [EvSleep poll])).
          { apply Forall_app. split; [exact H1|repeat constructor]. }
          rewrite app_assoc.
          destruct (fst (Nbtx.track_loop X fuel' oid market side timeout mean std k coin
                           poll st _)) as [[[[o m] n]|]|e]; cbn [cancel_discipline] in *.
          -- destruct (String.eqb o "FILLED").
             ++ apply Forall_app. split; assumption.
             ++ apply cancelled_last_prefix; assumption.
          -- apply Forall_app. split; assumption.
          -- destruct H2 as [H2|[H2 Hw]].
             ++ left. apply Forall_app. split; assumption.
             ++ right. split; [apply cancelled_last_prefix; assumption|exact Hw].
      + exists evs1. split; [exact E1|]. exact H1. }
  apply (Hloop (State w0 (fs s) (trace s))).
Qed.

End TrackerCancels.

(** ** The maker's loop and the cached position *)

Section MakerCache.
Context {W : Type} (X : Externals W).

Lemma nb_live_diff_quiet (coin : string) : touches eq passive (Nbtx.live_diff X coin).
Proof.
  assert (R : forall f : gmap string file, f = f) by reflexivity.
  assert (T : forall f g h : gmap string file, f = g -> g = h -> f = h)
    by (intros; congruence).
  unfold Nbtx.live_diff. touches_auto.
Qed.

Lemma nb_window_stats_quiet (db : string) (w : Z) :
  touches eq passive (Nbtx.window_stats X db w).
Proof.
  assert (R : forall f : gmap string file, f = f) by reflexivity.
  assert (T : forall f g h : gmap string file, f = g -> g = h -> f = h)
    by (intros; congruence).
  unfold Nbtx.window_stats. touches_auto.
Qed.

(** Without a number in the cache the band guard raises before any order. *)
Lemma trade_phase_not_number (fuel : nat) (cfg : Nbtx.config) (coin : string)
    (ls1 : Nbtx.loop_state) (s : state W) :
  (forall p, lookup_doc (fs s) (Nbtx.pos_store cfg) (upper (coin ++ "USDT")) <> PyFloat p) ->
  exists e s' evs,
    Nbtx.trade_phase X fuel cfg coin ls1 s = (Raise e, s')
    /\ fs s' = fs s /\ trace s' = trace s ++ evs /\ Forall passive evs.
Proof.
  intros Hn. unfold Nbtx.trade_phase. unfold bind at 1.
  destruct (nb_live_diff_quiet coin s) as (F1 & evs1 & E1 & P1).
  destruct (Nbtx.live_diff X coin s) as [[xyz|e] s1]; cbn [fst snd] in *.
  2: { exists e, s1, evs1. auto. }
  unfold bind at 1, call at 1.
  destruct (read_balance X coin (Nbtx.balance_path cfg) (world s1)) as [[b|e] w2].
  2: { eexists _, _, (evs1 ++ [EvReadBalance coin (Raise e)]).
       split; [reflexivity|]. cbn [fs trace]. rewrite E1, <- app_assoc.
       split; [auto|]. split; [reflexivity|].
       apply Forall_app. split; [exact P1|repeat constructor]. }
  unfold bind at 1. rewrite within_tobit_window_not_number.
  - eexists _, _, (evs1 ++ [EvReadBalance coin (Ok b)]).
    split; [reflexivity|]. cbn [fs trace]. rewrite E1, <- app_assoc.
    split; [auto|]. split; [reflexivity|].
    apply Forall_app. split; [exact P1|repeat constructor].
  - cbn [fs]. rewrite <- F1. exact Hn.
Qed.

Lemma guarded_trade_phase_not_number (fuel : nat) (cfg : Nbtx.config) (coin : string)
    (ls1 : Nbtx.loop_state) (s : state W) :
  (forall p, lookup_doc (fs s) (Nbtx.pos_store cfg) (upper (coin ++ "USDT")) <> PyFloat p) ->
  exists s' evs,
    Nbtx.guarded X ls1 (Nbtx.trade_phase X fuel cfg coin ls1) s = (Ok (Some ls1), s')
    /\ fs s' = fs s /\ trace s' = trace s ++ evs /\ Forall passive evs.
Proof.
  intros Hn. destruct (trade_phase_not_number fuel cfg coin ls1 s Hn)
    as (e & s1 & evs & E & F1 & T1 & P1).
  unfold Nbtx.guarded, try_except. rewrite E. unfold sleep. run_monad.
  cbn [world fs trace]. destruct (time_sleep X 3 (world s1)) as [[] w].
  eexists _, (evs ++ [EvLog "[NB] error"; EvSleep 3]). split; [reflexivity|].
  cbn [fs trace]. split; [exact F1|]. split.
  - rewrite T1, <- !app_assoc. reflexivity.
  - apply Forall_app. split; [exact P1|repeat constructor].
Qed.

(** The same for a whole cycle, as one equation. *)
Lemma nb_cycle_not_number (fuel : nat) (cfg : Nbtx.config) (coin : string)
    (ls : Nbtx.loop_state) (s : state W) :
  (forall p, lookup_doc (fs s) (Nbtx.pos_store cfg) (upper (coin ++ "USDT")) <> PyFloat p) ->
  exists ls' s' evs,
    Nbtx.cycle X fuel cfg coin ls s = (Ok (Some ls'), s')
    /\ Nbtx.buys ls' = Nbtx.buys ls /\ Nbtx.sells ls' = Nbtx.sells ls
    /\ fs s' = fs s /\ trace s' = trace s ++ evs /\ Forall passive evs.
Proof.
  intros Hn. unfold Nbtx.cycle.
  unfold Nbtx.guarded at 1. unfold try_except at 1.
  assert (Hh : forall (s1 : state W) evs1,
            fs s1 = fs s -> trace s1 = trace s ++ evs1 -> Forall passive evs1 ->
            exists ls' s' evs,
              (log "[NB] error" ;; sleep X 3 ;; ret (Some ls))%py s1 = (Ok (Some ls'), s')
              /\ Nbtx.buys ls' = Nbtx.buys ls /\ Nbtx.sells ls' = Nbtx.sells ls
              /\ fs s' = fs s /\ trace s' = trace s ++ evs /\ Forall passive evs).
  { intros s1 evs1 F1 T1 P1. unfold sleep. run_monad. cbn [world fs trace].
    destruct (time_sleep X 3 (world s1)) as [[] w].
    eexists _, _, (evs1 ++ [EvLog "[NB] error"; EvSleep 3]).
    split; [reflexivity|]. cbn [fs trace]. repeat split; [exact F1| |].
    - rewrite T1, <- !app_assoc. reflexivity.
    - apply Forall_app. split; [exact P1|repeat constructor]. }
  unfold sleep at 1. unfold bind at 1 2, emit at 1, call_total at 1.
  cbn [world fs trace].
  destruct (time_sleep X (Nbtx.interval_sec cfg) (world s)) as [[] w0].
  unfold bind at 1, call_total at 1. cbn [world fs trace].
  destruct (time_time X w0) as [now w1].
  set (s1 := State w1 (fs s) (trace s ++ [EvSleep (Nbtx.interval_sec cfg)])).
  assert (P0 : Forall passive [EvSleep (Nbtx.interval_sec cfg)]) by (repeat constructor).
  assert (Hgo : forall (ls1 : Nbtx.loop_state) (s2 : state W) evs2,
            fs s2 = fs s -> trace s2 = trace s ++ evs2 -> Forall passive evs2 ->
            Nbtx.buys ls1 = Nbtx.buys ls -> Nbtx.sells ls1 = Nbtx.sells ls ->
            exists ls' s' evs,
              Nbtx.guarded X ls1 (Nbtx.trade_phase X fuel cfg coin ls1) s2
              = (Ok (Some ls'), s')
              /\ Nbtx.buys ls' = Nbtx.buys ls /\ Nbtx.sells ls' = Nbtx.sells ls
              /\ fs s' = fs s /\ trace s' = trace s ++ evs /\ Forall passive evs).
  { intros ls1 s2 evs2 F2 T2 P2 Hb Hs.
    destruct (guarded_trade_phase_not_number fuel cfg coin ls1 s2)
      as (s3 & evs3 & E3 & F3 & T3 & P3).
    { rewrite F2. exact Hn. }
    exists ls1, s3, (evs2 ++ evs3). split; [exact E3|].
    repeat split; [exact Hb|exact Hs|congruence| |].
    - rewrite T3, T2, <- app_assoc. reflexivity.
    - apply Forall_app. split; assumption. }
  destruct (Qgtb (now - Nbtx.last_stats ls) (inject_Z (Nbtx.window_min cfg * 60))).
  - unfold bind at 1. unfold bind at 1.
    destruct (nb_window_stats_quiet (Nbtx.obs_db_path cfg) (Nbtx.window_min cfg) s1)
      as (F2 & evs2 & T2 & P2).
    destruct (Nbtx.window_stats X (Nbtx.obs_db_path cfg) (Nbtx.window_min cfg) s1)
      as [[r|e] s2]; cbn [fst snd] in *.
    + unfold bind at 1, log at 1, emit at 1. unfold ret at 1. cbv beta iota.
      cbn [fst snd].
      assert (T3 : trace s2 ++ [EvLog "[NB] mean std n"]
                   = trace s ++ ([EvSleep (Nbtx.interval_sec cfg)] ++ evs2
                                 ++ [EvLog "[NB] mean std n"])).
      { rewrite T2. unfold s1. cbn [trace]. rewrite <- !app_assoc. reflexivity. }
      assert (P3 : Forall passive ([EvSleep (Nbtx.interval_sec cfg)] ++ evs2
                                   ++ [EvLog "[NB] mean std n"])).
      { apply Forall_app. split; [exact P0|]. apply Forall_app.
        split; [exact P2|repeat constructor]. }
      destruct (Qle_bool (snd (fst r)) 0).
      * unfold ret. eexists _, _, _. split; [reflexivity|].
        cbn [fs trace Nbtx.buys Nbtx.sells].
        repeat split; [symmetry; exact F2|exact T3|exact P3].
      * lazymatch goal with
        | |- context [Nbtx.guarded X ?l _ ?st] =>
            destruct (Hgo l st _ (eq_sym F2) T3 P3 eq_refl eq_refl)
              as (ls' & s' & evs & E & Hb & Hs & F4 & T4 & P4)
        end.
        rewrite E. exists ls', s', evs. repeat split; assumption.
    + apply (Hh s2 ([EvSleep (Nbtx.interval_sec cfg)] ++ evs2)).
      * symmetry. exact F2.
      * rewrite T2. unfold s1. cbn [trace]. rewrite <- app_assoc. reflexivity.
      * apply Forall_app. split; assumption.
  - unfold bind at 1, ret at 1. cbv beta iota. cbn [fst snd].
    destruct (Hgo ls s1 _ eq_refl eq_refl P0 eq_refl eq_refl)
      as (ls' & s' & evs & E & Hb & Hs & F4 & T4 & P4).
    rewrite E. exists ls', s', evs. repeat split; assumption.
Qed.

(** X20: the maker trades only on a numeric cached position.  When the
    position file holds no bare number under the symbol (nothing at all, or
    the record that [write_pos] stores), a cycle of the maker's loop places
    no order on either venue, records no trade, and leaves the files as they
    are, so that the next cycle starts from the same cache. *)
Theorem nb_cycle_needs_numeric_position (fuel : nat) (cfg : Nbtx.config) (coin : string)
    (ls : Nbtx.loop_state) (s : state W) :
  (forall p, lookup_doc (fs s) (Nbtx.pos_store cfg) (upper (coin ++ "USDT")) <> PyFloat p) ->
  let run := Nbtx.cycle X fuel cfg coin ls s in
  (exists ls', fst run = Ok (Some ls')
               /\ Nbtx.buys ls' = Nbtx.buys ls /\ Nbtx.sells ls' = Nbtx.sells ls)
  /\ fs (snd run) = fs s
  /\ exists evs, trace (snd run) = trace s ++ evs /\ Forall passive evs.
Proof.
  intros Hn. cbv zeta.
  destruct (nb_cycle_not_number fuel cfg coin ls s Hn)
    as (ls' & s' & evs & E & Hb & Hs & F1 & T1 & P1).
  rewrite E. cbn [fst snd]. eauto 10.
Qed.

End MakerCache.

(** ** The position stored after a fill *)

Lemma atom_eqb_refl (a : atom) : atom_eqb a a = true.
Proof.
  destruct a as [|q|t]; cbn; [reflexivity| |apply String.eqb_refl].
  apply Qeq_bool_iff. reflexivity.
Qed.

Lemma dict_eqb_refl (d : gmap string atom) : dict_eqb d d = true.
Proof.
  unfold dict_eqb. rewrite bool_decide_eq_true_2 by reflexivity. cbn [andb].
  apply forallb_forall. intros [k v] Hin. cbn [fst snd].
  apply list_elem_of_In in Hin. apply elem_of_map_to_list in Hin.
  rewrite Hin. apply atom_eqb_refl.
Qed.

Lemma pyval_eqb_refl (v : pyval) : pyval_eqb v v = true.
Proof. destruct v; [apply atom_eqb_refl|apply dict_eqb_refl]. Qed.

Section AfterFill.
Context {W : Type} (X : Externals W).

Lemma get_coinex_pos_files (symbol path : string) (s : state W) :
  fs (snd (Cnx.get_coinex_pos X symbol path s)) = fs s.
Proof.
  assert (R : forall f : gmap string file, f = f) by reflexivity.
  assert (T : forall f g h : gmap string file, f = g -> g = h -> f = h)
    by (intros; congruence).
  assert (H : touches eq (fun _ => True) (Cnx.get_coinex_pos X symbol path)).
  { unfold Cnx.get_coinex_pos. touches_auto.
    all: first [ apply cx_sum_positions_touches | apply read_pos_touches ]; assumption. }
  destruct (H s) as [E _]. symmetry. exact E.
Qed.

(** What the filled branch does once the position to store is known. *)
Lemma filled_store_run (cfg : Cnx.config) (sym side : string) (cur need : Q)
    (s s1 : state W) (v : pyval) (q : Q) :
  Cnx.get_coinex_pos X sym (Cnx.pos_store_path cfg) s = (Ok v, s1) ->
  (if pyval_eqb v (lookup_doc (fs s) (Cnx.pos_store_path cfg) (upper sym))
   then PyFloat (cur + (if String.eqb side "buy" then need else - need))
   else v) = PyFloat q ->
  base_doc (fs s) (Cnx.pos_store_path cfg) <> None ->
  exists s',
    Cnx.store_after_attempt X cfg sym cur need side true s = (Ok tt, s')
    /\ stored_field (fs s') (Cnx.pos_store_path cfg) sym "q" = Some (ANum q).
Proof.
  intros Hg Hv Hb. unfold Cnx.store_after_attempt. cbv zeta.
  assert (F1 : fs s1 = fs s).
  { rewrite <- (get_coinex_pos_files sym (Cnx.pos_store_path cfg) s). rewrite Hg.
    reflexivity. }
  unfold bind at 1. rewrite Hg. unfold bind at 1. rewrite read_pos_run.
  rewrite F1, Hv. unfold bind at 1, lift at 1. cbn [as_number PyFloat].
  unfold bind at 1. rewrite write_pos_run. cbv zeta. rewrite F1.
  destruct (base_doc (fs s) (Cnx.pos_store_path cfg)) as [d|]; [|congruence].
  unfold log, emit. cbn [fst snd fs world trace].
  eexists. split; [reflexivity|]. cbn [fs]. unfold stored_field, lookup_doc.
  rewrite lookup_after_replace, lookup_insert_eq. cbn [from_option id].
  apply pos_record_q.
Qed.

(** X21: the position stored after an attempt that answered true, [need]
    being the quantity asked of [fok_taker], before its rounding.  When the
    live query fails, the quantity stored is the previous position moved by
    [need] (up for a buy, down otherwise), whatever was traded; when it
    answers a position that differs from what the cache holds, that position
    is stored as it is. *)
Theorem store_after_fill (cfg : Cnx.config) (sym side : string) (cur need : Q)
    (s : state W) :
  let path := Cnx.pos_store_path cfg in
  let run := Cnx.store_after_attempt X cfg sym cur need side true s in
  base_doc (fs s) path <> None ->
  (forall e w,
     cx_signed_request X "GET" "/futures/position" sym (world s) = (Raise e, w) ->
     fst run = Ok tt
     /\ stored_field (fs (snd run)) path sym "q"
        = Some (ANum (cur + (if String.eqb side "buy" then need else - need))))
  /\ (forall v s1,
        Cnx.get_coinex_pos X sym path s = (Ok (PyFloat v), s1) ->
        pyval_eqb (PyFloat v) (lookup_doc (fs s) path (upper sym)) = false ->
        fst run = Ok tt
        /\ stored_field (fs (snd run)) path sym "q" = Some (ANum v)).
Proof.
  cbv zeta. intros Hb. split.
  - intros e w Hreq.
    destruct (filled_store_run cfg sym side cur need s _ _
                (cur + (if String.eqb side "buy" then need else - need))
                (get_coinex_pos_fallback X sym (Cnx.pos_store_path cfg) s e w Hreq))
      as (s' & E & Hq).
    + rewrite pyval_eqb_refl. reflexivity.
    + exact Hb.
    + rewrite E. split; [reflexivity|exact Hq].
  - intros v s1 Hg Hne.
    destruct (filled_store_run cfg sym side cur need s s1 (PyFloat v) v Hg)
      as (s' & E & Hq).
    + rewrite Hne. reflexivity.
    + exact Hb.
    + rewrite E. split; [reflexivity|exact Hq].
Qed.

End AfterFill.

(** ** Trades recorded by the maker *)

Section MakerTrades.
Context {W : Type} (X : Externals W).

(** X22: what an attempt records.  An attempt that returns leaves the
    statistics as they were and either changes nothing, or appends one
    trade to the list of its own side: a trade with a positive quantity, at
    the weighted limit price, the other list being untouched. *)
Theorem attempt_records (fuel : nat) (cfg : Nbtx.config) (coin : string)
    (ls ls' : Nbtx.loop_state) (side : string) (weight best_bid best_ask : Q)
    (s s' : state W) :
  Nbtx.attempt X fuel cfg coin ls side weight best_bid best_ask s = (Ok (Some ls'), s') ->
  Nbtx.last_stats ls' = Nbtx.last_stats ls
  /\ Nbtx.mean ls' = Nbtx.mean ls /\ Nbtx.std ls' = Nbtx.std ls
  /\ (ls' = ls
      \/ exists tr,
           0 < t_q tr /\ t_side tr = side
           /\ t_p tr = Nbtx.weighted_limit_price side best_bid best_ask weight
           /\ if String.eqb side "buy"
              then Nbtx.buys ls' = Nbtx.buys ls ++ [tr] /\ Nbtx.sells ls' = Nbtx.sells ls
              else Nbtx.buys ls' = Nbtx.buys ls /\ Nbtx.sells ls' = Nbtx.sells ls ++ [tr]).
Proof.
  unfold Nbtx.attempt. cbv zeta.
  unfold bind at 1, lift at 1. destruct (ri X _) as [pri|e]; [|discriminate].
  unfold bind at 1, log at 1, emit at 1.
  unfold bind at 1, call at 1. cbn [world fs trace].
  destruct (new_order X side (Nbtx.order_qty cfg) _ pri (world s)) as [[resp|e] w1];
    [|discriminate].
  unfold bind at 1, lift at 1.
  destruct (parse_order_response X resp) as [verdict|e]; [|discriminate].
  destruct (String.eqb verdict "success").
  2: { unfold log, emit, bind, ret. intros [= <- <-]. auto. }
  unfold bind at 1, lift at 1. destruct (Nbtx.response_order_id resp) as [oid|e];
    [|discriminate].
  unfold bind at 1.
  destruct (Nbtx.track_and_cancel X fuel oid _ side _ _ _ _ coin 2 _)
    as [[[[[o m] n]|]|e] s2]; try discriminate.
  destruct (Qgtb m 0) eqn:Hm.
  - unfold bind at 1, call_total at 1. destruct (now_iso X (world s2)) as [t w3].
    unfold ret. intros [= <- <-]. destruct ls as [l0 m0 d0 b0 s0].
    cbn [Nbtx.last_stats Nbtx.mean Nbtx.std Nbtx.buys Nbtx.sells].
    destruct (String.eqb side "buy") eqn:Hside;
      cbn [Nbtx.last_stats Nbtx.mean Nbtx.std Nbtx.buys Nbtx.sells].
    all: split; [reflexivity|]; split; [reflexivity|]; split; [reflexivity|].
    all: right; eexists (Trade oid _ m t side); cbn [t_q t_side t_p].
    all: rewrite ?Hside; split; [apply Qgtb_gt in Hm; exact Hm|]; auto.
  - unfold ret. intros [= <- <-]. auto.
Qed.

(** X23: the periodic dump loses no trade.  Under the loop's handler the
    dump always returns, with the statistics unchanged.  Below five recorded
    trades nothing is read or written.  The lists are emptied only when the
    recorded trades, appended to what the file held (or to nothing when it
    did not exist), were written successfully; if reading fails otherwise, or
    writing fails, the recorded trades stay in memory. *)
Theorem dump_keeps_trades (cfg : Nbtx.config) (ls : Nbtx.loop_state) (s : state W) :
  let run := Nbtx.guarded X ls
               (ls3 <- Nbtx.periodic_dump X cfg ls ;; ret (Some ls3))%py s in
  let path := Nbtx.trades_path cfg in
  let rd := pd_read_pickle X path (world s) in
  ((length (Nbtx.buys ls) + length (Nbtx.sells ls) < 5)%nat ->
   run = (Ok (Some ls), s))
  /\ exists ls',
       fst run = Ok (Some ls')
       /\ Nbtx.last_stats ls' = Nbtx.last_stats ls
       /\ Nbtx.mean ls' = Nbtx.mean ls /\ Nbtx.std ls' = Nbtx.std ls
       /\ (ls' = ls
           \/ (Nbtx.buys ls' = [] /\ Nbtx.sells ls' = []
               /\ exists d w',
                    (fst rd = Ok d \/ (fst rd = Raise FileNotFoundError /\ d = ([], [])))
                    /\ pd_to_pickle X path
                         (fst d ++ Nbtx.buys ls, snd d ++ Nbtx.sells ls) (snd rd)
                       = (Ok tt, w'))).
Proof.
  cbv zeta. unfold Nbtx.guarded, Nbtx.periodic_dump.
  destruct (5 <=? length (Nbtx.buys ls) + length (Nbtx.sells ls))%nat eqn:Hlen.
  2: { split; [reflexivity|]. exists ls. cbn. auto 6. }
  apply Nat.leb_le in Hlen. split; [lia|].
  assert (Hfail : forall s1 : state W,
            exists ls', fst ((log "[NB] error" ;; sleep X 3 ;; ret (Some ls))%py s1)
                        = Ok (Some ls') /\ ls' = ls).
  { intros s1. unfold sleep. run_monad. cbn [world].
    destruct (time_sleep X 3 _) as [[] w]. eauto. }
  assert (Hkeep : forall s1 : state W,
            exists ls', fst ((log "[NB] error" ;; sleep X 3 ;; ret (Some ls))%py s1)
                        = Ok (Some ls')
              /\ Nbtx.last_stats ls' = Nbtx.last_stats ls
              /\ Nbtx.mean ls' = Nbtx.mean ls /\ Nbtx.std ls' = Nbtx.std ls
              /\ (ls' = ls
                  \/ (Nbtx.buys ls' = [] /\ Nbtx.sells ls' = []
                      /\ exists d w',
                           (fst (pd_read_pickle X (Nbtx.trades_path cfg) (world s)) = Ok d
                            \/ (fst (pd_read_pickle X (Nbtx.trades_path cfg) (world s))
                                = Raise FileNotFoundError /\ d = ([], [])))
                           /\ pd_to_pickle X (Nbtx.trades_path cfg)
                                (fst d ++ Nbtx.buys ls, snd d ++ Nbtx.sells ls)
                                (snd (pd_read_pickle X (Nbtx.trades_path cfg) (world s)))
                              = (Ok tt, w')))).
  { intros s1. destruct (Hfail s1) as (ls' & E & ->). exists ls. auto 10. }
  unfold try_except at 1. unfold bind at 1 2. unfold try_except at 1. unfold call at 1.
  destruct (pd_read_pickle X (Nbtx.trades_path cfg) (world s)) as [[d|e] w1];
    cbn [fst snd].
  - unfold bind at 1, call at 1. cbn [world fs trace fst snd].
    destruct (pd_to_pickle X (Nbtx.trades_path cfg) _ w1) as [[[]|e] w2] eqn:Hw.
    + unfold ret. cbn [fst]. eexists. split; [reflexivity|].
      cbn [Nbtx.last_stats Nbtx.mean Nbtx.std Nbtx.buys Nbtx.sells].
      do 3 (split; [reflexivity|]). right. split; [reflexivity|]. split; [reflexivity|].
      exists d, w2. split; [left; reflexivity|exact Hw].
    + apply Hkeep.
  - destruct e; try apply Hkeep.
    unfold ret at 1. unfold bind at 1, call at 1. cbn [world fs trace fst snd].
    destruct (pd_to_pickle X (Nbtx.trades_path cfg) _ w1) as [[[]|e] w2] eqn:Hw.
    + unfold ret. cbn [fst]. eexists. split; [reflexivity|].
      cbn [Nbtx.last_stats Nbtx.mean Nbtx.std Nbtx.buys Nbtx.sells].
      do 3 (split; [reflexivity|]). right. split; [reflexivity|]. split; [reflexivity|].
      exists ([], []), w2. split; [right; split; reflexivity|exact Hw].
    + apply Hkeep.
Qed.

End MakerTrades.

(** ** The two loops and the position they share *)

(** X24: the maker's guard is open exactly when the hedger is within
    tolerance.  On a numeric cached position the guard of the maker's loop
    answers true if and only if the distance between that position and the
    hedger's target for the same holdings is strictly below [t_units]. *)
Theorem guard_open_iff_hedged {W : Type} (cfg : Nbtx.config) (coin : string)
    (b_units p : Q) (s : state W) :
  lookup_doc (fs s) (Nbtx.pos_store cfg) (upper (coin ++ "USDT")) = PyFloat p ->
  exists ok c lo hi,
    Nbtx.within_tobit_window cfg coin b_units s = (Ok (ok, PyFloat p, c, lo, hi), s)
    /\ (ok = true
        <-> py_abs (Cnx.center_from_b b_units (Nbtx.l_units cfg) (Nbtx.u_units cfg) - p)
            < Nbtx.t_units cfg).
Proof.
  intros H. eexists _, _, _, _. split.
  - apply (within_tobit_window_number cfg coin b_units p s H).
  - unfold Nbtx.within_band, Cnx.center_from_b, py_abs.
    rewrite andb_true_iff, !Qltb_lt.
    set (c := (1 # 2) * (Nbtx.l_units cfg + Nbtx.u_units cfg) - b_units).
    destruct (Qltb (c - p) 0) eqn:E.
    + apply Qltb_lt in E. split; [intros [H1 H2]|intros H1; split]; lra.
    + apply Qltb_ge in E. split; [intros [H1 H2]|intros H1; split]; lra.
Qed.

Section HedgerPosition.
Context {W : Type} (X : Externals W).

Lemma observing_passive (evs : list event) : Forall observing evs -> Forall passive evs.
Proof.
  intros H. eapply List.Forall_impl; [|exact H]. intros ev; destruct ev; cbn; tauto.
Qed.

Lemma cx_live_diff_observing (coin : string) :
  touches eq observing (Cnx.live_diff X coin).
Proof.
  assert (R : forall f : gmap string file, f = f) by reflexivity.
  assert (T : forall f g h : gmap string file, f = g -> g = h -> f = h)
    by (intros; congruence).
  unfold Cnx.live_diff, Cnx.coinex_best. touches_auto.
Qed.

Lemma cx_window_stats_observing (cfg : Cnx.config) (db : string) (w : Z) :
  touches eq observing (Cnx.window_stats X cfg db w).
Proof.
  assert (R : forall f : gmap string file, f = f) by reflexivity.
  assert (T : forall f g h : gmap string file, f = g -> g = h -> f = h)
    by (intros; congruence).
  assert (B : forall n vals, touches eq observing (Cnx.burst X cfg n vals)).
  { induction n as [|n IH]; intros vals; cbn [Cnx.burst].
    - touches_auto.
    - touches_auto; first [apply cx_live_diff_observing | apply IH]. }
  unfold Cnx.window_stats. touches_auto. apply B.
Qed.

(** The cycle under these two conditions, as one equation. *)
Lemma cx_cycle_no_position (cfg : Cnx.config) (coin : string)
    (ls : Cnx.loop_state) (s : state W) :
  (forall w, exists e w',
     cx_signed_request X "GET" "/futures/position" (Cnx.coinex_symbol cfg) w
     = (Raise e, w')) ->
  (forall p, lookup_doc (fs s) (Cnx.pos_store_path cfg) (upper (Cnx.coinex_symbol cfg))
             <> PyFloat p) ->
  exists r s' evs,
    Cnx.cycle X cfg coin ls s = (r, s') /\ fs s' = fs s
    /\ trace s' = trace s ++ evs
    /\ Forall passive evs
    /\ forall b, In (EvReadBalance coin (Ok b)) evs -> r = Raise TypeError.
Proof.
  intros Hdown Hn.
  assert (Hquiet : forall (r : result Cnx.loop_state) (s' : state W) evs,
            fs s' = fs s -> trace s' = trace s ++ evs -> Forall observing evs ->
            exists r0 s0 evs0,
              (r, s') = (r0, s0) /\ fs s0 = fs s /\ trace s0 = trace s ++ evs0
              /\ Forall passive evs0
              /\ forall b, In (EvReadBalance coin (Ok b)) evs0 -> r0 = Raise TypeError).
  { intros r s' evs F1 T1 O1. exists r, s', evs. split; [reflexivity|].
    split; [exact F1|]. split; [exact T1|].
    split; [apply observing_passive; exact O1|].
    intros b Hin. rewrite List.Forall_forall in O1. destruct (O1 _ Hin). }
  unfold Cnx.cycle. cbv zeta.
  unfold sleep at 1. unfold bind at 1 2, emit at 1, call_total at 1.
  cbn [world fs trace].
  destruct (time_sleep X (Cnx.interval_sec cfg) (world s)) as [[] w0].
  unfold bind at 1, call_total at 1. cbn [world fs trace].
  destruct (time_time X w0) as [now w1].
  set (s1 := State w1 (fs s) (trace s ++ [EvSleep (Cnx.interval_sec cfg)])).
  assert (O0 : Forall observing [EvSleep (Cnx.interval_sec cfg)]) by (repeat constructor).
  assert (Hgo : forall (ls1 : Cnx.loop_state) (s2 : state W) evs2,
            fs s2 = fs s -> trace s2 = trace s ++ evs2 -> Forall observing evs2 ->
            exists r0 s0 evs0,
              (xyz <- Cnx.live_diff X coin ;;
               let z := snd xyz in
               let lower := Cnx.mean ls1 - Cnx.k cfg * Cnx.std ls1 in
               let upper := Cnx.mean ls1 + Cnx.k cfg * Cnx.std ls1 in
               if negb (Qgtb z upper || Qltb z lower) then ret ls1
               else
                 b_units <- call (EvReadBalance coin)
                              (read_balance X coin (Cnx.balance_pickle cfg)) ;;
                 let target := Cnx.center_from_b b_units (Cnx.l_units cfg)
                                 (Cnx.u_units cfg) in
                 cur_v <- Cnx.get_coinex_pos X (Cnx.coinex_symbol cfg)
                            (Cnx.pos_store_path cfg) ;;
                 cur <- lift (as_number cur_v) ;;
                 let delta := target - cur in
                 let side := if Qgtb delta 0 then "buy"%string else "sell"%string in
                 let need := py_abs delta in
                 if Qle_bool need (Cnx.min_qty cfg) then ret ls1
                 else
                   best <- Cnx.coinex_best X (Cnx.coinex_symbol cfg) ;;
                   let px := if String.eqb side "buy" then snd best else fst best in
                   log "[CX] z target cur delta" ;;
                   ok <- Cnx.fok_taker X cfg (Cnx.coinex_symbol cfg) side need px
                           (Cnx.qty_precision cfg) (Cnx.price_precision cfg) ;;
                   Cnx.store_after_attempt X cfg (Cnx.coinex_symbol cfg) cur need side ok ;;
                   ret ls1)%py s2
              = (r0, s0) /\ fs s0 = fs s /\ trace s0 = trace s ++ evs0
              /\ Forall passive evs0
              /\ forall b, In (EvReadBalance coin (Ok b)) evs0 -> r0 = Raise TypeError).
  { intros ls1 s2 evs2 F2 T2 O2. unfold bind at 1.
    destruct (cx_live_diff_observing coin s2) as (F3 & evs3 & T3 & O3).
    assert (O23 : Forall observing (evs2 ++ evs3)) by (apply Forall_app; split; assumption).
    assert (T23 : trace (snd (Cnx.live_diff X coin s2)) = trace s ++ (evs2 ++ evs3)).
    { rewrite T3, T2, <- app_assoc. reflexivity. }
    destruct (Cnx.live_diff X coin s2) as [[xyz|e] s3]; cbn [fst snd] in *.
    2: { apply (Hquiet _ _ (evs2 ++ evs3)); [congruence|exact T23|exact O23]. }
    cbv zeta. destruct (negb _).
    { unfold ret. apply (Hquiet _ _ (evs2 ++ evs3)); [congruence|exact T23|exact O23]. }
    unfold bind at 1, call at 1.
    destruct (read_balance X coin (Cnx.balance_pickle cfg) (world s3)) as [[b|e] w4].
    2: { eexists _, _, ((evs2 ++ evs3) ++ [EvReadBalance coin (Raise e)]).
         split; [reflexivity|]. cbn [fs trace]. split; [congruence|]. split.
         { rewrite T23, <- !app_assoc. reflexivity. }
         split.
         - apply Forall_app. split; [apply observing_passive; exact O23|repeat constructor].
         - intros b Hin. apply in_app_iff in Hin. destruct Hin as [Hin|[Hin|[]]].
           + rewrite List.Forall_forall in O23. destruct (O23 _ Hin).
           + discriminate Hin. }
    unfold bind at 1.
    destruct (Hdown w4) as (e & w5 & Hreq).
    rewrite (get_coinex_pos_fallback X (Cnx.coinex_symbol cfg) (Cnx.pos_store_path cfg)
               (State w4 (fs s3) (trace s3 ++ [EvReadBalance coin (Ok b)])) e w5 Hreq).
    cbn [fs trace]. unfold bind at 1, lift at 1.
    assert (Hnum : as_number (lookup_doc (fs s3) (Cnx.pos_store_path cfg)
                                (upper (Cnx.coinex_symbol cfg))) = Raise TypeError).
    { rewrite <- F3, F2.
      destruct (lookup_doc (fs s) _ _) as [[|p|t]|d] eqn:E; try reflexivity.
      exfalso. apply (Hn p). reflexivity. }
    rewrite Hnum.
    eexists _, _, ((evs2 ++ evs3) ++ [EvReadBalance coin (Ok b);
                                      EvCxPosition (Cnx.coinex_symbol cfg)]).
    split; [reflexivity|]. cbn [fs trace]. split; [congruence|]. split.
    { rewrite T23, <- !app_assoc. reflexivity. }
    split.
    - apply Forall_app. split; [apply observing_passive; exact O23|repeat constructor].
    - intros _ _. reflexivity. }
  destruct (Qgtb (now - Cnx.last_stats_ts ls) (inject_Z (Cnx.window_min cfg * 60))).
  - unfold bind at 1. unfold bind at 1.
    destruct (cx_window_stats_observing cfg (Cnx.obs_db_path cfg) (Cnx.window_min cfg) s1)
      as (F2 & evs2 & T2 & O2).
    destruct (Cnx.window_stats X cfg (Cnx.obs_db_path cfg) (Cnx.window_min cfg) s1)
      as [[r|e] s2]; cbn [fst snd] in *.
    + unfold bind at 1, log at 1, emit at 1. unfold ret at 1. cbv beta iota.
      cbn [fst snd].
      assert (T3 : trace s2 ++ [EvLog "[CX] mean std n"]
                   = trace s ++ ([EvSleep (Cnx.interval_sec cfg)] ++ evs2
                                 ++ [EvLog "[CX] mean std n"])).
      { rewrite T2. unfold s1. cbn [trace]. rewrite <- !app_assoc. reflexivity. }
      assert (O3 : Forall observing ([EvSleep (Cnx.interval_sec cfg)] ++ evs2
                                     ++ [EvLog "[CX] mean std n"])).
      { apply Forall_app. split; [exact O0|]. apply Forall_app.
        split; [exact O2|repeat constructor]. }
      destruct (Qle_bool (snd (fst r)) 0).
      * unfold ret. eapply Hquiet; [|exact T3|exact O3]. cbn [fs]. symmetry. exact F2.
      * eapply Hgo; [|exact T3|exact O3]. cbn [fs]. symmetry. exact F2.
    + apply (Hquiet _ _ ([EvSleep (Cnx.interval_sec cfg)] ++ evs2)).
      * symmetry. exact F2.
      * rewrite T2. unfold s1. cbn [trace]. rewrite <- app_assoc. reflexivity.
      * apply Forall_app. split; assumption.
  - unfold bind at 1, ret at 1. cbv beta iota. cbn [fst snd].
    apply (Hgo ls s1 _ eq_refl eq_refl O0).
Qed.

(** X25: the hedger needs a numeric position.  With the live position
    query failing and no bare number under the symbol in the position file
    (nothing, or the record that [write_pos] stores), a cycle of the hedger's
    loop places no order and writes no file; and once it has read the balance,
    that is on a signal, it raises TypeError, which the loop does not
    handle. *)
Theorem cx_cycle_needs_position (cfg : Cnx.config) (coin : string)
    (ls : Cnx.loop_state) (s : state W) :
  (forall w, exists e w',
     cx_signed_request X "GET" "/futures/position" (Cnx.coinex_symbol cfg) w
     = (Raise e, w')) ->
  (forall p, lookup_doc (fs s) (Cnx.pos_store_path cfg) (upper (Cnx.coinex_symbol cfg))
             <> PyFloat p) ->
  let run := Cnx.cycle X cfg coin ls s in
  fs (snd run) = fs s
  /\ exists evs,
       trace (snd run) = trace s ++ evs
       /\ Forall passive evs
       /\ forall b, In (EvReadBalance coin (Ok b)) evs -> fst run = Raise TypeError.
Proof.
  intros Hdown Hn. cbv zeta.
  destruct (cx_cycle_no_position cfg coin ls s Hdown Hn)
    as (r & s' & evs & E & F1 & T1 & P1 & Hb).
  rewrite E. cbn [fst snd]. eauto.
Qed.

End HedgerPosition.

(** * Further runs on the simulated venue *)

(** The mid-weight buy between 100 and 104. *)
Lemma weighted_limit_price_between_witness :
  100 <= Nbtx.weighted_limit_price "buy" 100 104 (1 # 2)
  /\ Nbtx.weighted_limit_price "buy" 100 104 (1 # 2) <= 104.
Proof.
  destruct (weighted_limit_price_between "buy" 100 104 (1 # 2)) as (H & _).
  apply H; vm_compute; discriminate.
Defined.

(** Half a unit at precision zero. *)
Lemma fok_taker_below_step_witness :
  Cnx.fok_taker (Sim.externals Sim.calm) Sim.cx_cfg "BTCUSDT" "buy" (1 # 2) 100 0 0
    Sim.start
  = (Ok true, Sim.start).
Proof.
  apply (fok_taker_below_step (Sim.externals Sim.calm) Sim.cx_cfg "BTCUSDT" "buy"
           (1 # 2) 100 0 0 Sim.start).
  reflexivity.
Defined.

(** Four of ten units matched: the limit order, the wait, the status read,
    the cancellation and the market order back. *)
Lemma fok_taker_calls_witness :
  let run := Cnx.fok_taker (Sim.externals Sim.partial_fill) Sim.cx_cfg "BTCUSDT" "buy"
               10 100 0 0 Sim.start in
  fs (snd run) = fs Sim.start
  /\ exists evs,
       trace (snd run) = trace Sim.start ++ evs
       /\ taker_sequence "BTCUSDT" "buy" (py_max 0 (Cnx.round_qty 10 0))
            (Cnx.round_price 100 0) false evs.
Proof.
  cbv zeta.
  apply (fok_taker_calls (Sim.externals Sim.partial_fill) Sim.cx_cfg "BTCUSDT" "buy"
           10 100 0 0 Sim.start
           (snd (Cnx.fok_taker (Sim.externals Sim.partial_fill) Sim.cx_cfg "BTCUSDT"
                   "buy" 10 100 0 0 Sim.start))
           false).
  vm_compute. reflexivity.
Defined.

(** A refused limit order. *)
Lemma fok_taker_failures_witness :
  Cnx.fok_taker (Sim.externals Sim.open_refused) Sim.cx_cfg "BTCUSDT" "buy" 10 100 0 0
    Sim.start
  = (Ok false,
     State 0%nat (fs Sim.start)
       (trace Sim.start
        ++ [EvCxOpenOrder "BTCUSDT" "buy" "limit"
              (py_max 0 (Cnx.round_qty 10 0)) (Some (Cnx.round_price 100 0));
            EvLog "[CX] order error"])).
Proof.
  destruct (fok_taker_failures (Sim.externals Sim.open_refused) Sim.cx_cfg "BTCUSDT"
              "buy" 10 100 0 0 Sim.start) as (H & _).
  - reflexivity.
  - apply (H (VenueError "refused") 0%nat). reflexivity.
Defined.

(** The first store into an empty file system. *)
Lemma write_pos_frame_witness :
  fs Sim.recorded_store !! "coinex_pos.json.tmp"%string = None
  /\ trace Sim.recorded_store = trace Sim.start.
Proof.
  destruct (write_pos_frame (Sim.externals Sim.calm) "coinex_pos.json" "BTCUSDT" 3
              Sim.start Sim.recorded_store) as (_ & _ & H3 & H4).
  - vm_compute. reflexivity.
  - split; [exact H3|exact H4].
Defined.

Lemma write_pos_by_file_witness :
  let run := PosStore.write_pos (Sim.externals Sim.calm) "coinex_pos.json" "BTCUSDT" 3
               Sim.start in
  fst run = Ok tt
  /\ fs (snd run) !! "coinex_pos.json"%string
     = Some (FObject {[ upper "BTCUSDT" :=
                          PDict (PosStore.pos_record 3 (PosStore.side_of_qty 3)
                                   "2024-01-01T00:00:00") ]}).
Proof.
  destruct (write_pos_by_file (Sim.externals Sim.calm) "coinex_pos.json" "BTCUSDT" 3
              Sim.start) as (H & _).
  cbv zeta. split; [vm_compute; reflexivity|].
  apply H; [left; reflexivity|vm_compute; reflexivity].
Defined.

(** Stored in lower case, read in upper case. *)
Lemma pos_store_case_insensitive_witness :
  fst (PosStore.read_pos "coinex_pos.json" "BTCUSDT"
         (snd (PosStore.write_pos (Sim.externals Sim.calm) "coinex_pos.json" "btcusdt" 3
                 Sim.start)))
  = Ok (PDict (PosStore.pos_record 3 (PosStore.side_of_qty 3) "2024-01-01T00:00:00")).
Proof.
  destruct (pos_store_case_insensitive (Sim.externals Sim.calm) "coinex_pos.json"
              "btcusdt" "BTCUSDT" 3 Sim.start
              (snd (PosStore.write_pos (Sim.externals Sim.calm) "coinex_pos.json"
                      "btcusdt" 3 Sim.start))) as (H & _).
  apply H.
  - reflexivity.
  - vm_compute. reflexivity.
Defined.

(** Three for BTCUSDT, then four for ETHUSDT. *)
Lemma write_pos_twice_witness :
  stored_field (fs Sim.recorded_twice) "coinex_pos.json" "ETHUSDT" "q" = Some (ANum 4)
  /\ stored_field (fs Sim.recorded_twice) "coinex_pos.json" "BTCUSDT" "q" = Some (ANum 3).
Proof.
  destruct (write_pos_twice (Sim.externals Sim.calm) "coinex_pos.json" "BTCUSDT" "ETHUSDT"
              3 4 Sim.start Sim.recorded_store Sim.recorded_twice) as (H1 & H2).
  - vm_compute. reflexivity.
  - vm_compute. reflexivity.
  - split; [exact H1|]. apply H2. vm_compute. discriminate.
Defined.

(** A long position of three, its side in upper case. *)
Lemma get_coinex_pos_live_witness :
  Cnx.get_coinex_pos (Sim.externals Sim.long_3) "BTCUSDT" "coinex_pos.json" Sim.start
  = (Ok (PyFloat (0 + 3)), State 0%nat ∅ [EvCxPosition "BTCUSDT"]).
Proof.
  destruct (get_coinex_pos_live (Sim.externals Sim.long_3) "BTCUSDT" "coinex_pos.json"
              Sim.start [Sim.long_position] 0%nat) as (_ & H & _).
  - reflexivity.
  - discriminate.
  - apply (H Sim.long_position 3 "LONG"%string); vm_compute; reflexivity.
Defined.

(** The live query answers 404 and nothing is cached. *)
Lemma get_coinex_pos_cache_witness :
  Cnx.get_coinex_pos (Sim.externals Sim.calm) "BTCUSDT" "coinex_pos.json" Sim.start
  = (Ok (lookup_doc (fs Sim.start) "coinex_pos.json" (upper "BTCUSDT")),
     State 0%nat (fs Sim.start) (trace Sim.start ++ [EvCxPosition "BTCUSDT"])).
Proof.
  destruct (get_coinex_pos_cache (Sim.externals Sim.calm) "BTCUSDT" "coinex_pos.json"
              Sim.start (Raise (VenueError "404")) 0%nat) as (H & _).
  - reflexivity.
  - apply H. left. exists (VenueError "404"). reflexivity.
Defined.

(** Five stored observations: the estimate counts five samples. *)
Lemma cx_window_stats_samples_witness :
  Cnx.window_stats (Sim.externals Sim.five_obs) Sim.cx_cfg "obs.db" 5 Sim.start
    = (Ok (10, 2, 5%Z), State 0%nat ∅ [EvObsQuery "obs.db" (-300) 0])
  /\ (2 <= 5)%Z.
Proof.
  assert (Hrun : Cnx.window_stats (Sim.externals Sim.five_obs) Sim.cx_cfg "obs.db" 5
                   Sim.start
                 = (Ok (10, 2, 5%Z), State 0%nat ∅ [EvObsQuery "obs.db" (-300) 0])).
  { vm_compute. reflexivity. }
  split; [exact Hrun|].
  destruct (cx_window_stats_samples (Sim.externals Sim.five_obs) Sim.cx_cfg "obs.db" 5
              Sim.start) as (H & _).
  apply (H _ _ _ _ Hrun).
Defined.

(** All books quoted: both versions compute the same difference. *)
Lemma live_diff_agree_witness :
  Nbtx.live_diff (Sim.externals Sim.calm) "BTC" Sim.start
  = Cnx.live_diff (Sim.externals Sim.calm) "BTC" Sim.start.
Proof.
  assert (E : exists v s', Cnx.live_diff (Sim.externals Sim.calm) "BTC" Sim.start
                           = (Ok v, s')).
  { eexists _, _. vm_compute. reflexivity. }
  destruct E as (v & s' & E). rewrite E.
  apply (live_diff_agree (Sim.externals Sim.calm) "BTC" Sim.start s' v). exact E.
Defined.

(** The maker on the record stored by the hedger: nothing is placed. *)
Lemma nb_cycle_needs_numeric_position_witness :
  let run := Nbtx.cycle (Sim.externals Sim.calm) 3 Sim.nb_cfg "BTC" Sim.nb_loop
               Sim.recorded_store in
  (exists ls', fst run = Ok (Some ls')
               /\ Nbtx.buys ls' = Nbtx.buys Sim.nb_loop
               /\ Nbtx.sells ls' = Nbtx.sells Sim.nb_loop)
  /\ fs (snd run) = fs Sim.recorded_store
  /\ exists evs, trace (snd run) = trace Sim.recorded_store ++ evs /\ Forall passive evs.
Proof.
  apply (nb_cycle_needs_numeric_position (Sim.externals Sim.calm) 3 Sim.nb_cfg "BTC"
           Sim.nb_loop Sim.recorded_store).
  intros p. vm_compute. discriminate.
Defined.

(** A filled buy of one unit from a position of two, the live query
    answering 404. *)
Lemma store_after_fill_witness :
  let run := Cnx.store_after_attempt (Sim.externals Sim.calm) Sim.cx_cfg "BTCUSDT"
               2 1 "buy" true Sim.start in
  fst run = Ok tt
  /\ stored_field (fs (snd run)) "coinex_pos.json" "BTCUSDT" "q" = Some (ANum (2 + 1)).
Proof.
  destruct (store_after_fill (Sim.externals Sim.calm) Sim.cx_cfg "BTCUSDT" "buy" 2 1
              Sim.start) as (H & _).
  - vm_compute. discriminate.
  - apply (H (VenueError "404") 0%nat). reflexivity.
Defined.

(** The order of the [finished] scenario: ten units recorded as one buy. *)
Lemma attempt_records_witness :
  exists tr,
    0 < t_q tr
    /\ Nbtx.buys (Nbtx.LoopState 0 1000 200 [Sim.finished_trade] [])
       = Nbtx.buys Sim.nb_loop ++ [tr].
Proof.
  destruct (attempt_records (Sim.externals Sim.finished) 3 Sim.nb_cfg "BTC" Sim.nb_loop
              (Nbtx.LoopState 0 1000 200 [Sim.finished_trade] []) "buy" (1 # 2) 100 104
              Sim.start
              (snd (Nbtx.attempt (Sim.externals Sim.finished) 3 Sim.nb_cfg "BTC"
                      Sim.nb_loop "buy" (1 # 2) 100 104 Sim.start)))
    as (_ & _ & _ & [H|(tr & Hq & _ & _ & Hb & _)]).
  - vm_compute. reflexivity.
  - discriminate H.
  - exists tr. split; [exact Hq|exact Hb].
Defined.

(** A cached position of 5 against the target 5 with tolerance 2. *)
Lemma guard_open_iff_hedged_witness :
  exists ok c lo hi,
    Nbtx.within_tobit_window Sim.nb_cfg "BTC" (-5) (Sim.numeric_store 5)
    = (Ok (ok, PyFloat 5, c, lo, hi), Sim.numeric_store 5)
    /\ (ok = true <-> py_abs (Cnx.center_from_b (-5) (-10) 10 - 5) < 2).
Proof.
  apply (guard_open_iff_hedged Sim.nb_cfg "BTC" (-5) 5 (Sim.numeric_store 5)).
  vm_compute. reflexivity.
Defined.

(** The hedger with the live query answering 404 and an empty cache. *)
Lemma cx_cycle_needs_position_witness :
  let run := Cnx.cycle (Sim.externals Sim.calm) Sim.cx_cfg "BTC" Sim.cx_loop Sim.start in
  fs (snd run) = fs Sim.start
  /\ exists evs,
       trace (snd run) = trace Sim.start ++ evs
       /\ Forall passive evs
       /\ forall b, In (EvReadBalance "BTC" (Ok b)) evs -> fst run = Raise TypeError.
Proof.
  apply (cx_cycle_needs_position (Sim.externals Sim.calm) Sim.cx_cfg "BTC" Sim.cx_loop
           Sim.start).
  - intros w. exists (VenueError "404"), w. reflexivity.
  - intros p. vm_compute. discriminate.
Defined.
